(** * Grade entry: edit history and workbook structure inference

    A shallow embedding of the grade table component
    (src/components/GradeTable.tsx), of the workbook parser
    (utils/excelParser.ts), of the Arabic text utilities
    (utils/arabicUtils.ts) and of the handlers of the page, of the upload
    component and of the mapping card that call them, followed by the
    properties of the edit history, of header-row discovery and of header
    classification, and by those of editing, export, ingestion and search.

    JavaScript objects used as dictionaries are finite maps ([gmap]), arrays
    are lists, and the built-in functions of the language that the code calls
    ([parseFloat], [String.prototype.toLowerCase], regular expressions, ...)
    are the methods of a [Runtime] class: every general theorem holds for any
    behaviour of the built-ins, and a decimal sample runtime is used to
    evaluate the code on concrete inputs. *)

From stdpp Require Import gmap strings list fin_maps pretty.
From Stdlib Require Import ZArith DecimalString.

#[local] Set Warnings "-clear-no-such-hyp".
Local Open Scope Z_scope.

(** ** The JavaScript fragment the code relies on *)

Module JS.

(** The regular-expression literals of the parser, named after the place
    where each one occurs.
    - [ReId]: /id|رقم|كود|رقم الجلوس|код|编号|número/i
    - [ReName]: /name|اسم|الطالب|student|طالب|имя|姓名|nombre/i
    - [ReGrade]: /grade|final|mark|درجة|total|مجموع|نتيجة|оценка|成绩|calificación|quiz|exam|test|امتحان|اختبار/i
    - [ReSheetId], [ReSheetName], [ReSheetGrade]: the three patterns of
      enhanceHeaderMappingForEmptySheet, which extend the former ones with
      alternatives such as student.*id
    - [ReDigits]: /^\d+$/
    - [ReArabicLetter]: /[أ-ي]/ *)
Inductive regexp :=
| ReId | ReName | ReGrade
| ReSheetId | ReSheetName | ReSheetGrade
| ReDigits | ReArabicLetter.

Class Runtime := {
  (** the Number type, with NaN and the infinities among its elements *)
  number : Type;
  parseFloat : string → number;
  isNaN : number → bool;
  (** ToBoolean: false on +0, -0 and NaN *)
  number_truthy : number → bool;
  (** [===] on two numbers *)
  number_strict_eq : number → number → bool;
  (** [n > k] for an integer literal [k] *)
  number_gt : number → Z → bool;
  (** [String(n)] *)
  number_to_string : number → string;
  toLowerCase : string → string;
  trim : string → string;
  (** [re.test(s)] *)
  test : regexp → string → bool;
}.

Section Values.
Context {RT : Runtime}.

(** Scalar values held by sheet cells, row records and the grade store. *)
Inductive value :=
| VStr (s : string)
| VNum (n : number)
| VBool (b : bool).

Definition nonempty (s : string) : bool :=
  match s with EmptyString => false | String _ _ => true end.

(** ToBoolean *)
Definition truthy (v : value) : bool :=
  match v with
  | VStr s => nonempty s
  | VNum n => number_truthy n
  | VBool b => b
  end.

(** [x || ""] where [x] may be [undefined] *)
Definition or_empty (x : option value) : value :=
  match x with
  | Some v => if truthy v then v else VStr ""
  | None => VStr ""
  end.

(** [a === b] *)
Definition strict_eq (a b : value) : bool :=
  match a, b with
  | VStr s, VStr t => String.eqb s t
  | VNum n, VNum m => number_strict_eq n m
  | VBool x, VBool y => Bool.eqb x y
  | _, _ => false
  end.

(** [String(v)] *)
Definition to_string (v : value) : string :=
  match v with
  | VStr s => s
  | VNum n => number_to_string n
  | VBool true => "true"
  | VBool false => "false"
  end.

(** The property key under which [obj[x]] reads or writes. *)
Definition prop_key (x : option value) : string :=
  match x with
  | Some v => to_string v
  | None => "undefined"
  end.

End Values.

#[export] Instance value_eq_dec {RT : Runtime} `{!EqDecision number} : EqDecision value.
Proof. solve_decision. Defined.

(** [Number(s)] on a string, which the parser uses besides [parseFloat]. *)
Class Conversion {RT : Runtime} := {
  Number_of_string : string → number;
}.

(** [s.startsWith(prefix)] *)
Fixpoint startsWith (s prefix : string) : bool :=
  match prefix, s with
  | EmptyString, _ => true
  | String p prefix, String c s => Ascii.eqb c p && startsWith s prefix
  | String _ _, EmptyString => false
  end.

(** [hay.includes(needle)] *)
Fixpoint includes (hay needle : string) : bool :=
  startsWith hay needle ||
  match hay with
  | EmptyString => false
  | String _ rest => includes rest needle
  end.

(** [l.slice(start, stop)], with negative indices counted from the end. *)
Definition slice {A} (l : list A) (start stop : Z) : list A :=
  let len := Z.of_nat (length l) in
  let k := if start <? 0 then Z.max (len + start) 0 else Z.min start len in
  let final := if stop <? 0 then Z.max (len + stop) 0 else Z.min stop len in
  take (Z.to_nat (final - k)) (drop (Z.to_nat k) l).

(** [l.slice(start)] *)
Definition slice_from {A} (l : list A) (start : Z) : list A :=
  slice l start (Z.of_nat (length l)).

(** [l[i]], [None] standing for [undefined]. *)
Definition at_index {A} (l : list A) (i : Z) : option A :=
  if i <? 0 then None else l !! Z.to_nat i.

(** [l.findIndex(f)] and [l.indexOf(x)], -1 when there is none. *)
Fixpoint findIndex {A} (f : A → bool) (l : list A) : Z :=
  match l with
  | [] => -1
  | y :: l =>
      if f y then 0
      else let i := findIndex f l in if i <? 0 then -1 else 1 + i
  end.

Definition indexOf (l : list string) (x : string) : Z := findIndex (String.eqb x) l.

End JS.

(** ** types/index.ts *)

Module Types.

Record HeaderMapping := mkHeaderMapping {
  id : string;
  name : string;
  grade : string;
  gradeColumns : list string;
}.

#[global] Instance HeaderMapping_eq_dec : EqDecision HeaderMapping.
Proof. solve_decision. Defined.

End Types.

(** ** components/GradeTable.tsx *)

Module GradeTable.
Import JS.

Section Component.
Context {RT : Runtime}.

Abbreviation row := (gmap string value).
Abbreviation store := (gmap string (gmap string value)).

Record EditHistoryEntry := mkEntry {
  studentId : value;
  column : string;
  oldValue : value;
  newValue : value;
  timestamp : Z;
  studentName : option value;
}.

(** The component state (the [useState] cells the handlers read or write). *)
Record State := mkState {
  grades : store;
  editHistory : list EditHistoryEntry;
  currentHistoryIndex : Z;
  editingCell : option (value * string);
  tempGrade : string;
  showUndoHistory : bool;
}.

Inductive toast :=
| InvalidGrade | GradeUpdated
| UndoRestored | NoMoreUndo
| RedoApplied | NoMoreRedo
| HistoryJump (point : Z)
| HistoryCleared.

(** The props of the component. *)
Variable students : list row.
Variable mapping : Types.HeaderMapping.

Definition getAllGradeColumns : list string :=
  filter (λ c, nonempty c = true) (Types.grade mapping :: Types.gradeColumns mapping).

(** [grades[studentId][column] = v], creating the student's record when it
    is missing: the update every handler performs. *)
Definition setGrade (studentId column : string) (v : value) (g : store) : store :=
  <[studentId := <[column := v]> (default ∅ (g !! studentId))]> g.

(** [grades[studentId]?.[column]] *)
Definition getGrade (g : store) (studentId column : string) : option value :=
  g !! studentId ≫= (.!! column).

(** The effect that initialises the grades from the students data and merges
    the grades saved in localStorage ([saved] is [None] when nothing is saved
    or when the saved text does not parse). *)
Definition initialGradesOf (student : row) : gmap string value :=
  let g0 : gmap string value :=
    if nonempty (Types.grade mapping) then
      match student !! Types.grade mapping with
      | Some v => {[ Types.grade mapping := v ]}
      | None => ∅
      end
    else ∅ in
  fold_left (λ g c,
      if nonempty c then
        match student !! c with Some v => <[c := v]> g | None => g end
      else g)
    (Types.gradeColumns mapping) g0.

Definition initGrades (saved : option store) : store :=
  let initialGrades :=
    fold_left (λ acc student,
        <[prop_key (student !! Types.id mapping) := initialGradesOf student]> acc)
      students ∅ in
  match saved with
  | Some parsedGrades =>
      map_fold (λ sid parsed acc,
          match acc !! sid with
          | Some own => <[sid := parsed ∪ own]> acc
          | None => acc
          end)
        initialGrades parsedGrades
  | None => initialGrades
  end.

Definition handleGradeChange (st : State) (value : string) : State :=
  mkState (grades st) (editHistory st) (currentHistoryIndex st)
    (editingCell st) value (showUndoHistory st).

Definition addToEditHistory (st : State) (studentId : value) (column : string)
    (oldValue newValue : value) (now : Z) : State :=
  let student :=
    List.find (λ s, match s !! Types.id mapping with
                    | Some v => strict_eq v studentId
                    | None => false
                    end) students in
  let studentName :=
    match student with
    | Some s => s !! Types.name mapping
    | None => Some (VStr "Unknown")
    end in
  let newEntry := mkEntry studentId column oldValue newValue now studentName in
  let newHistory := slice (editHistory st) 0 (currentHistoryIndex st + 1) ++ [newEntry] in
  let history' :=
    if 50 <? Z.of_nat (length newHistory) then slice_from newHistory (-50)
    else newHistory in
  mkState (grades st) history'
    (Z.min (currentHistoryIndex st + 1) (Z.of_nat (length (editHistory st))))
    (editingCell st) (tempGrade st) (showUndoHistory st).

Definition validateGrade (v : string) : bool :=
  if String.eqb v "" then true
  else if isNaN (parseFloat v) then false
  else true.

(** [saveGrade] commits the text being edited ([tempGrade]) to one cell. The
    result is the next state and the toast shown, if any. *)
Definition saveGrade (st : State) (studentId : value) (column : string) (now : Z)
    : State * option toast :=
  if negb (validateGrade (tempGrade st)) then (st, Some InvalidGrade)
  else
    let oldValue := or_empty (getGrade (grades st) (to_string studentId) column) in
    let newValue :=
      if String.eqb (tempGrade st) "" then VStr "" else VNum (parseFloat (tempGrade st)) in
    if strict_eq oldValue newValue then
      (mkState (grades st) (editHistory st) (currentHistoryIndex st)
         None (tempGrade st) (showUndoHistory st), None)
    else
      let st1 := addToEditHistory st studentId column oldValue newValue now in
      (mkState (setGrade (to_string studentId) column newValue (grades st1))
         (editHistory st1) (currentHistoryIndex st1)
         None (tempGrade st1) (showUndoHistory st1), Some GradeUpdated).

(** The handlers below destructure [editHistory[i]]: when that is
    [undefined] they throw a TypeError, modelled by [None]. *)
Definition handleUndo (st : State) : option (State * toast) :=
  if 0 <=? currentHistoryIndex st then
    entry ← at_index (editHistory st) (currentHistoryIndex st);
    Some (mkState
            (setGrade (to_string (studentId entry)) (column entry) (oldValue entry) (grades st))
            (editHistory st)
            (if 0 <? currentHistoryIndex st then currentHistoryIndex st - 1 else -1)
            (editingCell st) (tempGrade st) false,
          UndoRestored)
  else Some (st, NoMoreUndo).

Definition handleRedo (st : State) : option (State * toast) :=
  if currentHistoryIndex st <? Z.of_nat (length (editHistory st)) - 1 then
    entry ← at_index (editHistory st) (currentHistoryIndex st + 1);
    Some (mkState
            (setGrade (to_string (studentId entry)) (column entry) (newValue entry) (grades st))
            (editHistory st)
            (Z.min (currentHistoryIndex st + 1) (Z.of_nat (length (editHistory st)) - 1))
            (editingCell st) (tempGrade st) false,
          RedoApplied)
  else Some (st, NoMoreRedo).

(** First loop of [jumpToHistoryPoint]: every grade column of every student
    goes back to the value of the students data. *)
Definition resetToStudents (g : store) : store :=
  fold_left (λ target student,
      let sid := prop_key (student !! Types.id mapping) in
      let target :=
        match target !! sid with Some _ => target | None => <[sid := ∅]> target end in
      fold_left (λ target column,
          setGrade sid column (or_empty (student !! column)) target)
        getAllGradeColumns target)
    students g.

(** Second loop: [for (let i = 0; i <= index; i++)]. *)
Definition applyChanges (history : list EditHistoryEntry) (index : Z) (g : store)
    : option store :=
  fold_left (λ target i,
      target ← target;
      entry ← history !! i;
      Some (setGrade (to_string (studentId entry)) (column entry) (newValue entry) target))
    (seq 0 (Z.to_nat (index + 1))) (Some g).

Definition jumpToHistoryPoint (st : State) (index : Z) : option (State * toast) :=
  targetGrades ← applyChanges (editHistory st) index (resetToStudents (grades st));
  Some (mkState targetGrades (editHistory st) index
          (editingCell st) (tempGrade st) false,
        HistoryJump (index + 1)).

Definition clearHistory (st : State) : State * toast :=
  (mkState (grades st) [] (-1) (editingCell st) (tempGrade st) false, HistoryCleared).

(** The events of the table that reach the grade store or the history:
    committing a text typed into a cell, undo, redo, a click on a point of
    the history panel. [None] is an uncaught TypeError. *)
Inductive event :=
| Commit (studentId : value) (column text : string) (now : Z)
| Undo
| Redo
| Jump (index : Z).

Definition handle (st : State) (ev : event) : option State :=
  match ev with
  | Commit studentId column text now =>
      Some (saveGrade (handleGradeChange st text) studentId column now).1
  | Undo => fst <$> handleUndo st
  | Redo => fst <$> handleRedo st
  | Jump index => fst <$> jumpToHistoryPoint st index
  end.

Definition handleAll (evs : list event) (st : State) : option State :=
  foldl (λ st ev, st ≫= (λ st, handle st ev)) (Some st) evs.

(** The state of the freshly mounted component when localStorage holds no
    edit history: the grades of the students data merged with the saved
    ones, an empty history and the cursor at -1. *)
Definition mounted (saved : option store) : State :=
  mkState (initGrades saved) [] (-1) None "" false.

(** [grades[studentId]?.[column]?.toString() || ""] *)
Definition gradeText (g : store) (studentId : value) (column : string) : string :=
  match getGrade g (to_string studentId) column with
  | Some v => to_string v
  | None => ""
  end.

(** [startEditing] opens a cell: the text of the edit is the text of the
    cell, and [previousValues] remembers [grades[studentId]?.[column] || ""].
    The state of the component is the [State] above together with
    [previousValues]. *)
Definition startEditing (st : State) (previousValues : store) (studentId : value)
    (column : string) : State * store :=
  (mkState (grades st) (editHistory st) (currentHistoryIndex st)
     (Some (studentId, column)) (gradeText (grades st) studentId column) (showUndoHistory st),
   setGrade (to_string studentId) column
     (or_empty (getGrade (grades st) (to_string studentId) column)) previousValues).

Definition toggleUndoHistory (st : State) : State :=
  mkState (grades st) (editHistory st) (currentHistoryIndex st)
    (editingCell st) (tempGrade st) (negb (showUndoHistory st)).

(** The fields of a keyboard event that the shortcuts read. *)
Record KeyboardEvent := mkKeyboardEvent {
  ctrlKey : bool;
  metaKey : bool;
  shiftKey : bool;
  key : string;
}.

(** The [keydown] listener of the window: Ctrl+Z, Ctrl+Y or Ctrl+Shift+Z,
    Ctrl+H. [None] is an uncaught TypeError of [handleUndo] or
    [handleRedo]. *)
Definition handleShortcut (st : State) (previousValues : store) (e : KeyboardEvent)
    : option (State * option toast) :=
  if (ctrlKey e || metaKey e) && String.eqb (key e) "z" && negb (shiftKey e) then
    match editingCell st with
    | Some (studentId, column) =>
        match getGrade previousValues (to_string studentId) column with
        | Some v =>
            Some (mkState (grades st) (editHistory st) (currentHistoryIndex st)
                    (editingCell st) (to_string v) (showUndoHistory st), None)
        | None => Some (st, None)
        end
    | None => '(st', t) ← handleUndo st; Some (st', Some t)
    end
  else if (ctrlKey e || metaKey e)
          && (String.eqb (key e) "y" || (String.eqb (key e) "z" && shiftKey e)) then
    match editingCell st with
    | Some _ => Some (st, None)
    | None => '(st', t) ← handleRedo st; Some (st', Some t)
    end
  else if (ctrlKey e || metaKey e) && String.eqb (key e) "h" then
    Some (toggleUndoHistory st, None)
  else Some (st, None).

(** The third prop of the component, [filteredStudents], is an argument of
    the functions that read it. *)
Definition getDisplayedStudents (filteredStudents : list row) : list row :=
  if (0 <? length filteredStudents)%nat then filteredStudents else students.

(** [getExportData]. An exported row is an object whose identifier and name
    properties may hold [undefined] ([None]). *)
Definition exportRow (g : store) (student : row) : gmap string (option value) :=
  let studentId := prop_key (student !! Types.id mapping) in
  fold_left (λ (exportRow : gmap string (option value)) column,
      <[column :=
          Some (match getGrade g studentId column with
                | Some v => if truthy v then v else or_empty (student !! column)
                | None => or_empty (student !! column)
                end)]> exportRow)
    getAllGradeColumns
    (<[Types.name mapping := student !! Types.name mapping]>
       {[ Types.id mapping := student !! Types.id mapping ]}).

Definition templateRow : gmap string (option value) :=
  fold_left (λ (templateRow : gmap string (option value)) column,
      <[column := Some (VStr "")]> templateRow)
    getAllGradeColumns
    (<[Types.name mapping := Some (VStr "")]> {[ Types.id mapping := Some (VStr "") ]}).

(** [handleKeyDown] in the input of the open cell. Enter commits, Escape
    closes the edit, Tab commits and then calls [startEditing] on the next
    cell. The result is the state and the toast after the commit or the
    closing, and the arguments of that call to [startEditing], if any: the
    identifier of a student, which the row of the student may lack, and a
    grade column. *)
Definition handleKeyDown (st : State) (filteredStudents : list row) (key : string)
    (studentId : value) (column : string) (now : Z)
    : State * option toast * option (option value * option string) :=
  if String.eqb key "Enter" then (saveGrade st studentId column now, None)
  else if String.eqb key "Escape" then
    (mkState (grades st) (editHistory st) (currentHistoryIndex st)
       None (tempGrade st) (showUndoHistory st), None, None)
  else if String.eqb key "Tab" then
    let saved := saveGrade st studentId column now in
    let displayedStudents := getDisplayedStudents filteredStudents in
    let gradeColumns := getAllGradeColumns in
    let currentColumnIndex := indexOf gradeColumns column in
    if currentColumnIndex <? Z.of_nat (length gradeColumns) - 1 then
      (saved, Some (Some studentId, at_index gradeColumns (currentColumnIndex + 1)))
    else
      let currentStudentIndex :=
        findIndex (λ s : row, match s !! Types.id mapping with
                              | Some v => strict_eq v studentId
                              | None => false
                              end) displayedStudents in
      if currentStudentIndex <? Z.of_nat (length displayedStudents) - 1 then
        match at_index displayedStudents (currentStudentIndex + 1) with
        | Some nextStudent =>
            (saved, Some (nextStudent !! Types.id mapping, at_index gradeColumns 0))
        | None => (saved, None)
        end
      else (saved, None)
  else (st, None, None).

Definition getExportData (g : store) : list (gmap string (option value)) :=
  if (0 <? length students)%nat then map (exportRow g) students else [templateRow].

End Component.

#[export] Instance EditHistoryEntry_eq_dec {RT : Runtime} `{!EqDecision number} :
  EqDecision EditHistoryEntry.
Proof. solve_decision. Defined.

#[export] Instance toast_eq_dec : EqDecision toast.
Proof. solve_decision. Defined.

#[export] Instance State_eq_dec {RT : Runtime} `{!EqDecision number} : EqDecision State.
Proof. solve_decision. Defined.

End GradeTable.

(** ** utils/excelParser.ts *)

Module ExcelParser.
Import JS.

Section Sheets.
Context {RT : Runtime}.

Abbreviation row := (gmap string value).

(** A decoded [!ref] range: start row and column, end row and column. *)
Record Range := mkRange { s_r : nat; s_c : nat; e_r : nat; e_c : nat }.

(** A worksheet: its [!ref] range, when present, and its cell objects by
    (row, column) address. The content of a cell is its [v] field, which
    may be missing ([Some None] is a cell object without a value). *)
Record WorkSheet := mkWorkSheet {
  ref : option Range;
  cells : gmap (nat * nat) (option value);
}.

Record WorkBook := mkWorkBook {
  SheetNames : option (list string);
  Sheets : gmap string WorkSheet;
}.

Record Sheet := mkSheet {
  name : string;
  data : list row;
  headers : list string;
  enhancedMapping : option Types.HeaderMapping;
}.

Record ProcessedExcelData := mkProcessed {
  sheets : list Sheet;
  currentSheet : option Sheet;
  dataHeaders : list string;
  mapping : Types.HeaderMapping;
}.

(** A [File]: [file.size], [file.name], and what the FileReader delivers for
    it (the bytes, or [None] on a read error). *)
Record File := mkFile {
  file_size : Z;
  file_name : string;
  file_content : option (list Byte.byte);
}.

(** The outcome of the promise returned by [parseExcelFile]. *)
Inductive promise :=
| Resolved (d : ProcessedExcelData)
| Rejected (message : string).

End Sheets.

(** The functions of the xlsx library that the parser calls. *)
Class Xlsx {RT : Runtime} := {
  (** [XLSX.read(data, {type: "array"})]; [None] when it throws *)
  read : list Byte.byte → option WorkBook;
  (** [XLSX.utils.sheet_to_json(worksheet)] *)
  sheet_to_json : WorkSheet → list (gmap string value);
  (** [Object.keys(row)], in the enumeration order of the runtime *)
  Object_keys : gmap string value → list string;
}.

Section Parser.
Context {RT : Runtime} {X : Xlsx}.

Abbreviation row := (gmap string value).

(** [XLSX.utils.decode_range(worksheet["!ref"] || "A1")] *)
Definition decode_range (ws : WorkSheet) : Range :=
  default (mkRange 0 0 0 0) (ref ws).

(** The indices visited by [for (let i = lo; i <= hi; ++i)]. *)
Definition from_to (lo hi : nat) : list nat := seq lo (S hi - lo).

Definition rowsOf (ws : WorkSheet) : list nat :=
  from_to (s_r (decode_range ws)) (e_r (decode_range ws)).

Definition colsOf (ws : WorkSheet) : list nat :=
  from_to (s_c (decode_range ws)) (e_c (decode_range ws)).

(** [`Column ${C + 1}`] *)
Definition columnLabel (C : nat) : string := "Column " +:+ pretty (S C).

Definition arabicHeaderPatterns : list string :=
  [ "رقم الجلوس"; "اسم الطالب"; "كود الطالب"; "رقم الطالب";
    "اسم"; "رقم"; "كود"; "طالب"; "درجة"; "امتحان"; "نتيجة"; "مجموع";
    "اختبار"; "م"; "ت"; "المجموع"; "النهائي"; "الدرجة" ].

(** The trimmed text of a cell that has a value, as extractSheetHeaders
    reads it; [None] when the cell is missing, has no value or is blank. *)
Definition cellText (ws : WorkSheet) (R C : nat) : option string :=
  match cells ws !! (R, C) with
  | Some (Some v) =>
      let cellValue := trim (to_string v) in
      if nonempty cellValue then Some cellValue else None
  | _ => None
  end.

Definition hasArabicPattern (cellValue : string) : bool :=
  let lowerValue := toLowerCase cellValue in
  existsb (λ pattern,
      includes lowerValue (toLowerCase pattern) || includes cellValue pattern)
    arabicHeaderPatterns.

(** The inner loop of the header scan over one row: the labels of the row,
    the number of cells bearing a header keyword, and whether any cell has
    content. *)
Definition scanRow (ws : WorkSheet) (R : nat) : list string * nat * bool :=
  fold_left (λ '(rowHeaders, arabicMatchCount, hasContent) C,
      match cellText ws R C with
      | Some cellValue =>
          (rowHeaders ++ [cellValue],
           if hasArabicPattern cellValue then S arabicMatchCount else arabicMatchCount,
           true)
      | None => (rowHeaders ++ [columnLabel C], arabicMatchCount, hasContent)
      end)
    (colsOf ws) ([], 0%nat, false).

(** The outer loop: the running best row, as
    (headerRowIndex, bestHeaderRow, bestMatchCount). *)
Definition scanStep (ws : WorkSheet) (best : Z * list string * nat) (R : nat)
    : Z * list string * nat :=
  let '(headerRowIndex, bestHeaderRow, bestMatchCount) := best in
  let '(rowHeaders, arabicMatchCount, hasContent) := scanRow ws R in
  if hasContent && (0 <? arabicMatchCount)%nat && (bestMatchCount <? arabicMatchCount)%nat
  then (Z.of_nat R, rowHeaders, arabicMatchCount)
  else best.

Definition scanHeaderRows (ws : WorkSheet) : Z * list string * nat :=
  fold_left (scanStep ws) (rowsOf ws) (-1, [], 0%nat).

Definition firstRowHeaders (ws : WorkSheet) : list string :=
  map (λ C, default (columnLabel C) (cellText ws (s_r (decode_range ws)) C)) (colsOf ws).

Definition extractSheetHeaders (ws : WorkSheet) : list string :=
  let range := decode_range ws in
  if (e_r range <? s_r range)%nat || (e_c range <? s_c range)%nat then []
  else
    let '(headerRowIndex, bestHeaderRow, _) := scanHeaderRows ws in
    if (0 <=? headerRowIndex) && (0 <? length bestHeaderRow)%nat then bestHeaderRow
    else firstRowHeaders ws.

(** [cell && cell.v]: the value of a cell when it is truthy. *)
Definition cellTruthy (ws : WorkSheet) (R C : nat) : option value :=
  match cells ws !! (R, C) with
  | Some (Some v) => if truthy v then Some v else None
  | _ => None
  end.

Definition bearsName (value : string) : bool :=
  includes value "اسم الطالب" || includes value "اسم طالب".

Definition bearsId (value : string) : bool :=
  includes value "رقم" || includes value "كود الطالب" || includes value "رقم الجلوس".

(** First scan of processArabicExcelSheet over one row:
    (studentIdColumnIndex, studentNameColumnIndex, hasHeaderInfo). *)
Definition scanRowForHeaderInfo (ws : WorkSheet) (R : nat) : Z * Z * bool :=
  fold_left (λ '(idC, nameC, hasHeaderInfo) C,
      match cellTruthy ws R C with
      | Some v =>
          let value := toLowerCase (to_string v) in
          let '(nameC, hasHeaderInfo) :=
            if bearsName value then (Z.of_nat C, true) else (nameC, hasHeaderInfo) in
          if bearsId value then (Z.of_nat C, nameC, true) else (idC, nameC, hasHeaderInfo)
      | None => (idC, nameC, hasHeaderInfo)
      end)
    (colsOf ws) (-1, -1, false).

(** The rows are visited in order and the scan stops ([break]) at the first
    one with header information:
    (headerRowIndex, studentIdColumnIndex, studentNameColumnIndex). *)
Fixpoint findHeaderInfo (ws : WorkSheet) (rows : list nat) : Z * Z * Z :=
  match rows with
  | [] => (-1, -1, -1)
  | R :: rest =>
      let '(idC, nameC, hasHeaderInfo) := scanRowForHeaderInfo ws R in
      if hasHeaderInfo then (Z.of_nat R, idC, nameC) else findHeaderInfo ws rest
  end.

(** A numeric cell above 1000 whose right neighbour is a string with a
    space. *)
Definition looksLikeStudentRow (ws : WorkSheet) (R C : nat) : bool :=
  match cells ws !! (R, C) with
  | Some (Some (VNum n)) =>
      number_gt n 1000 &&
      match cells ws !! (R, S C) with
      | Some (Some (VStr s)) => includes s " "
      | _ => false
      end
  | _ => false
  end.

(** Second scan, entered with [headerRowIndex < 0]: the inner loop stops at
    the first matching column, the outer one once [headerRowIndex >= 0]. *)
Fixpoint findStudentRow (ws : WorkSheet) (rows : list nat) (found : Z * Z * Z)
    : Z * Z * Z :=
  match rows with
  | [] => found
  | R :: rest =>
      let found :=
        match List.find (looksLikeStudentRow ws R) (colsOf ws) with
        | Some C => (Z.of_nat R - 1, Z.of_nat C, Z.of_nat C + 1)
        | None => found
        end in
      if 0 <=? found.1.1 then found else findStudentRow ws rest found
  end.

(** Both scans: (headerRowIndex, studentIdColumnIndex, studentNameColumnIndex). *)
Definition locateStudents (ws : WorkSheet) : Z * Z * Z :=
  let found := findHeaderInfo ws (rowsOf ws) in
  if found.1.1 <? 0 then findStudentRow ws (rowsOf ws) found else found.

(** [for (const key in row) processed[key] = row[key]] *)
Definition copyRow (r : row) : row :=
  map_fold (λ key v processed, <[key := v]> processed) ∅ r.

Definition headerLabels (ws : WorkSheet) (headerRowIndex : nat) : gmap nat string :=
  fold_left (λ headers C,
      match cellTruthy ws headerRowIndex C with
      | Some v => <[C := to_string v]> headers
      | None => headers
      end)
    (colsOf ws) ∅.

Definition studentOfRow (ws : WorkSheet) (headers : gmap nat string) (R : nat) : row :=
  fold_left (λ student C,
      match headers !! C with
      | Some h =>
          if nonempty h then
            match cells ws !! (R, C) with
            | Some (Some v) => <[h := v]> student
            | _ => <[h := VStr ""]> student
            end
          else student
      | None => student
      end)
    (colsOf ws) ∅.

Definition processArabicExcelSheet (ws : WorkSheet) : list row :=
  let '(headerRowIndex, studentIdColumnIndex, studentNameColumnIndex) := locateStudents ws in
  if (headerRowIndex <? 0) || (studentIdColumnIndex <? 0) || (studentNameColumnIndex <? 0)
  then
    let rawData := sheet_to_json ws in
    if (0 <? length rawData)%nat then map copyRow rawData else []
  else
    let headers := headerLabels ws (Z.to_nat headerRowIndex) in
    let idC := Z.to_nat studentIdColumnIndex in
    let nameC := Z.to_nat studentNameColumnIndex in
    fold_left (λ students R,
        match cells ws !! (R, idC), cells ws !! (R, nameC) with
        | Some _, Some _ =>
            let student := studentOfRow ws headers R in
            if (0 <? size student)%nat then students ++ [student] else students
        | _, _ => students
        end)
      (from_to (S (Z.to_nat headerRowIndex)) (e_r (decode_range ws))) [].

(** *** detectHeaders *)

(** First pass: the first header matching the identifier pattern and the
    first one matching the name pattern. *)
Definition detectIdAndName (headers : list string) : string * string :=
  fold_left (λ '(id, name) header,
      let headerLower := toLowerCase header in
      if test ReId headerLower && negb (nonempty id) then (header, name)
      else if test ReName headerLower && negb (nonempty name) then (id, header)
      else (id, name))
    headers ("", "").

(** Second pass. *)
Definition potentialGradeColumns (id name : string) (headers : list string) : list string :=
  List.filter (λ header,
      negb (String.eqb header id || String.eqb header name) &&
      test ReGrade (toLowerCase header))
    headers.

Definition detectHeaders (headers : list string) : Types.HeaderMapping :=
  let '(id, name) := detectIdAndName headers in
  let potential := potentialGradeColumns id name headers in
  let grade := default "" (head potential) in
  let gradeColumns := tail potential in
  if (0 <? length headers)%nat then
    let id :=
      if negb (nonempty id) then
        default id (List.find (λ header, test ReDigits header || includes header "__EMPTY") headers)
      else id in
    let name :=
      if negb (nonempty name) then
        default name (List.find (λ header, test ReArabicLetter header) headers)
      else name in
    let '(id, name) :=
      if (negb (nonempty id) || negb (nonempty name)) && (2 <=? length headers)%nat then
        (if negb (nonempty id) then default "" (headers !! 0%nat) else id,
         if negb (nonempty name) then default "" (headers !! 1%nat) else name)
      else (id, name) in
    if negb (nonempty grade) && (3 <=? length headers)%nat then
      Types.mkHeaderMapping id name (default "" (headers !! 2%nat))
        (if (3 <? length headers)%nat then
           List.filter (λ h, negb (String.eqb h id) && negb (String.eqb h name))
             (slice_from headers 3)
         else gradeColumns)
    else Types.mkHeaderMapping id name grade gradeColumns
  else Types.mkHeaderMapping id name grade gradeColumns.

(** *** enhanceHeaderMappingForEmptySheet *)

Definition enhanceStep (m : Types.HeaderMapping) (header : string) : Types.HeaderMapping :=
  let headerLower := toLowerCase header in
  if test ReSheetId headerLower && negb (nonempty (Types.id m)) then
    Types.mkHeaderMapping header (Types.name m) (Types.grade m) (Types.gradeColumns m)
  else if test ReSheetName headerLower && negb (nonempty (Types.name m)) then
    Types.mkHeaderMapping (Types.id m) header (Types.grade m) (Types.gradeColumns m)
  else if test ReSheetGrade headerLower then
    if negb (nonempty (Types.grade m)) then
      Types.mkHeaderMapping (Types.id m) (Types.name m) header (Types.gradeColumns m)
    else
      Types.mkHeaderMapping (Types.id m) (Types.name m) (Types.grade m)
        (Types.gradeColumns m ++ [header])
  else m.

Definition enhanceHeaderMappingForEmptySheet (emptySheetHeaders : list string)
    (globalPatterns : option Types.HeaderMapping) : option Types.HeaderMapping :=
  match globalPatterns, emptySheetHeaders with
  | None, _ | _, [] => None
  | Some _, _ =>
      let m := fold_left enhanceStep emptySheetHeaders (Types.mkHeaderMapping "" "" "" []) in
      if negb (nonempty (Types.id m)) && negb (nonempty (Types.name m))
         && negb (nonempty (Types.grade m)) then
        if (2 <=? length emptySheetHeaders)%nat then
          let id := default "" (emptySheetHeaders !! 0%nat) in
          let name := default "" (emptySheetHeaders !! 1%nat) in
          if (3 <=? length emptySheetHeaders)%nat then
            Some (Types.mkHeaderMapping id name (default "" (emptySheetHeaders !! 2%nat))
                    (if (3 <? length emptySheetHeaders)%nat
                     then slice_from emptySheetHeaders 3
                     else Types.gradeColumns m))
          else Some (Types.mkHeaderMapping id name (Types.grade m) (Types.gradeColumns m))
        else Some m
      else Some m
  end.

(** *** parseExcelFile *)

(** [s.split(".")]: never empty. *)
Fixpoint split_dot (s : string) : list string :=
  match s with
  | EmptyString => [EmptyString]
  | String c rest =>
      if Ascii.eqb c (Ascii.ascii_of_nat 46) then EmptyString :: split_dot rest
      else match split_dot rest with
           | seg :: segs => String c seg :: segs
           | [] => [String c EmptyString]
           end
  end.

(** [file.name.split(".").pop()?.toLowerCase()] *)
Definition fileExtension (file : File) : option string :=
  toLowerCase <$> last (split_dot (file_name file)).

Definition isEmptySheet (sheet : Sheet) : bool := (length (data sheet) =? 0)%nat.

(** First pass over one sheet name. A name without a worksheet object makes
    both helpers fail inside their [try] blocks, which return []. *)
Definition processSheet (workbook : WorkBook) (sheetName : string) : Sheet :=
  match Sheets workbook !! sheetName with
  | Some worksheet =>
      mkSheet sheetName (processArabicExcelSheet worksheet) (extractSheetHeaders worksheet) None
  | None => mkSheet sheetName [] [] None
  end.

Definition processWorkbook (sheetNames : list string) (workbook : WorkBook)
    : ProcessedExcelData :=
  let sheets := map (processSheet workbook) sheetNames in
  let nonEmptySheets := List.filter (λ sheet, negb (isEmptySheet sheet)) sheets in
  let globalHeaderPatterns :=
    referenceSheet ← head nonEmptySheets;
    first ← head (data referenceSheet);
    Some (detectHeaders (Object_keys first)) in
  let sheets :=
    map (λ sheet,
        if isEmptySheet sheet && (0 <? length (headers sheet))%nat then
          match enhanceHeaderMappingForEmptySheet (headers sheet) globalHeaderPatterns with
          | Some enhanced =>
              mkSheet (name sheet) (data sheet) (headers sheet) (Some enhanced)
          | None => sheet
          end
        else sheet)
      sheets in
  let currentSheet :=
    match nonEmptySheets with
    | sheet :: _ => Some sheet
    | [] => head sheets
    end in
  let headers :=
    match currentSheet with
    | Some sheet =>
        match data sheet with
        | first :: _ => Object_keys first
        | [] => headers sheet
        end
    | None => []
    end in
  let mapping :=
    match currentSheet with
    | Some sheet =>
        match isEmptySheet sheet, enhancedMapping sheet with
        | true, Some enhanced => enhanced
        | _, _ => detectHeaders headers
        end
    | None => detectHeaders headers
    end in
  mkProcessed sheets currentSheet headers mapping.

Definition parseExcelFile (file : File) : promise :=
  if file_size file <=? 0 then Rejected "The Excel file is empty"
  else
    let fileExtension := fileExtension file in
    if negb (bool_decide (fileExtension = Some "xlsx"))
       && negb (bool_decide (fileExtension = Some "xls")) then
      Rejected "Invalid file format. Please upload an Excel file (.xlsx or .xls)"
    else
      match file_content file with
      | None => Rejected "Error reading the file. Please try again."
      | Some bytes =>
          match read bytes with
          | None =>
              Rejected "Failed to parse the Excel file. The file might be corrupted or in an unsupported format."
          | Some workbook =>
              match SheetNames workbook with
              | None | Some [] => Rejected "The file contains no sheets"
              | Some sheetNames => Resolved (processWorkbook sheetNames workbook)
              end
          end
      end.

(** *** getStudentNames and validateColumnDataType *)

(** [data.map((item) => item[nameField]).filter(Boolean)]; a row holds
    defined values only, so that a missing key stands for [undefined]. *)
Definition getStudentNames (data : list row) (nameField : string) : list value :=
  omap (λ item : row,
      match item !! nameField with
      | Some v => if truthy v then Some v else None
      | None => None
      end)
    data.

Inductive columnType := TNumber | TString.

(** [isNaN(Number(value))]: [Number] leaves a number as it is and reads a
    boolean as 0 or 1. *)
Definition notNumeric {C : Conversion} (v : value) : bool :=
  match v with
  | VStr s => isNaN (Number_of_string s)
  | VNum n => isNaN n
  | VBool _ => false
  end.

(** The loop over the rows; a row without the column is skipped. *)
Fixpoint validateRows {C : Conversion} (data : list row) (columnName : string)
    (expectedType : columnType) : bool :=
  match data with
  | [] => true
  | row :: rest =>
      match row !! columnName with
      | None => validateRows rest columnName expectedType
      | Some v =>
          match expectedType with
          | TNumber =>
              if notNumeric v then false else validateRows rest columnName expectedType
          | TString =>
              match v with
              | VStr _ => validateRows rest columnName expectedType
              | _ => false
              end
          end
      end
  end.

Definition validateColumnDataType {C : Conversion} (data : list row) (columnName : string)
    (expectedType : columnType) : bool :=
  match data with
  | [] => false
  | first :: _ =>
      if negb (nonempty columnName) then false
      else if negb (bool_decide (is_Some (first !! columnName))) then false
      else validateRows data columnName expectedType
  end.

End Parser.
End ExcelParser.

(** ** utils/arabicUtils.ts

    Strings are UTF-8 texts. Each of the letters that [normalizeArabicText]
    replaces, and each letter it puts in place, takes two bytes, and the
    first byte of a letter is never a byte inside another character: the
    characters of [text.split("")] that are replaced are the two-byte
    sequences of the table. *)

Module ArabicUtils.
Import JS.

Definition replacements : list (string * string) :=
  [ ("أ", "ا"); ("إ", "ا"); ("آ", "ا"); ("ة", "ه"); ("ى", "ي"); ("ؤ", "و"); ("ئ", "ي") ].

(** [replacements[char]] *)
Definition replacement (char : string) : option string :=
  snd <$> List.find (λ entry, String.eqb (fst entry) char) replacements.

(** [text.split("").map(char => replacements[char] || char).join("")] *)
Fixpoint normalizeChars (text : string) : string :=
  match text with
  | String a (String b rest as tail) =>
      match replacement (String a (String b EmptyString)) with
      | Some r => r +:+ normalizeChars rest
      | None => String a (normalizeChars tail)
      end
  | _ => text
  end.

Definition normalizeArabicText (text : string) : string :=
  if negb (nonempty text) then "" else normalizeChars text.

Section Search.
Context {RT : Runtime}.

(** [targetText] is a field of a row: it may be missing, and when it is a
    truthy value other than a string, [targetText.toLowerCase] is not a
    function ([None] is that TypeError). *)
Definition arabicSmartSearch (searchTerm : string) (targetText : option value) : option bool :=
  if negb (nonempty searchTerm) then Some false
  else
    match targetText with
    | None => Some false
    | Some v =>
        if negb (truthy v) then Some false
        else
          match v with
          | VStr target =>
              Some (includes (normalizeArabicText (toLowerCase target))
                      (normalizeArabicText (toLowerCase searchTerm)))
          | _ => None
          end
    end.

(** [l.filter(keep)] for a callback that may throw. *)
Fixpoint filterOrThrow {A} (keep : A → option bool) (l : list A) : option (list A) :=
  match l with
  | [] => Some []
  | x :: l =>
      match keep x with
      | Some b =>
          kept ← filterOrThrow keep l;
          Some (if b then x :: kept else kept)
      | None => None
      end
  end.

Definition filterStudentsByName (students : list (gmap string value)) (searchTerm : string)
    (nameField : string) : option (list (gmap string value)) :=
  if negb (nonempty searchTerm) then Some students
  else filterOrThrow (λ student, arabicSmartSearch searchTerm (student !! nameField)) students.

End Search.
End ArabicUtils.

(** ** components/FileUpload.tsx *)

Module FileUpload.
Import JS ExcelParser.

Inductive outcome :=
| Forwarded            (** [onFileUpload(file)] is called *)
| EmptyFile            (** the toast on an empty file *)
| InvalidFileType.     (** the toast on another extension *)

Definition handleFile {RT : Runtime} (file : File) : outcome :=
  let fileExtension := fileExtension file in
  if bool_decide (fileExtension = Some "xlsx") || bool_decide (fileExtension = Some "xls") then
    if file_size file <=? 0 then EmptyFile else Forwarded
  else InvalidFileType.

End FileUpload.

(** ** components/HeaderMapping.tsx *)

Module HeaderMappingCard.
Import JS.

Section Card.
(** The props [headers] and [mapping], and the state
    [additionalGradeColumns] as an argument. Each handler returns the
    columns it passes to [setAdditionalGradeColumns] and to
    [onMappingChange("gradeColumns", ...)]; [None] when it calls neither. *)
Variable headers : list string.
Variable mapping : Types.HeaderMapping.

Definition usedHeaders (additionalGradeColumns : list string) : list string :=
  Types.id mapping :: Types.name mapping :: Types.grade mapping :: additionalGradeColumns.

Definition handleAddGradeColumn (additionalGradeColumns : list string)
    : option (list string) :=
  let availableHeaders :=
    List.filter (λ header, negb (bool_decide (header ∈ usedHeaders additionalGradeColumns)))
      headers in
  match availableHeaders with
  | newColumn :: _ => Some (additionalGradeColumns ++ [newColumn])
  | [] => None
  end.

(** [additionalGradeColumns.filter((_, i) => i !== index)] *)
Definition handleRemoveGradeColumn (additionalGradeColumns : list string) (index : nat)
    : list string :=
  omap id (imap (λ i column, if bool_decide (i = index) then None else Some column)
             additionalGradeColumns).

End Card.
End HeaderMappingCard.

(** ** pages/Index.tsx *)

Module Index.
Import JS ExcelParser.

Inductive step := Upload | Configure | Grades.

Inductive toast :=
| AllSheetsAreEmpty
| FileUploaded
| Error (description : string)
| EmptySheetSelected
| EmptySheet
| Warning
| MappingConfirmed.

Section Page.
Context {RT : Runtime} {X : Xlsx} {C : Conversion}.

Record ExcelData := mkExcelData {
  sheets : list Sheet;
  currentSheet : option Sheet;
  headers : list string;
  mapping : option Types.HeaderMapping;
}.

(** The state of the page that the handlers below read or write (the
    loading flag and the time of the last save are left out; the filtered
    students are recomputed by an effect, modelled as a function of the
    state). *)
Record State := mkState {
  excelData : ExcelData;
  mappingConfirmed : bool;
  activeStep : step;
  searchTerm : string;
}.

Definition noData : ExcelData := mkExcelData [] None [] None.

(** [handleFileUpload], from the outcome of [parseExcelFile(file)]. *)
Definition handleFileUpload (st : State) (file : File) : State * list toast :=
  match parseExcelFile file with
  | Resolved d =>
      if (length (ExcelParser.sheets d) =? 0)%nat then
        (mkState noData (mappingConfirmed st) (activeStep st) (searchTerm st),
         [Error "The file contains no sheets or is empty."])
      else
        let allEmpty :=
          match ExcelParser.currentSheet d with
          | Some sheet =>
              isEmptySheet sheet && forallb isEmptySheet (ExcelParser.sheets d)
          | None => forallb isEmptySheet (ExcelParser.sheets d)
          end in
        (mkState
           (mkExcelData (ExcelParser.sheets d) (ExcelParser.currentSheet d)
              (dataHeaders d) (Some (ExcelParser.mapping d)))
           (mappingConfirmed st) Configure (searchTerm st),
         (if allEmpty then [AllSheetsAreEmpty] else []) ++ [FileUploaded])
  | Rejected message =>
      (mkState noData (mappingConfirmed st) (activeStep st) (searchTerm st), [Error message])
  end.

Definition handleSheetChange (st : State) (sheetName : string) : State * option toast :=
  match List.find (λ sheet, String.eqb (name sheet) sheetName) (sheets (excelData st)) with
  | Some selectedSheet =>
      let headers :=
        match data selectedSheet with
        | first :: _ => Object_keys first
        | [] => ExcelParser.headers selectedSheet
        end in
      let mapping :=
        match isEmptySheet selectedSheet, enhancedMapping selectedSheet with
        | true, Some enhanced => enhanced
        | _, _ => detectHeaders headers
        end in
      (mkState
         (mkExcelData (sheets (excelData st)) (Some selectedSheet) headers (Some mapping))
         false (activeStep st) (searchTerm st),
       if isEmptySheet selectedSheet then Some EmptySheetSelected else None)
  | None => (st, None)
  end.

Definition confirmMapping (st : State) : State * list toast :=
  match mapping (excelData st), currentSheet (excelData st) with
  | Some mapping, Some sheet =>
      if isEmptySheet sheet then
        (mkState (excelData st) true Grades (searchTerm st), [EmptySheet])
      else
        (mkState (excelData st) true Grades (searchTerm st),
         (if nonempty (Types.grade mapping)
             && negb (validateColumnDataType (data sheet) (Types.grade mapping) TNumber)
          then [Warning] else [])
         ++ [MappingConfirmed])
  | _, _ => (st, [Error "Cannot confirm mapping without data."])
  end.

(** The effect that computes [filteredStudents] from the search term; [None]
    is an uncaught TypeError. *)
Definition filteredStudents (st : State) : option (list (gmap string value)) :=
  match currentSheet (excelData st), mapping (excelData st) with
  | Some sheet, Some mapping =>
      if nonempty (searchTerm st) then
        ArabicUtils.filterStudentsByName (data sheet) (searchTerm st) (Types.name mapping)
      else Some []
  | _, _ => Some []
  end.

Definition getStudentSuggestions (st : State) : list value :=
  match currentSheet (excelData st), mapping (excelData st) with
  | Some sheet, Some mapping =>
      if nonempty (Types.name mapping) then getStudentNames (data sheet) (Types.name mapping)
      else []
  | _, _ => []
  end.

(** [handleSelectSuggestion]: the search term becomes the selected name; the
    second component is the identifier passed to [focusGradeInput] of the
    mounted table, if a student is found. *)
Definition handleSelectSuggestion (st : State) (selectedName : string)
    : State * option (option value) :=
  (mkState (excelData st) (mappingConfirmed st) (activeStep st) selectedName,
   match currentSheet (excelData st), mapping (excelData st) with
   | Some sheet, Some mapping =>
       if nonempty (Types.name mapping) && nonempty (Types.id mapping) then
         student ← List.find (λ s : gmap string value,
                      match s !! Types.name mapping with
                      | Some v => strict_eq v (VStr selectedName)
                      | None => false
                      end) (data sheet);
         Some (student !! Types.id mapping)
       else None
   | _, _ => None
   end).

End Page.
End Index.

(** ** A sample runtime

    A runtime on which the code can be run: numbers are exact decimals
    [m * 10^e] (no rounding to binary64, zero has no sign), letter case and
    white space are those of ASCII (Arabic has no letter case), and the
    regular expressions, which are alternations of literals, are tested by
    substring search. *)

Module Sample.
Import JS.

(** The mantissa of [Dec] has no trailing zero, and zero is [Dec 0 0]. *)
Inductive decimal :=
| NaN
| Infinity (negative : bool)
| Dec (m e : Z).

#[export] Instance decimal_eq_dec : EqDecision decimal.
Proof. solve_decision. Defined.

(** Characters are told apart by comparison with the characters of a code
    range. *)
Definition chars (first count : nat) : list Ascii.ascii :=
  map Ascii.ascii_of_nat (seq first count).

Definition among (cs : list Ascii.ascii) (c : Ascii.ascii) : bool :=
  existsb (Ascii.eqb c) cs.

Definition has_code (code : nat) (c : Ascii.ascii) : bool :=
  Ascii.eqb c (Ascii.ascii_of_nat code).

Definition is_digit (c : Ascii.ascii) : bool := among (chars 48 10) c.

Fixpoint position (cs : list Ascii.ascii) (c : Ascii.ascii) : Z :=
  match cs with
  | [] => 0
  | c' :: cs => if Ascii.eqb c c' then 0 else 1 + position cs c
  end.

Definition digit_value (c : Ascii.ascii) : Z := position (chars 48 10) c.

Definition is_space (c : Ascii.ascii) : bool := among (chars 9 5) c || has_code 32 c.

Fixpoint skip_spaces (s : string) : string :=
  match s with
  | String c rest => if is_space c then skip_spaces rest else s
  | EmptyString => s
  end.

(** Splits a run of digits off the text. *)
Fixpoint span_digits (s : string) : string * string :=
  match s with
  | String c rest =>
      if is_digit c then
        let '(ds, rest) := span_digits rest in (String c ds, rest)
      else (EmptyString, s)
  | EmptyString => (EmptyString, s)
  end.

(** The number written by a run of digits. *)
Fixpoint value_of (ds : string) (acc : Z) : Z :=
  match ds with
  | String c ds => value_of ds (10 * acc + digit_value c)
  | EmptyString => acc
  end.

(** A run of digits without its trailing zeros, and how many there were. *)
Fixpoint strip_zeros (ds : string) : string * nat :=
  match ds with
  | String c ds =>
      let '(ds, n) := strip_zeros ds in
      match ds with
      | EmptyString => if has_code 48 c then (EmptyString, S n) else (String c EmptyString, n)
      | _ => (String c ds, n)
      end
  | EmptyString => (EmptyString, 0%nat)
  end.

Definition sign (s : string) : bool * string :=
  match s with
  | String c rest =>
      if has_code 45 c then (true, rest)
      else if has_code 43 c then (false, rest)
      else (false, s)
  | EmptyString => (false, s)
  end.

(** The longest prefix that is a decimal literal, after leading white
    space; [NaN] when there is none. *)
Definition parseFloat (text : string) : decimal :=
  let '(negative, s) := sign (skip_spaces text) in
  if startsWith s "Infinity" then Infinity negative
  else
    let '(int, s) := span_digits s in
    let '(frac, s) :=
      match s with
      | String c rest =>
          if has_code 46 c then span_digits rest else (EmptyString, s)
      | EmptyString => (EmptyString, s)
      end in
    if (String.length int + String.length frac =? 0)%nat then NaN
    else
      let exponent :=
        match s with
        | String c rest =>
            if has_code 101 c || has_code 69 c then
              let '(neg, rest) := sign rest in
              let '(ds, _) := span_digits rest in
              if neg then - value_of ds 0 else value_of ds 0
            else 0
        | EmptyString => 0
        end in
      let '(ds, zeros) := strip_zeros (int +:+ frac) in
      let m := value_of ds 0 in
      if m =? 0 then Dec 0 0
      else Dec (if negative then - m else m)
             (exponent - Z.of_nat (String.length frac) + Z.of_nat zeros).

Definition isNaN (n : decimal) : bool :=
  match n with NaN => true | _ => false end.

Definition number_truthy (n : decimal) : bool :=
  match n with
  | NaN => false
  | Infinity _ => true
  | Dec m _ => negb (m =? 0)
  end.

Definition number_strict_eq (a b : decimal) : bool :=
  match a, b with
  | Infinity x, Infinity y => Bool.eqb x y
  | Dec m e, Dec m' e' => (m =? m') && (e =? e')
  | _, _ => false
  end.

Definition number_gt (n : decimal) (k : Z) : bool :=
  match n with
  | NaN => false
  | Infinity negative => negb negative
  | Dec m e => if 0 <=? e then k <? m * 10 ^ e else k * 10 ^ (- e) <? m
  end.

Fixpoint zeros (n : nat) : string :=
  match n with O => "" | S n => "0" +:+ zeros n end.

Definition natural_to_string (n : Z) : string :=
  NilZero.string_of_uint (N.to_uint (Z.to_N n)).

(** Plain decimal notation (the exponent notation that the language uses
    for very large and very small numbers is not produced). *)
Definition number_to_string (n : decimal) : string :=
  match n with
  | NaN => "NaN"
  | Infinity false => "Infinity"
  | Infinity true => "-Infinity"
  | Dec m e =>
      let sign := if m <? 0 then "-" else "" in
      let ds := natural_to_string (Z.abs m) in
      if 0 <=? e then sign +:+ ds +:+ (if m =? 0 then "" else zeros (Z.to_nat e))
      else
        let k := Z.to_nat (- e) in
        let len := String.length ds in
        if (len <=? k)%nat then sign +:+ "0." +:+ zeros (k - len) +:+ ds
        else sign +:+ String.substring 0 (len - k) ds +:+ "." +:+ String.substring (len - k) k ds
  end.

(** An upper-case letter and the lower-case one differ in one bit. *)
Definition lower (c : Ascii.ascii) : Ascii.ascii :=
  if among (chars 65 26) c then
    match c with
    | Ascii.Ascii b0 b1 b2 b3 b4 _ b6 b7 => Ascii.Ascii b0 b1 b2 b3 b4 true b6 b7
    end
  else c.

Fixpoint toLowerCase (s : string) : string :=
  match s with
  | String c rest => String (lower c) (toLowerCase rest)
  | EmptyString => EmptyString
  end.

Fixpoint trim_end (s : string) : string :=
  match s with
  | String c rest =>
      match trim_end rest with
      | EmptyString => if is_space c then EmptyString else String c EmptyString
      | rest => String c rest
      end
  | EmptyString => EmptyString
  end.

Definition trim (s : string) : string := trim_end (skip_spaces s).

Definition any_of (literals : list string) (s : string) : bool :=
  existsb (includes s) literals.

Fixpoint all_digits (s : string) : bool :=
  match s with
  | String c rest => is_digit c && all_digits rest
  | EmptyString => true
  end.

(** A letter between U+0623 and U+064A, in its two-byte UTF-8 form. *)
Fixpoint has_arabic_letter (s : string) : bool :=
  match s with
  | String c rest =>
      match rest with
      | String d _ =>
          (has_code 216 c && among (chars 163 29) d) || (has_code 217 c && among (chars 128 11) d)
      | EmptyString => false
      end || has_arabic_letter rest
  | EmptyString => false
  end.

Definition idLiterals : list string :=
  [ "id"; "رقم"; "كود"; "رقم الجلوس"; "код"; "编号"; "número" ].
Definition nameLiterals : list string :=
  [ "name"; "اسم"; "الطالب"; "student"; "طالب"; "имя"; "姓名"; "nombre" ].
Definition gradeLiterals : list string :=
  [ "grade"; "final"; "mark"; "درجة"; "total"; "مجموع"; "نتيجة"; "оценка"; "成绩";
    "calificación"; "quiz"; "exam"; "test"; "امتحان"; "اختبار" ].

(** The patterns of the empty-sheet path add alternatives of the shape
    [a.*b] to the lists above; each of them contains a literal of its list,
    so they match nothing more. *)
Definition test (re : regexp) (s : string) : bool :=
  match re with
  | ReId | ReSheetId => any_of idLiterals (toLowerCase s)
  | ReName | ReSheetName => any_of nameLiterals (toLowerCase s)
  | ReGrade | ReSheetGrade => any_of gradeLiterals (toLowerCase s)
  | ReDigits => nonempty s && all_digits s
  | ReArabicLetter => has_arabic_letter s
  end.

#[export] Instance runtime : Runtime := {|
  JS.number := decimal;
  JS.parseFloat := parseFloat;
  JS.isNaN := isNaN;
  JS.number_truthy := number_truthy;
  JS.number_strict_eq := number_strict_eq;
  JS.number_gt := number_gt;
  JS.number_to_string := number_to_string;
  JS.toLowerCase := toLowerCase;
  JS.trim := trim;
  JS.test := test;
|}.

(** A stand-in for the xlsx library around a given container reader: the
    first row of the range gives the keys, every later row with a value
    gives a record, and the keys of a record are listed in the order of the
    map. *)
Definition sheet_to_json (ws : ExcelParser.WorkSheet) : list (gmap string value) :=
  let range := ExcelParser.decode_range ws in
  let key (C : nat) : string :=
    match ExcelParser.cells ws !! (ExcelParser.s_r range, C) with
    | Some (Some v) => to_string v
    | _ => "__EMPTY_" +:+ natural_to_string (Z.of_nat C)
    end in
  let record (R : nat) : gmap string value :=
    fold_left (λ r C,
        match ExcelParser.cells ws !! (R, C) with
        | Some (Some v) => <[key C := v]> r
        | _ => r
        end)
      (ExcelParser.colsOf ws) ∅ in
  List.filter (λ r, (0 <? size r)%nat)
    (map record (ExcelParser.from_to (S (ExcelParser.s_r range)) (ExcelParser.e_r range))).

Definition xlsx (read : list Byte.byte → option ExcelParser.WorkBook) : ExcelParser.Xlsx := {|
  ExcelParser.read := read;
  ExcelParser.sheet_to_json := sheet_to_json;
  ExcelParser.Object_keys := λ r, (map_to_list r).*1;
|}.

(** A worksheet from its rows, the first cell at A1; [None] is a missing
    cell. *)
Definition sheetOfGrid (grid : list (list (option value))) : ExcelParser.WorkSheet :=
  ExcelParser.mkWorkSheet
    (Some (ExcelParser.mkRange 0 0 (length grid - 1)
             (foldr (λ r acc, Nat.max (length r) acc) 0%nat grid - 1)))
    (list_to_map
       (concat (imap (λ R r,
          omap id (imap (λ C cell, (λ v, ((R, C), Some v)) <$> cell) r)) grid))).

#[export] Instance number_eq_dec : EqDecision (@number runtime) := decimal_eq_dec.

End Sample.

(** ** Sessions of the grade table

    The vocabulary of the history properties: the runs of events that stay
    within the part of the behaviour that is designed (no eviction from the
    capped history, cells of the students data, values that [x || ""]
    keeps), the store a replay of the history yields, and the walk to a
    history point by undo and redo alone. *)

Module Session.
Import JS GradeTable.

Section Session.
Context {RT : Runtime}.
Variable students : list (gmap string value).
Variable mapping : Types.HeaderMapping.

(** The values that [x || ""] leaves alone: strings and truthy values. *)
Definition stable (v : value) : bool :=
  match v with VStr _ => true | _ => truthy v end.

Definition studentKeys : list string :=
  map (λ student : gmap string value, prop_key (student !! Types.id mapping)) students.

(** Every grade column of every student holds a stable value. *)
Definition sheetStable : bool :=
  forallb (λ student : gmap string value,
      forallb (λ c, from_option stable false (student !! c)) (getAllGradeColumns mapping))
    students.

(** A cell of the table: a student of the students data and a grade column. *)
Definition seededCell (studentId column : string) : bool :=
  bool_decide (studentId ∈ studentKeys) && bool_decide (column ∈ getAllGradeColumns mapping).

Definition admissible (st : State) (ev : event) : bool :=
  match ev with
  | Commit studentId column text now =>
      seededCell (to_string studentId) column &&
      (currentHistoryIndex st <? 49) &&
      (negb (nonempty text) || isNaN (parseFloat text) || number_truthy (parseFloat text))
  | Undo | Redo => true
  | Jump index => (0 <=? index) && (index <? Z.of_nat (length (editHistory st)))
  end.

(** The state after a run of admissible events, each handled without an
    error; [None] for any other run. *)
Fixpoint session (evs : list event) (st : State) : option State :=
  match evs with
  | [] => Some st
  | ev :: evs =>
      if admissible st ev then handle students mapping st ev ≫= session evs else None
  end.

Definition isCommit (ev : event) : bool :=
  match ev with Commit _ _ _ _ => true | _ => false end.

Definition applyEntry (g : gmap string (gmap string value)) (entry : EditHistoryEntry)
    : gmap string (gmap string value) :=
  setGrade (to_string (studentId entry)) (column entry) (newValue entry) g.

(** The store obtained from [g] by applying the new values of the entries,
    in order. *)
Definition replay (entries : list EditHistoryEntry) (g : gmap string (gmap string value))
    : gmap string (gmap string value) :=
  foldl applyEntry g entries.

Fixpoint undoTimes (n : nat) (st : State) : option State :=
  match n with
  | O => Some st
  | S n => (fst <$> handleUndo st) ≫= undoTimes n
  end.

Fixpoint redoTimes (n : nat) (st : State) : option State :=
  match n with
  | O => Some st
  | S n => (fst <$> handleRedo st) ≫= redoTimes n
  end.

(** From the current history point to [index] by undo, or redo, alone. *)
Definition walkTo (st : State) (index : Z) : option State :=
  if index <? currentHistoryIndex st
  then undoTimes (Z.to_nat (currentHistoryIndex st - index)) st
  else redoTimes (Z.to_nat (index - currentHistoryIndex st)) st.

(** The record a reset leaves for a student, from the record [r] that the
    store holds for that student, and the reset of one student. *)
Definition resetRecord (student r : gmap string value) : gmap string value :=
  fold_left (λ r c, <[c := or_empty (student !! c)]> r) (getAllGradeColumns mapping) r.

Definition resetOne (student : gmap string value) (g : gmap string (gmap string value))
    : gmap string (gmap string value) :=
  let sid := prop_key (student !! Types.id mapping) in
  <[sid := resetRecord student (default ∅ (g !! sid))]> g.

(** The store after the first [n] entries of a history, from the grades the
    component is mounted with when nothing is saved. *)
Definition storeAt (history : list EditHistoryEntry) (n : nat)
    : gmap string (gmap string value) :=
  replay (take n history) (initGrades students mapping None).

(** Every cell of the table holds a stable value. *)
Definition filled (g : gmap string (gmap string value)) : Prop :=
  ∀ k c, seededCell k c = true → ∃ v, getGrade g k c = Some v ∧ stable v = true.

(** The invariant of sessions: the cursor points into the history or just
    before it, the grades are those of the history replayed up to the
    cursor, and every entry is on a cell of the table, brings a stable
    value, and remembers the value its cell had before it. *)
Record consistent (st : State) : Prop := {
  cursor_range :
    -1 ≤ currentHistoryIndex st < Z.of_nat (length (editHistory st));
  grades_replayed :
    grades st = storeAt (editHistory st) (Z.to_nat (currentHistoryIndex st + 1));
  entries_seeded :
    ∀ e, e ∈ editHistory st → seededCell (to_string (studentId e)) (column e) = true;
  entries_stable :
    ∀ e, e ∈ editHistory st → stable (newValue e) = true;
  entries_old :
    ∀ j e, editHistory st !! j = Some e →
      getGrade (storeAt (editHistory st) j) (to_string (studentId e)) (column e)
      = Some (oldValue e);
}.

End Session.
End Session.

(** ** Concrete tables and sheets *)

Module Scenario.
Import JS Sample GradeTable Session.

(** A table of one student, "s1", with one grade column, "G". *)
Definition mapping : Types.HeaderMapping := Types.mkHeaderMapping "ID" "Name" "G" [].

Definition student (grade : value) : gmap string value :=
  {[ "ID" := VStr "s1"; "Name" := VStr "Ann B"; "G" := grade ]}.

Definition num (m : Z) : value := VNum (Dec m 0).

Definition commit (text : string) : event := Commit (VStr "s1") "G" text 0.

(** The table mounted on that student with nothing saved, after the given
    events. *)
Definition table (grade : value) (evs : list event) : option State :=
  handleAll [student grade] mapping evs (mounted [student grade] mapping None).

Definition cell (st : State) : option value := getGrade (grades st) "s1" "G".

(** A second table, with the grade columns "G" and "H". *)
Definition mapping2 : Types.HeaderMapping := Types.mkHeaderMapping "ID" "Name" "G" ["H"].

Definition student2 : gmap string value :=
  {[ "ID" := VStr "s1"; "Name" := VStr "Ann B"; "G" := num 7; "H" := num 7 ]}.

(** One commit to "G", then fifty commits to "H", each one changing the
    cell. *)
Definition evicting : list event :=
  Commit (VStr "s1") "G" "9" 0 ::
  map (λ text, Commit (VStr "s1") "H" text 0) (concat (replicate 25 ["1"; "2"])).

(** The second table after these commits, and after the jump to the last
    entry of its history from there. *)
Definition afterEviction : State :=
  default (mounted [student2] mapping2 None)
    (handleAll [student2] mapping2 evicting (mounted [student2] mapping2 None)).

Definition afterEvictionJump : State :=
  default afterEviction
    (fst <$> jumpToHistoryPoint [student2] mapping2 afterEviction
               (Z.of_nat (length (editHistory afterEviction)) - 1)).

(** Fifty-one commits, each one changing the cell. *)
Definition fiftyOneCommits : list event :=
  map commit (concat (replicate 25 ["1"; "2"]) ++ ["1"]).

(** The first table with the grade 0, and the commit of the text "0" to
    the cell. *)
Definition zeroTable : State := mounted [student (num 0)] mapping None.

Definition zeroCommitted : State * option toast :=
  saveGrade [student (num 0)] mapping (handleGradeChange zeroTable "0") (VStr "s1") "G" 0.

(** The first table with the grade 7 after the commits of "0" and "5" and
    one undo, and after an undo and a redo from there. *)
Definition zeroFiveUndo : State :=
  default (mounted [student (num 7)] mapping None)
    (table (num 7) [commit "0"; commit "5"; Undo]).

Definition zeroFiveUndoUndoRedo : State :=
  default zeroFiveUndo (handleAll [student (num 7)] mapping [Undo; Redo] zeroFiveUndo).

(** A session with two commits, an undo, a redo, a jump back to the first
    entry and a commit from there. *)
Definition sampleSession : list event :=
  [commit "85"; commit "90"; Undo; Redo; Jump 0; commit "70"].

Definition afterSampleSession : State :=
  default (mounted [student (num 7)] mapping None)
    (session [student (num 7)] mapping sampleSession (mounted [student (num 7)] mapping None)).

End Scenario.

(** ** Vocabulary of the parser properties *)

Module Scan.
Import JS ExcelParser.

Section Scan.
Context {RT : Runtime}.

(** Whether the cell at (R, C) bears a header keyword: the cell has a value
    whose trimmed text is not empty and contains one of the eighteen header
    words of extractSheetHeaders (identifier, name and grade words), the
    text and the word both lower-cased or both as written. *)
Definition bearsKeyword (ws : WorkSheet) (R C : nat) : bool :=
  match cells ws !! (R, C) with
  | Some (Some v) =>
      let written := trim (to_string v) in
      nonempty written &&
      existsb (λ word,
          includes (toLowerCase written) (toLowerCase word) || includes written word)
        arabicHeaderPatterns
  | _ => false
  end.

(** The number of cells of row [R] that bear a header keyword. *)
Definition keywordCount (ws : WorkSheet) (R : nat) : nat :=
  length (List.filter (bearsKeyword ws R) (colsOf ws)).

(** Whether the cell at (R, C) bears an identifier or name keyword, as the
    first scan of processArabicExcelSheet tests it. *)
Definition bearsHeaderInfo (ws : WorkSheet) (R C : nat) : bool :=
  match cellTruthy ws R C with
  | Some v => bearsName (toLowerCase (to_string v)) || bearsId (toLowerCase (to_string v))
  | None => false
  end.

(** The number of cells of row [R] that bear an identifier or name keyword. *)
Definition headerInfoCount (ws : WorkSheet) (R : nat) : nat :=
  length (List.filter (bearsHeaderInfo ws R) (colsOf ws)).

(** [R] is the first of the rows with the highest count, which is not zero. *)
Definition firstBest (count : nat → nat) (rows : list nat) (R : nat) : Prop :=
  ∃ before after,
    rows = before ++ R :: after ∧
    (0 < count R)%nat ∧
    (∀ R', R' ∈ before → (count R' < count R)%nat) ∧
    (∀ R', R' ∈ after → (count R' ≤ count R)%nat).

(** [R] is the first of the rows with a count other than zero. *)
Definition firstPositive (count : nat → nat) (rows : list nat) (R : nat) : Prop :=
  ∃ before after,
    rows = before ++ R :: after ∧
    (0 < count R)%nat ∧
    (∀ R', R' ∈ before → count R' = 0%nat).

(** No header matches any pattern or content test of detectHeaders. *)
Definition unmatched (header : string) : bool :=
  negb (test ReId (toLowerCase header)) &&
  negb (test ReName (toLowerCase header)) &&
  negb (test ReGrade (toLowerCase header)) &&
  negb (test ReDigits header) &&
  negb (includes header "__EMPTY") &&
  negb (test ReArabicLetter header).

(** An empty column, or one of the headers. *)
Definition within (headers : list string) (c : string) : Prop := c ≠ "" → c ∈ headers.

(** The columns a mapping assigns: its non-empty identifier, name and
    primary grade columns and its additional grade columns. *)
Definition assigned (m : Types.HeaderMapping) : list string :=
  List.filter nonempty [Types.id m; Types.name m; Types.grade m] ++ Types.gradeColumns m.

(** Additional grade columns are not empty and come with a primary one. *)
Definition gradesInOrder (m : Types.HeaderMapping) : Prop :=
  (Types.gradeColumns m ≠ [] → nonempty (Types.grade m) = true) ∧
  (∀ c, c ∈ Types.gradeColumns m → c ≠ "").

(** Every assigned column of the mapping is one of the headers. *)
Definition columnsWithin (headers : list string) (m : Types.HeaderMapping) : Prop :=
  (Types.id m ≠ "" → Types.id m ∈ headers) ∧
  (Types.name m ≠ "" → Types.name m ∈ headers) ∧
  (Types.grade m ≠ "" → Types.grade m ∈ headers) ∧
  (∀ c, c ∈ Types.gradeColumns m → c ∈ headers).

(** The additional grade columns are pairwise distinct and none is the
    primary grade column. *)
Definition additionalDistinct (m : Types.HeaderMapping) : Prop :=
  NoDup (Types.gradeColumns m) ∧ Types.grade m ∉ Types.gradeColumns m.

(** No additional grade column is the identifier or the name column. *)
Definition additionalApart (m : Types.HeaderMapping) : Prop :=
  (Types.id m ∉ Types.gradeColumns m) ∧ (Types.name m ∉ Types.gradeColumns m).

End Scan.

Import Sample.

Definition text (s : string) : option value := Some (VStr s).

(** Row 0 bears three grade words and no identifier or name keyword, row 1
    an identifier and a name keyword. *)
Definition gradeWordsFirst : WorkSheet :=
  sheetOfGrid [ [ text "درجة"; text "امتحان"; text "نتيجة" ];
                [ text "رقم الطالب"; text "اسم الطالب"; None ];
                [ text "17"; text "Ann B"; text "90" ] ].

(** A sheet with a title above its header row; the title bears a name and
    an identifier keyword. *)
Definition titledSheet : WorkSheet :=
  sheetOfGrid [ [ text "كشف اسم الطالب و رقم الجلوس"; None; None ];
                [ text "رقم الطالب"; text "اسم الطالب"; text "درجة" ];
                [ text "17"; text "Ann B"; text "90" ] ].

(** A sheet without any keyword and without any number. *)
Definition plainSheet : WorkSheet :=
  sheetOfGrid [ [ text "a"; text "b" ];
                [ text "x"; text "y" ];
                [ text "z"; None ] ].

End Scan.

(** ** Vocabulary of the workbook properties *)

Module Labels.
Import JS ExcelParser.

Section Labels.
Context {RT : Runtime}.

(** The labels of row [R]: the trimmed text of each cell of the row, and
    [Column n] for the n-th column of the sheet when the cell is missing
    or blank. *)
Definition rowLabels (ws : WorkSheet) (R : nat) : list string :=
  map (λ C, default (columnLabel C) (cellText ws R C)) (colsOf ws).

(** The range of the sheet holds no cell. *)
Definition inverted (ws : WorkSheet) : bool :=
  (e_r (decode_range ws) <? s_r (decode_range ws))%nat
  || (e_c (decode_range ws) <? s_c (decode_range ws))%nat.

(** The header row, the identifier column and the name column were found. *)
Definition located (ws : WorkSheet) : bool :=
  let '(headerRowIndex, studentIdColumnIndex, studentNameColumnIndex) := locateStudents ws in
  (0 <=? headerRowIndex) && (0 <=? studentIdColumnIndex) && (0 <=? studentNameColumnIndex).

(** The keys of the records of a sheet whose header row is [R]: the
    non-empty texts of the truthy cells of that row. *)
Definition recordKey (ws : WorkSheet) (R : nat) (h : string) : Prop :=
  h ≠ "" ∧ ∃ C, C ∈ colsOf ws ∧ headerLabels ws R !! C = Some h.

(** Row [R] is not the first row of the grid and has a number above 1000
    followed by a text with a space. *)
Definition shaped (ws : WorkSheet) (R : nat) : bool :=
  (0 <? R)%nat && existsb (looksLikeStudentRow ws R) (colsOf ws).

(** No cell of the sheet bears an identifier or name keyword. *)
Definition keywordFree (ws : WorkSheet) : bool :=
  forallb (λ R, (Scan.headerInfoCount ws R =? 0)%nat) (rowsOf ws).

(** The header is not empty and matches the name pattern. *)
Definition namesStudent (header : string) : bool :=
  test ReName (toLowerCase header) && nonempty header.

(** No pattern of enhanceHeaderMappingForEmptySheet matches the header. *)
Definition unrecognised (header : string) : bool :=
  negb (test ReSheetId (toLowerCase header)) &&
  negb (test ReSheetName (toLowerCase header)) &&
  negb (test ReSheetGrade (toLowerCase header)).

(** The value of the column is of the expected type: it converts to a
    number other than NaN, or it is a string. *)
Definition typed {C : Conversion} (expectedType : columnType) (v : value) : bool :=
  match expectedType with
  | TNumber => negb (notNumeric v)
  | TString => match v with VStr _ => true | _ => false end
  end.

(** The third pass of parseExcelFile on one sheet: an empty sheet with
    headers gets the enhanced mapping, when there is one. *)
Definition thirdPass (global : option Types.HeaderMapping) (sheet : Sheet) : Sheet :=
  if isEmptySheet sheet && (0 <? length (headers sheet))%nat then
    match enhanceHeaderMappingForEmptySheet (headers sheet) global with
    | Some enhanced => mkSheet (name sheet) (data sheet) (headers sheet) (Some enhanced)
    | None => sheet
    end
  else sheet.

End Labels.
End Labels.

(** ** Vocabulary of the table properties *)

Module Panel.
Import JS GradeTable.

Section Panel.
Context {RT : Runtime}.

(** A jump comes from a click on an entry of the history panel: its index
    is not negative. *)
Definition fromPanel (ev : event) : bool :=
  match ev with Jump index => 0 <=? index | _ => true end.

(** The history is within its cap and the cursor is between -1 and the
    length of the history. *)
Definition bounded (st : State) : Prop :=
  (length (editHistory st) ≤ 50)%nat ∧
  -1 ≤ currentHistoryIndex st ≤ Z.of_nat (length (editHistory st)).

(** The row is that of the student [studentId]. *)
Definition isStudent (mapping : Types.HeaderMapping) (studentId : value)
    (s : gmap string value) : bool :=
  match s !! Types.id mapping with
  | Some v => strict_eq v studentId
  | None => false
  end.

(** The value that a commit of [text] stores. *)
Definition committedValue (text : string) : value :=
  if String.eqb text "" then VStr "" else VNum (parseFloat text).

End Panel.
End Panel.

(** ** Vocabulary of the search properties *)

Module Names.
Import JS ArabicUtils.

(** The letters that normalizeArabicText replaces. *)
Definition variants : list string := map fst replacements.

Section Names.
Context {RT : Runtime}.

(** The name of the student is a text that contains the search term, both
    in lower case and normalized. *)
Definition named (searchTerm nameField : string) (student : gmap string value) : bool :=
  match student !! nameField with
  | Some (VStr target) =>
      nonempty target &&
      includes (normalizeArabicText (toLowerCase target))
        (normalizeArabicText (toLowerCase searchTerm))
  | _ => false
  end.

(** The name of the student is missing, falsy or a text: the search does
    not fail on it. *)
Definition searchable (nameField : string) (student : gmap string value) : bool :=
  match student !! nameField with
  | Some (VStr _) | None => true
  | Some v => negb (truthy v)
  end.

End Names.
End Names.

(** ** A sample workbook and sample pages *)

Module Classroom.
Import JS Sample ExcelParser Scenario.

(** A sheet with a header row and two students, and a sheet with a header
    row only. *)
Definition gradesSheet : WorkSheet :=
  sheetOfGrid [ [ Scan.text "رقم الطالب"; Scan.text "اسم الطالب"; Scan.text "الدرجة" ];
                [ Some (num 1017); Scan.text "Ann B"; Some (num 85) ];
                [ Some (num 1018); Scan.text "Bob C"; Some (num 0) ] ].

Definition blankSheet : WorkSheet :=
  sheetOfGrid [ [ Scan.text "رقم الطالب"; Scan.text "اسم الطالب"; Scan.text "quiz" ] ].

(** A sheet without keywords whose second row has the shape of a student
    row. *)
Definition shapedSheet : WorkSheet :=
  sheetOfGrid [ [ Scan.text "No"; Scan.text "Student" ];
                [ Some (num 1017); Scan.text "Ann B" ] ].

Definition workbook : WorkBook :=
  mkWorkBook (Some ["Blank"; "Grades"])
    {[ "Blank" := blankSheet; "Grades" := gradesSheet ]}.

(** The xlsx library, reading that workbook from any container. *)
#[export] Instance library : Xlsx := xlsx (λ _, Some workbook).

Definition file : File := mkFile 4096 "Grades.XLSX" (Some []).

(** The page before and after the upload of the file, and after a search
    for "ann". *)
Definition emptyPage : Index.State :=
  Index.mkState Index.noData false Index.Upload "".

Definition uploadedPage : Index.State := (Index.handleFileUpload emptyPage file).1.

Definition searchingPage : Index.State :=
  Index.mkState (Index.excelData uploadedPage) true Index.Grades "ann".

(** The current sheet and the mapping of the page after the upload. *)
Definition gradesData : Sheet :=
  default (mkSheet "" [] [] None) (Index.currentSheet (Index.excelData uploadedPage)).

Definition gradesMapping : Types.HeaderMapping :=
  default (Types.mkHeaderMapping "" "" "" []) (Index.mapping (Index.excelData uploadedPage)).

#[export] Instance Sheet_eq_dec : EqDecision (@Sheet Sample.runtime).
Proof. solve_decision. Defined.

(** The first table of the scenarios with the text "85" typed into its
    cell, and after the commit of that text. *)
Definition typed85 : GradeTable.State :=
  GradeTable.handleGradeChange (GradeTable.mounted [student (num 7)] mapping None) "85".

Definition committed85 : GradeTable.State :=
  (GradeTable.saveGrade [student (num 7)] mapping typed85 (VStr "s1") "G" 0).1.

(** The same table with its cell open for editing. *)
Definition editing : GradeTable.State :=
  (GradeTable.startEditing (GradeTable.mounted [student (num 7)] mapping None) ∅
     (VStr "s1") "G").1.

Definition ctrlZ : GradeTable.KeyboardEvent := GradeTable.mkKeyboardEvent true false false "z".

End Classroom.

(** * Properties of the edit history *)

Module EditHistory.
Import JS GradeTable Session.

Section Laws.
Context {RT : Runtime}.
Variable students : list (gmap string value).
Variable mapping : Types.HeaderMapping.


Lemma eqb_empty (s : string) : String.eqb s "" = negb (nonempty s).
Proof. by destruct s. Qed.

Lemma slice_prefix {A} (l : list A) (n : Z) :
  0 ≤ n → slice l 0 n = take (Z.to_nat n) l.
Proof.
  intros Hn. unfold slice. simpl.
  destruct (Z.ltb_spec n 0); [lia|].
  rewrite (Z.min_l 0) by lia. rewrite drop_0, Z.sub_0_r.
  destruct (Z.min_spec n (Z.of_nat (length l))) as [[? ->]|[? ->]]; [done|].
  rewrite Nat2Z.id, take_ge by lia. by rewrite take_ge by lia.
Qed.

Lemma slice_last {A} (l : list A) (k : Z) :
  k < 0 → - k ≤ Z.of_nat (length l) →
  slice_from l k = drop (length l - Z.to_nat (- k)) l.
Proof.
  intros Hk Hl. unfold slice_from, slice.
  destruct (Z.ltb_spec k 0); [|lia].
  destruct (Z.ltb_spec (Z.of_nat (length l)) 0); [lia|].
  rewrite Z.max_l, Z.min_l by lia.
  replace (Z.to_nat (Z.of_nat (length l) + k)) with (length l - Z.to_nat (- k))%nat by lia.
  apply take_ge. rewrite length_drop. lia.
Qed.

Lemma last_slice_from {A} (l : list A) (x : A) (k : Z) :
  k < 0 → last (slice_from (l ++ [x]) k) = Some x.
Proof.
  intros Hk. unfold slice_from, slice.
  destruct (Z.ltb_spec k 0); [|lia].
  destruct (Z.ltb_spec (Z.of_nat (length (l ++ [x]))) 0); [lia|].
  rewrite Z.min_l by lia.
  set (n := Z.to_nat (Z.max (Z.of_nat (length (l ++ [x])) + k) 0)).
  assert (Hn : (n ≤ length l)%nat).
  { unfold n. rewrite length_app. simpl. lia. }
  rewrite take_ge by (rewrite length_drop; lia).
  rewrite drop_app_le by done. apply last_snoc.
Qed.

(** The history never holds more than fifty entries after an addition. *)
Lemma addToEditHistory_length (st : State) sid col old new now :
  (length (editHistory (addToEditHistory students mapping st sid col old new now)) ≤ 50)%nat.
Proof.
  unfold addToEditHistory. simpl.
  set (h := slice _ _ _ ++ _).
  destruct (Z.ltb_spec 50 (Z.of_nat (length h))); [|lia].
  rewrite slice_last by lia. rewrite length_drop. lia.
Qed.

(** At the cap, an addition at the end of the history drops the oldest entry
    and moves the cursor to the length of the history, one past the last
    entry. *)
Lemma addToEditHistory_at_cap (st : State) sid col old new now :
  length (editHistory st) = 50%nat →
  currentHistoryIndex st = 49 →
  let st' := addToEditHistory students mapping st sid col old new now in
  length (editHistory st') = 50%nat ∧
  currentHistoryIndex st' = 50 ∧
  handleUndo st' = None.
Proof.
  intros Hl Hc. unfold addToEditHistory, handleUndo. simpl.
  rewrite Hc, Hl. simpl.
  rewrite slice_prefix by lia.
  rewrite take_ge by (rewrite Hl; lia).
  set (e := mkEntry _ _ _ _ _ _).
  assert (Hlen : length (editHistory st ++ [e]) = 51%nat).
  { rewrite length_app, Hl. done. }
  rewrite Hlen. simpl. rewrite slice_last by lia.
  rewrite length_drop, Hlen. split; [done|]. split; [done|].
  unfold at_index. simpl. rewrite lookup_ge_None_2; [done|].
  rewrite length_drop, Hlen. simpl. lia.
Qed.

End Laws.

Section Store.
Context {RT : Runtime}.
Implicit Types (g : gmap string (gmap string value)) (k c : string) (v : value).

Lemma getGrade_setGrade_eq g k c v : getGrade (setGrade k c v g) k c = Some v.
Proof.
  unfold getGrade, setGrade. rewrite lookup_insert_eq. simpl. by rewrite lookup_insert_eq.
Qed.

Lemma setGrade_setGrade g k c v w : setGrade k c v (setGrade k c w g) = setGrade k c v g.
Proof.
  unfold setGrade. rewrite lookup_insert_eq. simpl. by rewrite !insert_insert_eq.
Qed.

Lemma setGrade_comm g k c v k' c' v' :
  (k, c) ≠ (k', c') →
  setGrade k c v (setGrade k' c' v' g) = setGrade k' c' v' (setGrade k c v g).
Proof.
  intros Hne. unfold setGrade.
  destruct (decide (k = k')) as [->|Hk].
  - assert (c ≠ c') by congruence.
    rewrite !lookup_insert_eq. simpl. rewrite !insert_insert_eq.
    f_equal. by apply insert_insert_ne.
  - rewrite (lookup_insert_ne _ k' k) by done.
    rewrite (lookup_insert_ne _ k k') by done.
    by apply insert_insert_ne.
Qed.

Lemma setGrade_id g k c v : getGrade g k c = Some v → setGrade k c v g = g.
Proof.
  unfold getGrade, setGrade. intros H.
  destruct (g !! k) as [r|] eqn:Hr; simpl in *; [|done].
  rewrite (insert_id r) by done. by apply insert_id.
Qed.
End Store.

Section Reset.
Context {RT : Runtime}.
Variable mapping : Types.HeaderMapping.
Implicit Types (g : gmap string (gmap string value)) (k c : string) (v : value)
  (r : gmap string value) (s : gmap string value) (l : list (gmap string value)).

Abbreviation cols := (getAllGradeColumns mapping).
Abbreviation key s := (prop_key (s !! Types.id mapping)).

Lemma resetRecord_lookup s r c :
  resetRecord mapping s r !! c = if decide (c ∈ cols) then Some (or_empty (s !! c)) else r !! c.
Proof.
  unfold resetRecord. generalize cols as cs. intros cs. revert r.
  induction cs as [|c' cs IH]; intros r; simpl.
  - destruct (decide (c ∈ [])) as [H|H]; [by apply elem_of_nil in H|done].
  - rewrite IH. destruct (decide (c = c')) as [->|Hne].
    + rewrite lookup_insert_eq.
      destruct (decide (c' ∈ cs)), (decide (c' ∈ c' :: cs)) as [|H0]; try done.
      all: exfalso; apply H0; by left.
    + rewrite lookup_insert_ne by done.
      destruct (decide (c ∈ cs)), (decide (c ∈ c' :: cs)) as [H0|H0]; try done.
      * exfalso. apply H0. by right.
      * apply elem_of_cons in H0 as [?|?]; done.
Qed.

Lemma resetToStudents_cons s l g :
  resetToStudents (s :: l) mapping g = resetToStudents l mapping (resetOne mapping s g).
Proof.
  unfold resetToStudents at 1. simpl. fold (resetToStudents l mapping).
  f_equal. unfold resetOne, resetRecord.
  assert (He : match g !! key s with Some _ => g | None => <[key s := ∅]> g end
               = <[key s := default ∅ (g !! key s)]> g).
  { destruct (g !! key s) eqn:E; simpl; [by rewrite insert_id|done]. }
  rewrite He. generalize (default ∅ (g !! key s)) as r. generalize cols as cs.
  induction cs as [|c cs IH]; intros r; simpl; [done|].
  unfold setGrade at 2. rewrite lookup_insert_eq. simpl.
  rewrite insert_insert_eq. apply IH.
Qed.

Lemma resetToStudents_app l l' g :
  resetToStudents (l ++ l') mapping g = resetToStudents l' mapping (resetToStudents l mapping g).
Proof. unfold resetToStudents. apply fold_left_app. Qed.

Abbreviation keys l := (studentKeys l mapping).

Lemma resetOne_lookup_ne s g k : k ≠ key s → resetOne mapping s g !! k = g !! k.
Proof. intros. unfold resetOne. by rewrite lookup_insert_ne. Qed.

Lemma resetOne_insert_ne s g k r :
  k ≠ key s → resetOne mapping s (<[k := r]> g) = <[k := r]> (resetOne mapping s g).
Proof.
  intros Hne. unfold resetOne. rewrite lookup_insert_ne by done.
  by apply insert_insert_ne.
Qed.

(** Resetting does not depend on what the records of the students hold in
    the grade columns... *)
Lemma reset_absorbs_record l g k r r' :
  k ∈ keys l →
  (∀ c, c ∉ cols → r !! c = r' !! c) →
  resetToStudents l mapping (<[k := r]> g) = resetToStudents l mapping (<[k := r']> g).
Proof.
  intros Hk Hr. revert g. induction l as [|s l IH]; intros g.
  - by apply elem_of_nil in Hk.
  - rewrite !resetToStudents_cons.
    destruct (decide (k = key s)) as [->|Hne].
    + f_equal. unfold resetOne. rewrite !lookup_insert_eq, !insert_insert_eq. simpl.
      f_equal. apply map_eq. intros c. rewrite !resetRecord_lookup.
      destruct (decide (c ∈ cols)); [done|]. by apply Hr.
    + rewrite !resetOne_insert_ne by done. apply IH.
      unfold studentKeys in Hk. simpl in Hk. apply elem_of_cons in Hk as [?|?]; done.
Qed.

(** ... nor on whether these records exist. *)
Lemma reset_absorbs_ensure l g k :
  k ∈ keys l →
  resetToStudents l mapping (<[k := default ∅ (g !! k)]> g) = resetToStudents l mapping g.
Proof.
  intros Hk. revert g. induction l as [|s l IH]; intros g.
  - by apply elem_of_nil in Hk.
  - rewrite !resetToStudents_cons.
    destruct (decide (k = key s)) as [->|Hne].
    + f_equal. unfold resetOne. by rewrite lookup_insert_eq, insert_insert_eq.
    + rewrite resetOne_insert_ne by done.
      rewrite <- (resetOne_lookup_ne s g k) by done. apply IH.
      unfold studentKeys in Hk. simpl in Hk. apply elem_of_cons in Hk as [?|?]; done.
Qed.

(** A write to a cell of the table is forgotten by a reset. *)
Lemma reset_absorbs_setGrade l g k c v :
  k ∈ keys l → c ∈ cols →
  resetToStudents l mapping (setGrade k c v g) = resetToStudents l mapping g.
Proof.
  intros Hk Hc. unfold setGrade.
  rewrite (reset_absorbs_record l g k _ (default ∅ (g !! k))); [|done|].
  - by apply reset_absorbs_ensure.
  - intros c' Hc'. apply lookup_insert_ne. congruence.
Qed.

Lemma reset_absorbs_resetOne l g s :
  key s ∈ keys l →
  resetToStudents l mapping (resetOne mapping s g) = resetToStudents l mapping g.
Proof.
  intros Hk. unfold resetOne.
  rewrite (reset_absorbs_record l g _ _ (default ∅ (g !! key s))); [|done|].
  - by apply reset_absorbs_ensure.
  - intros c Hc. rewrite resetRecord_lookup. by destruct (decide (c ∈ cols)).
Qed.

Lemma reset_idempotent_from l l' g :
  (∀ s, s ∈ l' → key s ∈ keys l) →
  resetToStudents l mapping (resetToStudents l' mapping g) = resetToStudents l mapping g.
Proof.
  revert g. induction l' as [|s l' IH]; intros g Hsub; [done|].
  rewrite resetToStudents_cons. rewrite IH.
  - apply reset_absorbs_resetOne. apply Hsub. by left.
  - intros s' Hs'. apply Hsub. by right.
Qed.

Lemma reset_idempotent l g :
  resetToStudents l mapping (resetToStudents l mapping g) = resetToStudents l mapping g.
Proof.
  apply reset_idempotent_from. intros s Hs. unfold studentKeys.
  apply list_elem_of_fmap. by exists s.
Qed.

Lemma cols_elem c :
  c ∈ cols ↔ nonempty c = true ∧ (c = Types.grade mapping ∨ c ∈ Types.gradeColumns mapping).
Proof. unfold getAllGradeColumns. rewrite list_elem_of_filter, elem_of_cons. tauto. Qed.

Lemma initialGrades_fold_lookup s (cs : list string) r c :
  fold_left (λ acc c, if nonempty c
                      then match s !! c with Some v => <[c := v]> acc | None => acc end
                      else acc) cs r !! c
  = if decide (c ∈ cs ∧ nonempty c = true) then
      match s !! c with Some v => Some v | None => r !! c end
    else r !! c.
Proof.
  revert r. induction cs as [|c' cs IH]; intros r; cbn [fold_left].
  - case_decide as H; [|done]. destruct H as [H _]. by apply elem_of_nil in H.
  - rewrite IH. clear IH.
    assert (Hin : c ∈ c' :: cs ↔ c = c' ∨ c ∈ cs) by apply elem_of_cons.
    destruct (decide (c = c')) as [->|Hne].
    + destruct (nonempty c') eqn:Hc'.
      * destruct (s !! c') eqn:Hs.
        -- rewrite lookup_insert_eq. repeat case_decide; naive_solver.
        -- repeat case_decide; naive_solver.
      * repeat case_decide; naive_solver.
    + assert (Hl : ∀ v, (<[c' := v]> r) !! c = r !! c) by (intros; by apply lookup_insert_ne).
      destruct (nonempty c'); [destruct (s !! c')|]; rewrite ?Hl;
        repeat case_decide; naive_solver.
Qed.

Lemma initialGradesOf_lookup s c :
  initialGradesOf mapping s !! c = if decide (c ∈ cols) then s !! c else None.
Proof.
  unfold initialGradesOf. rewrite initialGrades_fold_lookup.
  set (g0 := if nonempty (Types.grade mapping) then _ else _).
  assert (Hg0 : g0 !! c = if decide (c = Types.grade mapping ∧ nonempty c = true)
                          then s !! c else None).
  { unfold g0. case_decide as Hn.
    - destruct Hn as [-> Hn]. rewrite Hn.
      destruct (s !! Types.grade mapping) eqn:E; [|done].
      by rewrite lookup_singleton_eq.
    - destruct (nonempty (Types.grade mapping)) eqn:E; [|done].
      destruct (s !! Types.grade mapping); [|done].
      apply lookup_singleton_ne. intros <-. by apply Hn. }
  rewrite Hg0. pose proof (cols_elem c) as Hc.
  repeat case_decide; try naive_solver; destruct (s !! c); naive_solver.
Qed.

Lemma stable_or_empty v : stable v = true → or_empty (Some v) = v.
Proof.
  destruct v as [t| |]; simpl; intros H; try by rewrite H.
  destruct t; done.
Qed.

Lemma or_empty_stable (x : option value) : stable (or_empty x) = true.
Proof.
  destruct x as [v|]; [|done]. simpl.
  destruct (truthy v) eqn:E; [|done]. destruct v; simpl in *; done.
Qed.

Lemma initGrades_snoc l s :
  initGrades (l ++ [s]) mapping None
  = <[key s := initialGradesOf mapping s]> (initGrades l mapping None).
Proof. unfold initGrades. by rewrite fold_left_app. Qed.

Lemma initGrades_records l k r c :
  initGrades l mapping None !! k = Some r → c ∉ cols → r !! c = None.
Proof.
  revert r. induction l as [|s l IH] using rev_ind; intros r.
  - unfold initGrades. simpl. by rewrite lookup_empty.
  - rewrite initGrades_snoc. destruct (decide (k = key s)) as [->|Hne].
    + rewrite lookup_insert_eq. intros [= <-] Hc. rewrite initialGradesOf_lookup.
      by case_decide.
    + rewrite lookup_insert_ne by done. apply IH.
Qed.

(** With stable values in every grade column, the grades the component
    starts from are those a reset of the empty store gives. *)
Lemma initGrades_reset l :
  sheetStable l mapping = true →
  initGrades l mapping None = resetToStudents l mapping ∅.
Proof.
  induction l as [|s l IH] using rev_ind; intros Hst; [done|].
  unfold sheetStable in Hst. rewrite forallb_app in Hst. simpl in Hst.
  apply andb_prop in Hst as [Hl Hs]. rewrite andb_true_r in Hs.
  rewrite initGrades_snoc, resetToStudents_app, <- IH by done.
  rewrite resetToStudents_cons.
  change (<[key s := initialGradesOf mapping s]> (initGrades l mapping None)
          = resetOne mapping s (initGrades l mapping None)).
  unfold resetOne. f_equal.
  apply map_eq. intros c. rewrite resetRecord_lookup, initialGradesOf_lookup.
  destruct (decide (c ∈ cols)) as [Hc|Hc].
  - rewrite forallb_forall in Hs. specialize (Hs c).
    rewrite <- list_elem_of_In in Hs. specialize (Hs Hc).
    destruct (s !! c) as [v|]; [|done]. simpl in Hs. by rewrite stable_or_empty.
  - destruct (initGrades l mapping None !! key s) as [r|] eqn:E; simpl.
    + symmetry. by eapply initGrades_records.
    + symmetry. apply lookup_empty.
Qed.

Lemma reset_initGrades l :
  sheetStable l mapping = true →
  resetToStudents l mapping (initGrades l mapping None) = initGrades l mapping None.
Proof. intros H. rewrite initGrades_reset by done. apply reset_idempotent. Qed.
End Reset.

Section Machine.
Context {RT : Runtime}.
Variable students : list (gmap string value).
Variable mapping : Types.HeaderMapping.
Hypothesis sheet_stable : sheetStable students mapping = true.
Implicit Types (g : gmap string (gmap string value)) (k c : string) (v : value)
  (st : State) (h : list EditHistoryEntry) (e : EditHistoryEntry).

Abbreviation seed := (initGrades students mapping None).
Abbreviation reset := (resetToStudents students mapping).
Abbreviation at_store := (storeAt students mapping).

Lemma getGrade_setGrade_ne g k c v k' c' :
  (k, c) ≠ (k', c') → getGrade (setGrade k c v g) k' c' = getGrade g k' c'.
Proof.
  intros Hne. unfold getGrade, setGrade.
  destruct (decide (k = k')) as [->|Hk].
  - rewrite lookup_insert_eq. simpl. rewrite lookup_insert_ne by congruence.
    by destruct (g !! k').
  - by rewrite lookup_insert_ne.
Qed.

Lemma elem_of_take_list {A} (l : list A) (n : nat) (x : A) : x ∈ take n l → x ∈ l.
Proof. intros H. rewrite <- (take_drop n l). apply elem_of_app. by left. Qed.

Lemma replay_snoc h e g : replay (h ++ [e]) g = applyEntry (replay h g) e.
Proof. unfold replay. by rewrite foldl_snoc. Qed.

Lemma storeAt_S h n e :
  h !! n = Some e → at_store h (S n) = applyEntry (at_store h n) e.
Proof.
  intros He. unfold storeAt. erewrite take_S_r by done. apply replay_snoc.
Qed.

Lemma seededCell_spec k c :
  seededCell students mapping k c = true
  ↔ k ∈ studentKeys students mapping ∧ c ∈ getAllGradeColumns mapping.
Proof.
  unfold seededCell. rewrite andb_true_iff, !bool_decide_eq_true. done.
Qed.

Lemma reset_filled_from (l : list (gmap string value)) g k c :
  k ∈ studentKeys l mapping → c ∈ getAllGradeColumns mapping →
  ∃ v, getGrade (resetToStudents l mapping g) k c = Some v ∧ stable v = true.
Proof.
  induction l as [|s l IH] using rev_ind; intros Hk Hc.
  - by apply elem_of_nil in Hk.
  - rewrite resetToStudents_app, resetToStudents_cons.
    change (resetToStudents [] mapping ?x) with x.
    unfold studentKeys in Hk. rewrite map_app in Hk. apply elem_of_app in Hk.
    destruct (decide (k = prop_key (s !! Types.id mapping))) as [->|Hne].
    + exists (or_empty (s !! c)). split; [|apply or_empty_stable].
      unfold getGrade, resetOne. rewrite lookup_insert_eq. simpl.
      rewrite resetRecord_lookup. by rewrite decide_True.
    + unfold getGrade. rewrite resetOne_lookup_ne by done. apply IH; [|done].
      destruct Hk as [Hk|Hk]; [done|]. simpl in Hk.
      apply list_elem_of_singleton in Hk. done.
Qed.

Lemma seed_filled : filled students mapping seed.
Proof.
  intros k c [Hk Hc]%seededCell_spec.
  rewrite initGrades_reset by done. by apply reset_filled_from.
Qed.

Lemma setGrade_filled g k c v : stable v = true → filled students mapping g → filled students mapping (setGrade k c v g).
Proof.
  intros Hv Hg k' c' Hs.
  destruct (decide ((k, c) = (k', c'))) as [[= <- <-]|Hne].
  - exists v. by rewrite getGrade_setGrade_eq.
  - rewrite getGrade_setGrade_ne by done. by apply Hg.
Qed.

Lemma replay_filled h g :
  (∀ e, e ∈ h → stable (newValue e) = true) → filled students mapping g → filled students mapping (replay h g).
Proof.
  induction h as [|e h IH] using rev_ind; intros Hh Hg; [done|].
  rewrite replay_snoc. apply setGrade_filled.
  - apply Hh. apply elem_of_app. right. by left.
  - apply IH; [|done]. intros e' He'. apply Hh. apply elem_of_app. by left.
Qed.

Lemma reset_replay h g :
  (∀ e, e ∈ h → seededCell students mapping (to_string (studentId e)) (column e) = true) →
  reset (replay h g) = reset g.
Proof.
  induction h as [|e h IH] using rev_ind; intros Hh; [done|].
  rewrite replay_snoc. unfold applyEntry.
  destruct (proj1 (seededCell_spec _ _) (Hh e ltac:(apply elem_of_app; right; by left))).
  rewrite reset_absorbs_setGrade by done.
  apply IH. intros e' He'. apply Hh. apply elem_of_app. by left.
Qed.

Lemma applyChanges_replay h (index : Z) g :
  index + 1 ≤ Z.of_nat (length h) →
  applyChanges h index g = Some (replay (take (Z.to_nat (index + 1)) h) g).
Proof.
  intros Hn. unfold applyChanges.
  assert (Hle : (Z.to_nat (index + 1) ≤ length h)%nat) by lia.
  revert Hle. generalize (Z.to_nat (index + 1)) as n. clear Hn.
  induction n as [|n IH]; intros Hle; [done|].
  rewrite seq_S, fold_left_app, IH by lia. simpl.
  destruct (lookup_lt_is_Some_2 h n ltac:(lia)) as [e He].
  rewrite He. simpl. erewrite take_S_r by done. by rewrite replay_snoc.
Qed.


Lemma consistent_filled st n : consistent students mapping st → filled students mapping (at_store (editHistory st) n).
Proof.
  intros Hst. apply replay_filled; [|apply seed_filled].
  intros e He. apply (entries_stable _ _ _ Hst). eapply elem_of_take_list, He.
Qed.

Lemma consistent_ext st st' :
  grades st' = grades st → editHistory st' = editHistory st →
  currentHistoryIndex st' = currentHistoryIndex st →
  consistent students mapping st → consistent students mapping st'.
Proof.
  intros Hg Hh Hc [H1 H2 H3 H4 H5]. split; rewrite ?Hg, ?Hh, ?Hc; done.
Qed.

Lemma mounted_consistent : consistent students mapping (mounted students mapping None).
Proof.
  split; simpl; try done.
  - intros e He. by apply elem_of_nil in He.
  - intros e He. by apply elem_of_nil in He.
Qed.

Lemma undo_consistent st :
  consistent students mapping st →
  ∃ st' t, handleUndo st = Some (st', t) ∧ consistent students mapping st' ∧
    editHistory st' = editHistory st ∧
    currentHistoryIndex st' = Z.max (-1) (currentHistoryIndex st - 1).
Proof.
  intros Hst. pose proof (cursor_range _ _ _ Hst) as Hr.
  unfold handleUndo. destruct (Z.leb_spec 0 (currentHistoryIndex st)) as [Hc|Hc].
  - unfold at_index. destruct (Z.ltb_spec (currentHistoryIndex st) 0); [lia|].
    set (n := Z.to_nat (currentHistoryIndex st)).
    destruct (lookup_lt_is_Some_2 (editHistory st) n ltac:(lia)) as [e He].
    rewrite He. simpl. eexists _, _. split; [done|].
    assert (Hc' : (if 0 <? currentHistoryIndex st then currentHistoryIndex st - 1 else -1)
                  = currentHistoryIndex st - 1).
    { destruct (Z.ltb_spec 0 (currentHistoryIndex st)); lia. }
    split; [|split; [done|simpl; lia]].
    destruct Hst as [H1 H2 H3 H4 H5]. split; simpl; try done.
    + lia.
    + rewrite Hc', H2.
      replace (Z.to_nat (currentHistoryIndex st + 1)) with (S n) by lia.
      replace (Z.to_nat (currentHistoryIndex st - 1 + 1)) with n by lia.
      rewrite (storeAt_S _ _ _ He). unfold applyEntry.
      rewrite setGrade_setGrade. apply setGrade_id. by apply H5.
  - exists st, NoMoreUndo. split; [done|]. split; [done|]. split; [done|]. lia.
Qed.

Lemma redo_consistent st :
  consistent students mapping st →
  ∃ st' t, handleRedo st = Some (st', t) ∧ consistent students mapping st' ∧
    editHistory st' = editHistory st ∧
    currentHistoryIndex st' =
      Z.min (Z.of_nat (length (editHistory st)) - 1) (currentHistoryIndex st + 1).
Proof.
  intros Hst. pose proof (cursor_range _ _ _ Hst) as Hr.
  unfold handleRedo.
  destruct (Z.ltb_spec (currentHistoryIndex st) (Z.of_nat (length (editHistory st)) - 1))
    as [Hc|Hc].
  - unfold at_index. destruct (Z.ltb_spec (currentHistoryIndex st + 1) 0); [lia|].
    set (n := Z.to_nat (currentHistoryIndex st + 1)).
    destruct (lookup_lt_is_Some_2 (editHistory st) n ltac:(lia)) as [e He].
    rewrite He. simpl. eexists _, _. split; [done|].
    split; [|split; [done|simpl; lia]].
    destruct Hst as [H1 H2 H3 H4 H5]. split; simpl; try done.
    + lia.
    + rewrite Z.min_l by lia. rewrite H2. fold n.
      replace (Z.to_nat (currentHistoryIndex st + 1 + 1)) with (S n) by lia.
      by rewrite (storeAt_S _ _ _ He).
  - exists st, NoMoreRedo. split; [done|]. split; [done|]. split; [done|]. lia.
Qed.

Lemma jump_consistent st (index : Z) :
  consistent students mapping st →
  0 ≤ index < Z.of_nat (length (editHistory st)) →
  ∃ st', jumpToHistoryPoint students mapping st index = Some (st', HistoryJump (index + 1)) ∧
    consistent students mapping st' ∧
    editHistory st' = editHistory st ∧ currentHistoryIndex st' = index ∧
    grades st' = replay (take (Z.to_nat (index + 1)) (editHistory st))
                   (resetToStudents students mapping (grades st)).
Proof.
  intros Hst Hi. unfold jumpToHistoryPoint.
  rewrite applyChanges_replay by lia. simpl.
  eexists. split; [done|]. split; [|done].
  destruct Hst as [H1 H2 H3 H4 H5]. split; simpl; try done.
  - lia.
  - rewrite H2. unfold storeAt at 1. rewrite reset_replay.
    + by rewrite reset_initGrades.
    + intros e He. apply H3. eapply elem_of_take_list, He.
Qed.


Lemma addToEditHistory_no_eviction st sid c old new now :
  -1 ≤ currentHistoryIndex st < Z.of_nat (length (editHistory st)) →
  currentHistoryIndex st < 49 →
  let st' := addToEditHistory students mapping st sid c old new now in
  ∃ name,
    editHistory st' =
      take (Z.to_nat (currentHistoryIndex st + 1)) (editHistory st)
      ++ [mkEntry sid c old new now name] ∧
    currentHistoryIndex st' = currentHistoryIndex st + 1 ∧
    grades st' = grades st.
Proof.
  intros Hc H49. unfold addToEditHistory. cbn [editHistory currentHistoryIndex grades]. eexists.
  rewrite slice_prefix by lia.
  set (e := mkEntry _ _ _ _ _ _).
  assert (Hlen : length (take (Z.to_nat (currentHistoryIndex st + 1)) (editHistory st) ++ [e])
                 = S (Z.to_nat (currentHistoryIndex st + 1))).
  { rewrite length_app, length_take. simpl. lia. }
  rewrite Hlen.
  destruct (Z.ltb_spec 50 (Z.of_nat (S (Z.to_nat (currentHistoryIndex st + 1))))); [lia|].
  split; [done|]. split; [lia|done].
Qed.

Lemma commit_consistent st sid c text now :
  consistent students mapping st →
  admissible students mapping st (Commit sid c text now) = true →
  let st' := (saveGrade students mapping (handleGradeChange st text) sid c now).1 in
  consistent students mapping st' ∧
  (currentHistoryIndex st = Z.of_nat (length (editHistory st)) - 1 →
   currentHistoryIndex st' = Z.of_nat (length (editHistory st')) - 1).
Proof.
  intros Hst Hadm. simpl in Hadm.
  apply andb_prop in Hadm as [[Hcell H49]%andb_prop Hval].
  apply Z.ltb_lt in H49.
  pose proof (cursor_range _ _ _ Hst) as Hr.
  unfold saveGrade.
  cbn [handleGradeChange tempGrade grades editHistory currentHistoryIndex].
  destruct (validateGrade text) eqn:Hvalid; cbn [negb fst];
    [|split; [by apply (consistent_ext st)|done]].
  set (k := to_string sid).
  set (new := if String.eqb text "" then VStr "" else VNum (parseFloat text)).
  destruct (strict_eq _ new) eqn:Heq; cbn [fst];
    [split; [by apply (consistent_ext st)|done]|].
  destruct (addToEditHistory_no_eviction (handleGradeChange st text) sid c
              (or_empty (getGrade (grades st) k c)) new now Hr H49)
    as (name & Hh & Hc & Hg).
  cbn [handleGradeChange grades editHistory currentHistoryIndex] in Hh, Hc, Hg.
  cbn [grades editHistory currentHistoryIndex].
  rewrite Hh, Hc, Hg.
  set (n := Z.to_nat (currentHistoryIndex st + 1)) in *.
  assert (Hn : (n ≤ length (editHistory st))%nat) by lia.
  assert (Hg0 : grades st = at_store (editHistory st) n) by apply (grades_replayed _ _ _ Hst).
  destruct (consistent_filled st n Hst k c Hcell) as (v & Hv & Hsv).
  rewrite <- Hg0 in Hv. rewrite Hv, stable_or_empty by done.
  assert (Hnew : stable new = true).
  { unfold new. unfold validateGrade in Hvalid. rewrite eqb_empty in *.
    destruct (nonempty text); simpl in *; [|done].
    destruct (isNaN (parseFloat text)); simpl in *; done. }
  set (e := mkEntry sid c v new now name).
  assert (Hlen : length (take n (editHistory st) ++ [e]) = S n).
  { rewrite length_app, length_take. simpl. lia. }
  split; [|rewrite Hlen; lia].
  destruct Hst as [H1 H2 H3 H4 H5]. split; simpl.
  - rewrite Hlen. lia.
  - replace (Z.to_nat (currentHistoryIndex st + 1 + 1)) with (S n) by lia.
    unfold storeAt. rewrite take_ge by lia. rewrite replay_snoc.
    unfold applyEntry. simpl. by rewrite Hg0.
  - intros e' [He'|He']%elem_of_app.
    + apply H3. by eapply elem_of_take_list.
    + apply list_elem_of_singleton in He'. by subst.
  - intros e' [He'|He']%elem_of_app.
    + apply H4. by eapply elem_of_take_list.
    + apply list_elem_of_singleton in He'. by subst.
  - intros j e' Hj. unfold storeAt.
    destruct (decide (j < n)%nat) as [Hlt|Hge].
    + rewrite lookup_app_l in Hj by (rewrite length_take; lia).
      rewrite lookup_take_lt in Hj by done.
      rewrite take_app_le by (rewrite length_take; lia).
      rewrite take_take. replace (j `min` n)%nat with j by lia.
      by apply H5.
    + assert (j = n) as ->.
      { apply lookup_lt_Some in Hj. rewrite Hlen in Hj. lia. }
      rewrite lookup_app_r in Hj by (rewrite length_take; lia).
      rewrite length_take in Hj. replace (n - n `min` length (editHistory st))%nat with 0%nat in Hj by lia.
      injection Hj as <-. cbn [studentId column oldValue].
      rewrite take_app_le by (rewrite length_take; lia).
      rewrite take_take. replace (n `min` n)%nat with n by lia.
      unfold storeAt in Hg0. by rewrite <- Hg0.
Qed.

Lemma session_consistent evs st st' :
  consistent students mapping st →
  session students mapping evs st = Some st' →
  consistent students mapping st'.
Proof.
  revert st. induction evs as [|ev evs IH]; intros st Hst; simpl.
  - by intros [= <-].
  - destruct (admissible students mapping st ev) eqn:Hadm; [|done].
    destruct ev as [sid c text now| | |index]; simpl.
    + apply IH. by apply commit_consistent.
    + destruct (undo_consistent st Hst) as (st1 & t & -> & Hst1 & _). simpl. by apply IH.
    + destruct (redo_consistent st Hst) as (st1 & t & -> & Hst1 & _). simpl. by apply IH.
    + simpl in Hadm. apply andb_prop in Hadm as [?%Z.leb_le ?%Z.ltb_lt].
      destruct (jump_consistent st index Hst ltac:(lia)) as (st1 & -> & Hst1 & _).
      simpl. by apply IH.
Qed.

(** Commits alone keep the cursor on the last entry. *)
Lemma session_commits_at_end evs st st' :
  consistent students mapping st →
  forallb isCommit evs = true →
  currentHistoryIndex st = Z.of_nat (length (editHistory st)) - 1 →
  session students mapping evs st = Some st' →
  currentHistoryIndex st' = Z.of_nat (length (editHistory st')) - 1.
Proof.
  revert st. induction evs as [|ev evs IH]; intros st Hst Hall Hend; simpl.
  - by intros [= <-].
  - destruct (admissible students mapping st ev) eqn:Hadm; [|done].
    simpl in Hall. apply andb_prop in Hall as [Hev Hall].
    destruct ev as [sid c text now| | |index]; try done. simpl.
    destruct (commit_consistent st sid c text now Hst Hadm) as [Hst' Hend'].
    apply IH; auto.
Qed.

Lemma undoTimes_consistent (n : nat) st :
  consistent students mapping st →
  Z.of_nat n ≤ currentHistoryIndex st + 1 →
  ∃ st', undoTimes n st = Some st' ∧ consistent students mapping st' ∧
    editHistory st' = editHistory st ∧
    currentHistoryIndex st' = currentHistoryIndex st - Z.of_nat n.
Proof.
  revert st. induction n as [|n IH]; intros st Hst Hn; simpl.
  - exists st. split_and!; try done. lia.
  - destruct (undo_consistent st Hst) as (st1 & t & -> & Hst1 & Hh & Hc). simpl.
    destruct (IH st1 Hst1 ltac:(lia)) as (st' & -> & Hst' & Hh' & Hc').
    exists st'. split_and!; try done; [congruence|lia].
Qed.

Lemma redoTimes_consistent (n : nat) st :
  consistent students mapping st →
  currentHistoryIndex st + Z.of_nat n ≤ Z.of_nat (length (editHistory st)) - 1 →
  ∃ st', redoTimes n st = Some st' ∧ consistent students mapping st' ∧
    editHistory st' = editHistory st ∧
    currentHistoryIndex st' = currentHistoryIndex st + Z.of_nat n.
Proof.
  revert st. induction n as [|n IH]; intros st Hst Hn; simpl.
  - exists st. split_and!; try done. lia.
  - destruct (redo_consistent st Hst) as (st1 & t & -> & Hst1 & Hh & Hc). simpl.
    destruct (IH st1 Hst1 ltac:(rewrite Hh; lia)) as (st' & -> & Hst' & Hh' & Hc').
    exists st'. split_and!; try done; [congruence|lia].
Qed.

Lemma walkTo_consistent st (index : Z) :
  consistent students mapping st →
  -1 ≤ index < Z.of_nat (length (editHistory st)) →
  ∃ st', walkTo st index = Some st' ∧ consistent students mapping st' ∧
    editHistory st' = editHistory st ∧ currentHistoryIndex st' = index.
Proof.
  intros Hst Hi. unfold walkTo.
  destruct (Z.ltb_spec index (currentHistoryIndex st)).
  - destruct (undoTimes_consistent (Z.to_nat (currentHistoryIndex st - index)) st Hst
                ltac:(lia)) as (st' & -> & ? & ? & ?).
    exists st'. split_and!; try done. lia.
  - destruct (redoTimes_consistent (Z.to_nat (index - currentHistoryIndex st)) st Hst
                ltac:(lia)) as (st' & -> & ? & ? & ?).
    exists st'. split_and!; try done. lia.
Qed.

End Machine.


(** C2 (amended). Take a table whose students data holds a stable value (a
    string or a truthy value) in every grade column, mounted with no saved
    grades, and a session on it: commits to cells of the table whose new
    value is stable and which do not push the history beyond its cap,
    undos, redos, and jumps to retained entries. Then a reset gives back the
    grades the table was mounted with, and for every index of a retained
    entry [jumpToHistoryPoint] returns the store obtained from these grades
    by applying the new values of the entries 0..index in order, with the
    cursor on index and the history untouched; the walk to that index by
    undo or redo alone ends in the same grades and cursor. After commits
    alone, the jump to the last entry leaves the grades as the commits made
    them. *)
Theorem jump_reconstructs {RT : Runtime} (students : list (gmap string value))
    (mapping : Types.HeaderMapping) (evs : list event) (st : State) :
  sheetStable students mapping = true →
  session students mapping evs (mounted students mapping None) = Some st →
  resetToStudents students mapping (grades st) = initGrades students mapping None ∧
  (∀ index, 0 ≤ index < Z.of_nat (length (editHistory st)) →
     ∃ jumped walked,
       jumpToHistoryPoint students mapping st index = Some (jumped, HistoryJump (index + 1)) ∧
       editHistory jumped = editHistory st ∧
       currentHistoryIndex jumped = index ∧
       grades jumped =
         replay (take (Z.to_nat (index + 1)) (editHistory st))
           (resetToStudents students mapping (grades st)) ∧
       walkTo st index = Some walked ∧
       editHistory walked = editHistory st ∧
       currentHistoryIndex walked = index ∧
       grades walked = grades jumped) ∧
  (forallb isCommit evs = true → editHistory st ≠ [] →
     ∃ jumped,
       jumpToHistoryPoint students mapping st (Z.of_nat (length (editHistory st)) - 1)
         = Some (jumped, HistoryJump (Z.of_nat (length (editHistory st)) - 1 + 1)) ∧
       grades jumped = grades st).
Proof.
  intros Hsheet Hrun.
  pose proof (session_consistent students mapping Hsheet evs _ st
                (mounted_consistent students mapping) Hrun) as Hst.
  split_and!.
  - rewrite (grades_replayed _ _ _ Hst). unfold storeAt.
    rewrite reset_replay.
    + by apply reset_initGrades.
    + intros e He. apply (entries_seeded _ _ _ Hst). by eapply elem_of_take_list.
  - intros index Hi.
    destruct (jump_consistent students mapping Hsheet st index Hst Hi)
      as (jumped & Hj & Hcj & Hhj & Hij & Hgj).
    destruct (walkTo_consistent students mapping st index Hst ltac:(lia))
      as (walked & Hw & Hcw & Hhw & Hiw).
    exists jumped, walked. split_and!; try done.
    rewrite (grades_replayed _ _ _ Hcw), (grades_replayed _ _ _ Hcj).
    by rewrite Hhw, Hhj, Hiw, Hij.
  - intros Hcommits Hne.
    assert (Hend := session_commits_at_end students mapping Hsheet evs _ st
                      (mounted_consistent students mapping) Hcommits eq_refl Hrun).
    assert (0 < Z.of_nat (length (editHistory st))).
    { destruct (editHistory st); [done|simpl; lia]. }
    destruct (jump_consistent students mapping Hsheet st _ Hst
                ltac:(split; [|apply Z.lt_pred_l]; lia))
      as (jumped & Hj & Hcj & Hhj & Hij & Hgj).
    exists jumped. split; [done|].
    rewrite (grades_replayed _ _ _ Hcj), (grades_replayed _ _ _ Hst).
    by rewrite Hhj, Hij, Hend.
Qed.

(** Undo then redo, from a cursor on an entry, writes the new value of that
    entry into its cell and puts the cursor back. *)
Lemma undo_redo_at_cursor {RT : Runtime} (st : State) (e : EditHistoryEntry) :
  at_index (editHistory st) (currentHistoryIndex st) = Some e →
  ∃ st1 st2,
    handleUndo st = Some (st1, UndoRestored) ∧
    handleRedo st1 = Some (st2, RedoApplied) ∧
    editHistory st2 = editHistory st ∧
    currentHistoryIndex st2 = currentHistoryIndex st ∧
    grades st2 = setGrade (to_string (studentId e)) (column e) (newValue e) (grades st).
Proof.
  intros He.
  assert (Hc : 0 ≤ currentHistoryIndex st < Z.of_nat (length (editHistory st))).
  { unfold at_index in He. destruct (Z.ltb_spec (currentHistoryIndex st) 0); [done|].
    apply lookup_lt_Some in He. lia. }
  unfold handleUndo.
  destruct (Z.leb_spec 0 (currentHistoryIndex st)); [|lia].
  rewrite He. cbn [mbind option_bind]. eexists _, _. split; [done|].
  unfold handleRedo. cbn [editHistory currentHistoryIndex grades].
  set (c' := if 0 <? currentHistoryIndex st then currentHistoryIndex st - 1 else -1).
  assert (Hc' : c' + 1 = currentHistoryIndex st).
  { unfold c'. destruct (Z.ltb_spec 0 (currentHistoryIndex st)); lia. }
  destruct (Z.ltb_spec c' (Z.of_nat (length (editHistory st)) - 1)); [|lia].
  rewrite Hc', He. cbn [mbind option_bind]. split; [done|]. split; [done|].
  cbn [editHistory currentHistoryIndex grades]. split; [lia|]. apply setGrade_setGrade.
Qed.

(** When the cell of the entry at the cursor holds the new value of that
    entry, undo then redo restores the grades and the cursor exactly. *)
Lemma undo_redo_restores {RT : Runtime} (st : State) (e : EditHistoryEntry) :
  at_index (editHistory st) (currentHistoryIndex st) = Some e →
  getGrade (grades st) (to_string (studentId e)) (column e) = Some (newValue e) →
  ∃ st1 st2,
    handleUndo st = Some (st1, UndoRestored) ∧
    handleRedo st1 = Some (st2, RedoApplied) ∧
    editHistory st2 = editHistory st ∧
    currentHistoryIndex st2 = currentHistoryIndex st ∧
    grades st2 = grades st.
Proof.
  intros He Hg.
  destruct (undo_redo_at_cursor st e He) as (st1 & st2 & ? & ? & ? & ? & Hg2).
  exists st1, st2. split_and!; try done. rewrite Hg2. by apply setGrade_id.
Qed.

Import Sample Scenario.

(** C2 (as stated) fails once an entry has been evicted: after one commit to
    "G" and fifty to "H" the history retains the fifty entries on "H"; the
    jump to the last of them resets "G" to the value of the students data,
    7, whereas the commits had left 9 there. *)
Lemma jump_forgets_evicted_commit :
  forallb isCommit evicting = true ∧
  handleAll [student2] mapping2 evicting (mounted [student2] mapping2 None)
    = Some afterEviction ∧
  length (editHistory afterEviction) = 50%nat ∧
  jumpToHistoryPoint [student2] mapping2 afterEviction
      (Z.of_nat (length (editHistory afterEviction)) - 1)
    = Some (afterEvictionJump, HistoryJump 50) ∧
  getGrade (grades afterEviction) "s1" "G" = Some (num 9) ∧
  getGrade (grades afterEvictionJump) "s1" "G" = Some (num 7) ∧
  grades afterEvictionJump ≠ grades afterEviction.
Proof. compute_done. Qed.

(** The sample session, whose history ends with two entries. *)
Lemma jump_reconstructs_witness :
  sheetStable [student (num 7)] Scenario.mapping = true ∧
  session [student (num 7)] Scenario.mapping sampleSession
    (mounted [student (num 7)] Scenario.mapping None) = Some afterSampleSession ∧
  length (editHistory afterSampleSession) = 2%nat ∧
  ∃ jumped walked,
    jumpToHistoryPoint [student (num 7)] Scenario.mapping afterSampleSession 0
      = Some (jumped, HistoryJump (0 + 1)) ∧
    walkTo afterSampleSession 0 = Some walked ∧
    grades walked = grades jumped.
Proof.
  assert (H1 : sheetStable [student (num 7)] Scenario.mapping = true) by compute_done.
  assert (H2 : session [student (num 7)] Scenario.mapping sampleSession
                 (mounted [student (num 7)] Scenario.mapping None)
               = Some afterSampleSession) by compute_done.
  assert (H3 : length (editHistory afterSampleSession) = 2%nat) by compute_done.
  split; [exact H1|]. split; [exact H2|]. split; [exact H3|].
  destruct (jump_reconstructs [student (num 7)] Scenario.mapping sampleSession
              afterSampleSession H1 H2) as (_ & Hjump & _).
  destruct (Hjump 0 ltac:(rewrite H3; lia))
    as (jumped & walked & Hj & _ & _ & _ & Hw & _ & _ & Hg).
  exists jumped, walked. split; [exact Hj|]. split; [exact Hw|exact Hg].
Defined.

(** C1 (defect). Fifty-one commits that each change the cell leave fifty
    entries in the history and the cursor at 50, the length of the history
    and not the index of its last entry; an undo from that state reads an
    entry that does not exist. *)
Theorem cursor_past_end_after_eviction :
  (λ st, (length (editHistory st), currentHistoryIndex st, handleUndo st))
    <$> table (num 7) fiftyOneCommits
  = Some (50%nat, 50, None).
Proof. compute_done. Qed.

(** C7 (defect). The cell holds the number 0 and the text "0" is committed:
    the new value is the old one, yet an entry is appended (with the empty
    string as its old value) and the cursor moves from -1 to 0. *)
Theorem zero_recommitted_is_recorded :
  cell zeroTable = Some (num 0) ∧
  editHistory zeroTable = [] ∧
  currentHistoryIndex zeroTable = -1 ∧
  zeroCommitted.2 = Some GradeUpdated ∧
  cell zeroCommitted.1 = Some (num 0) ∧
  editHistory zeroCommitted.1 =
    [mkEntry (VStr "s1") "G" (VStr "") (num 0) 0 (Some (VStr "Ann B"))] ∧
  currentHistoryIndex zeroCommitted.1 = 0.
Proof. compute_done. Qed.

(** C3 (defect). Commit "0" then "5" to a cell that held 7, and undo once:
    the entry of the first commit sits at the cursor and the cell holds the
    empty string, which is what the second entry recorded as the old value
    of a cell that held 0. Undo then redo leaves the number 0 in the cell,
    not the empty string it held before the undo. *)
Theorem undo_redo_after_zero :
  table (num 7) [commit "0"; commit "5"; Undo] = Some zeroFiveUndo ∧
  at_index (editHistory zeroFiveUndo) (currentHistoryIndex zeroFiveUndo)
    = Some (mkEntry (VStr "s1") "G" (num 7) (num 0) 0 (Some (VStr "Ann B"))) ∧
  cell zeroFiveUndo = Some (VStr "") ∧
  handleAll [student (num 7)] Scenario.mapping [Undo; Redo] zeroFiveUndo
    = Some zeroFiveUndoUndoRedo ∧
  currentHistoryIndex zeroFiveUndoUndoRedo = currentHistoryIndex zeroFiveUndo ∧
  cell zeroFiveUndoUndoRedo = Some (num 0).
Proof. compute_done. Qed.

End EditHistory.

(** * Properties of the workbook parser *)

Module Parser.
Import JS ExcelParser Scan.

Section Ingestion.
Context {RT : Runtime} {X : Xlsx}.

Lemma copyRow_id (r : gmap string value) : copyRow r = r.
Proof.
  unfold copyRow.
  apply (map_fold_weak_ind (λ processed m, processed = m)); [done|].
  intros key v m processed _ ->. done.
Qed.

Lemma map_copyRow (rows : list (gmap string value)) : map copyRow rows = rows.
Proof. induction rows as [|r rows IH]; simpl; [done|]. by rewrite copyRow_id, IH. Qed.

(** C9. When the scans of processArabicExcelSheet end without a header row,
    an identifier column and a name column (one of the three indices is
    negative), the function returns the records of [sheet_to_json] as they
    are: the same rows in the same order, each with all its columns under
    their own labels. *)
Theorem raw_rows_when_not_found (ws : WorkSheet) :
  (locateStudents ws).1.1 < 0 ∨ (locateStudents ws).1.2 < 0 ∨ (locateStudents ws).2 < 0 →
  processArabicExcelSheet ws = sheet_to_json ws.
Proof.
  intros Hnot. unfold processArabicExcelSheet.
  destruct (locateStudents ws) as [[headerRowIndex idC] nameC]. simpl in Hnot.
  assert (Hcond : (headerRowIndex <? 0) || (idC <? 0) || (nameC <? 0) = true).
  { rewrite !orb_true_iff, !Z.ltb_lt. tauto. }
  rewrite Hcond. rewrite map_copyRow.
  destruct (sheet_to_json ws); done.
Qed.

(** C10. A file of size zero, a file whose extension is neither xlsx nor
    xls, a payload that the xlsx reader refuses, and a workbook without
    sheet names are all rejected: the promise carries an error message and
    no sheet. *)
Theorem parse_errors (file : File) :
  file_size file ≤ 0 ∨
  (fileExtension file ≠ Some "xlsx" ∧ fileExtension file ≠ Some "xls") ∨
  (∃ bytes, file_content file = Some bytes ∧ read bytes = None) ∨
  (∃ bytes workbook, file_content file = Some bytes ∧ read bytes = Some workbook ∧
     (SheetNames workbook = None ∨ SheetNames workbook = Some [])) →
  ∃ message, parseExcelFile file = Rejected message.
Proof.
  intros Hbad. unfold parseExcelFile.
  destruct (Z.leb_spec (file_size file) 0) as [Hsize|Hsize]; [by eexists|].
  destruct (negb (bool_decide (fileExtension file = Some "xlsx"))
            && negb (bool_decide (fileExtension file = Some "xls"))) eqn:Hext;
    [by eexists|].
  destruct Hbad as [?|[[Hx Hl]|[(bytes & -> & ->)|(bytes & workbook & -> & -> & Hnames)]]].
  - lia.
  - rewrite !bool_decide_eq_false_2 in Hext by done. done.
  - by eexists.
  - destruct Hnames as [->| ->]; by eexists.
Qed.

End Ingestion.

Section Inference.
Context {RT : Runtime}.

Lemma slice_from_drop {A} (l : list A) (k : Z) :
  0 ≤ k → slice_from l k = drop (Z.to_nat k) l.
Proof.
  intros Hk. unfold slice_from, slice.
  destruct (Z.ltb_spec k 0); [lia|].
  destruct (Z.ltb_spec (Z.of_nat (length l)) 0); [lia|].
  rewrite (Z.min_l (Z.of_nat (length l))) by lia.
  destruct (Z.min_spec k (Z.of_nat (length l))) as [[? ->]|[? ->]].
  - apply take_ge. rewrite length_drop. lia.
  - rewrite Nat2Z.id, Z.sub_diag. simpl.
    rewrite !drop_ge by lia. done.
Qed.

Lemma unmatched_spec (h : string) :
  unmatched h = true ↔
    test ReId (toLowerCase h) = false ∧ test ReName (toLowerCase h) = false ∧
    test ReGrade (toLowerCase h) = false ∧ test ReDigits h = false ∧
    includes h "__EMPTY" = false ∧ test ReArabicLetter h = false.
Proof.
  unfold unmatched. rewrite !andb_true_iff, !negb_true_iff. tauto.
Qed.

Lemma detectIdAndName_unmatched (headers : list string) :
  forallb unmatched headers = true → detectIdAndName headers = ("", "").
Proof.
  unfold detectIdAndName. generalize ("", "") as acc.
  induction headers as [|h headers IH]; intros [id name] Hall; [done|].
  cbn [forallb] in Hall. apply andb_prop in Hall as [Hh Hall].
  apply unmatched_spec in Hh as (Hid & Hname & _).
  cbn [fold_left]. rewrite Hid, Hname. cbn [andb]. by apply IH.
Qed.

Lemma filter_unmatched (f : string → bool) (headers : list string) :
  (∀ h, h ∈ headers → f h = false) → List.filter f headers = [].
Proof.
  induction headers as [|h headers IH]; intros Hall; [done|].
  simpl. rewrite Hall by (by left). apply IH. intros h' ?. apply Hall. by right.
Qed.

Lemma find_unmatched (f : string → bool) (headers : list string) :
  (∀ h, h ∈ headers → f h = false) → List.find f headers = None.
Proof.
  induction headers as [|h headers IH]; intros Hall; [done|].
  simpl. rewrite Hall by (by left). apply IH. intros h' ?. apply Hall. by right.
Qed.

Lemma forallb_unmatched (headers : list string) h :
  forallb unmatched headers = true → h ∈ headers → unmatched h = true.
Proof.
  rewrite forallb_forall. intros Hall Hh. apply Hall. by apply list_elem_of_In.
Qed.

(** C8. When no header matches a pattern or a content test, the first
    header is the identifier and the second the name; with a third header,
    that one is the primary grade and the headers after it, except those
    equal to the identifier or the name, are the additional grade columns. *)
Theorem positional_fallback (h0 h1 : string) (rest : list string) :
  forallb unmatched (h0 :: h1 :: rest) = true →
  let m := detectHeaders (h0 :: h1 :: rest) in
  Types.id m = h0 ∧ Types.name m = h1 ∧
  match rest with
  | [] => Types.grade m = "" ∧ Types.gradeColumns m = []
  | h2 :: more =>
      Types.grade m = h2 ∧
      Types.gradeColumns m =
        List.filter (λ h, negb (String.eqb h h0) && negb (String.eqb h h1)) more
  end.
Proof.
  intros Hall. cbv zeta. unfold detectHeaders.
  rewrite detectIdAndName_unmatched by done.
  set (headers := h0 :: h1 :: rest) in *.
  unfold potentialGradeColumns. rewrite filter_unmatched; cycle 1.
  { intros h Hh. apply (forallb_unmatched _ _ Hall), unmatched_spec in Hh as (_ & _ & -> & _).
    apply andb_false_r. }
  rewrite !find_unmatched; cycle 1.
  { intros h Hh. by apply (forallb_unmatched _ _ Hall), unmatched_spec in Hh as (_ & _ & _ & _ & _ & ->). }
  { intros h Hh. apply (forallb_unmatched _ _ Hall), unmatched_spec in Hh as (_ & _ & _ & -> & -> & _).
    done. }
  subst headers. destruct rest as [|h2 more]; [done|].
  cbn -[slice_from String.eqb]. rewrite slice_from_drop by lia.
  split_and!; try done. by destruct more.
Qed.
Implicit Types (headers : list string) (m : Types.HeaderMapping).

Lemma within_empty headers : within headers "".
Proof. by intros H. Qed.

Lemma within_elem headers c : c ∈ headers → within headers c.
Proof. by intros H _. Qed.

Lemma within_lookup headers (i : nat) : within headers (default "" (headers !! i)).
Proof.
  destruct (headers !! i) as [h|] eqn:E; simpl; [|apply within_empty].
  apply within_elem. by eapply list_elem_of_lookup_2.
Qed.

Lemma within_find headers (f : string → bool) c :
  within headers c → within headers (default c (List.find f headers)).
Proof.
  intros Hc. destruct (List.find f headers) as [h|] eqn:E; simpl; [|done].
  apply within_elem, list_elem_of_In. by apply find_some in E as [? _].
Qed.

Lemma detectIdAndName_within headers :
  within headers (detectIdAndName headers).1 ∧ within headers (detectIdAndName headers).2.
Proof.
  unfold detectIdAndName.
  assert (H : ∀ (seen rest : list string) (acc : string * string),
    (∀ h, h ∈ rest → h ∈ headers) →
    within headers acc.1 → within headers acc.2 →
    let out := fold_left (λ '(id, name) header,
        let headerLower := toLowerCase header in
        if test ReId headerLower && negb (nonempty id) then (header, name)
        else if test ReName headerLower && negb (nonempty name) then (id, header)
        else (id, name)) rest acc in
    within headers out.1 ∧ within headers out.2).
  { intros _ rest. induction rest as [|h rest IH]; intros [id name] Hrest Hid Hname; [done|].
    cbn [fold_left]. apply IH.
    - intros h' ?. apply Hrest. by right.
    - destruct (_ && _); [apply within_elem, Hrest; by left|].
      by destruct (_ && _).
    - destruct (_ && _); [done|].
      destruct (_ && _); [apply within_elem, Hrest; by left|done]. }
  apply (H [] headers); [done|apply within_empty..].
Qed.

Lemma elem_of_filter_list (f : string → bool) (l : list string) c :
  c ∈ List.filter f l ↔ c ∈ l ∧ f c = true.
Proof. rewrite !list_elem_of_In. apply filter_In. Qed.

Lemma NoDup_filter_list (f : string → bool) (l : list string) :
  NoDup l → NoDup (List.filter f l).
Proof.
  induction 1 as [|h l Hh Hl IH]; simpl; [constructor|].
  destruct (f h); [|done]. constructor; [|done].
  rewrite elem_of_filter_list. by intros [? _].
Qed.

Lemma elem_of_slice_from headers (k : Z) c :
  0 ≤ k → c ∈ slice_from headers k → c ∈ headers.
Proof.
  intros Hk. rewrite slice_from_drop by done. intros Hc.
  rewrite <- (take_drop (Z.to_nat k) headers). apply elem_of_app. by right.
Qed.

Lemma eqb_false (a b : string) : String.eqb a b = false ↔ a ≠ b.
Proof. destruct (String.eqb_spec a b); split; congruence. Qed.

(** Every assigned column of detectHeaders is one of the headers. *)
Lemma detectHeaders_within headers : columnsWithin headers (detectHeaders headers).
Proof.
  unfold detectHeaders.
  pose proof (detectIdAndName_within headers) as [Hid Hname].
  destruct (detectIdAndName headers) as [id1 name1]. cbn [fst snd] in Hid, Hname.
  set (P := potentialGradeColumns id1 name1 headers).
  assert (HP : ∀ c, c ∈ P → c ∈ headers).
  { intros c. unfold P, potentialGradeColumns. rewrite elem_of_filter_list. tauto. }
  assert (Hhead : within headers (default "" (head P))).
  { destruct P as [|p P']; [apply within_empty|]. apply within_elem, HP. by left. }
  assert (Htail : ∀ c, c ∈ tail P → c ∈ headers).
  { intros c Hc. apply HP. destruct P; [done|]. by right. }
  pose proof (within_find headers
    (λ header, test ReDigits header || includes header "__EMPTY") id1 Hid) as Hid2.
  pose proof (within_find headers (λ header, test ReArabicLetter header) name1 Hname) as Hname2.
  pose proof (within_lookup headers 0) as H0.
  pose proof (within_lookup headers 1) as H1.
  pose proof (within_lookup headers 2) as H2.
  assert (Hrest : ∀ f c, c ∈ List.filter f (slice_from headers 3) → c ∈ headers).
  { intros f c [Hc _]%elem_of_filter_list. by apply elem_of_slice_from in Hc. }
  unfold columnsWithin.
  repeat match goal with
         | |- context [if ?b then _ else _] => destruct b
         end;
    cbn [Types.id Types.name Types.grade Types.gradeColumns];
    split_and!; try done; eauto.
Qed.

Lemma lookup_not_in_drop headers (i k : nat) h :
  NoDup headers → (i < k)%nat → headers !! i = Some h → h ∉ drop k headers.
Proof.
  intros Hnd Hik Hi Hin.
  rewrite <- (take_drop k headers) in Hnd.
  apply NoDup_app in Hnd as (_ & Hdisj & _).
  apply (Hdisj h); [|done].
  apply list_elem_of_lookup. exists i. by rewrite lookup_take_lt.
Qed.

Lemma not_in_filter_apart (l : list string) (a b c : string) :
  c = a ∨ c = b →
  c ∉ List.filter (λ h, negb (String.eqb h a) && negb (String.eqb h b)) l.
Proof.
  intros Hc [_ Hf]%elem_of_filter_list.
  apply andb_prop in Hf as [Ha Hb].
  apply negb_true_iff, eqb_false in Ha, Hb. naive_solver.
Qed.

Lemma potential_spec headers (id name c : string) :
  c ∈ potentialGradeColumns id name headers ↔
    c ∈ headers ∧ c ≠ id ∧ c ≠ name ∧ test ReGrade (toLowerCase c) = true.
Proof.
  unfold potentialGradeColumns. rewrite elem_of_filter_list.
  rewrite andb_true_iff, negb_true_iff, orb_false_iff, !eqb_false. tauto.
Qed.

(** With distinct headers, the additional grade columns of detectHeaders are
    distinct and differ from the primary grade column; they differ from the
    identifier and the name when both were found by the patterns, or when
    no header matches the grade pattern. *)
Lemma detectHeaders_distinct headers :
  NoDup headers →
  test ReGrade (toLowerCase "") = false →
  additionalDistinct (detectHeaders headers) ∧
  ((nonempty (detectIdAndName headers).1 = true ∧
    nonempty (detectIdAndName headers).2 = true) ∨
   (∀ h, h ∈ headers → test ReGrade (toLowerCase h) = false) →
   additionalApart (detectHeaders headers)).
Proof.
  intros Hnd Hempty. unfold detectHeaders.
  destruct (detectIdAndName headers) as [id1 name1]. cbn [fst snd].
  set (P := potentialGradeColumns id1 name1 headers).
  assert (HP : ∀ c, c ∈ P → c ≠ id1 ∧ c ≠ name1 ∧ c ≠ "").
  { intros c (_ & ? & ? & Hc)%potential_spec. split_and!; try done.
    intros ->. congruence. }
  assert (HPnd : NoDup P) by (by apply NoDup_filter_list).
  assert (Hgrade1 : nonempty (default "" (head P)) = false → P = []).
  { destruct P as [|p P'] eqn:E; [done|]. simpl. intros Hp.
    destruct (HP p ltac:(by left)) as (_ & _ & Hne). by destruct p. }
  assert (Htail_nd : NoDup (tail P)).
  { destruct P; [constructor|]. by apply NoDup_cons in HPnd as [_ ?]. }
  assert (Hhead_tail : default "" (head P) ∉ tail P).
  { destruct P; simpl; [apply not_elem_of_nil|]. by apply NoDup_cons in HPnd as [? _]. }
  assert (Hrest_nd : ∀ f, NoDup (List.filter f (slice_from headers 3))).
  { intros f. apply NoDup_filter_list. rewrite slice_from_drop by lia.
    rewrite <- (take_drop 3 headers) in Hnd. by apply NoDup_app in Hnd as (_ & _ & ?). }
  assert (Hthird : ∀ f, default "" (headers !! 2%nat) ∉ List.filter f (slice_from headers 3)
                        ∨ (length headers ≤ 2)%nat).
  { intros f. destruct (headers !! 2%nat) as [h|] eqn:E.
    - left. intros [Hin _]%elem_of_filter_list. rewrite slice_from_drop in Hin by lia.
      apply (lookup_not_in_drop headers 2 3 h Hnd ltac:(lia) E). exact Hin.
    - right. by apply lookup_ge_None in E. }
  split.
  - unfold additionalDistinct.
    destruct (Nat.ltb_spec 0 (length headers)); [|by split].
    set (id2 := if negb (nonempty id1) then _ else id1).
    set (name2 := if negb (nonempty name1) then _ else name1).
    destruct (if _ && (2 <=? length headers)%nat then _ else (id2, name2)) as [id3 name3].
    destruct (nonempty (default "" (head P))) eqn:Hg; cbn [negb andb]; [by split|].
    destruct (Nat.leb_spec 3 (length headers)); [|by split].
    cbn [Types.gradeColumns Types.grade].
    destruct (Nat.ltb_spec 3 (length headers)).
    + split; [apply Hrest_nd|]. destruct (Hthird (λ h, negb (String.eqb h id3) && negb (String.eqb h name3))); [done|lia].
    + rewrite (Hgrade1 eq_refl). split; [constructor|apply not_elem_of_nil].
  - unfold additionalApart. intros [[Hid Hname]|Hnone].
    + do 3 (rewrite ?Hid, ?Hname; cbn [negb orb andb]).
      assert (Hpt : (id1 ∉ tail P) ∧ (name1 ∉ tail P)).
      { split; intros Hin; destruct P as [|p P']; try (by apply elem_of_nil in Hin);
          destruct (HP _ ltac:(right; exact Hin)) as (? & ? & _); done. }
      repeat match goal with
             | |- context [if ?b then _ else _] => destruct b
             end;
        cbn [Types.id Types.name Types.gradeColumns]; try done;
        split; apply not_in_filter_apart; auto.
    + assert (HPnil : P = []).
      { apply filter_unmatched. intros h Hh. rewrite (Hnone h Hh). apply andb_false_r. }
      rewrite HPnil. cbn [head tail default].
      repeat match goal with
             | |- context [if ?b then _ else _] => destruct b
             end;
        cbn [Types.id Types.name Types.gradeColumns];
        try (split; apply not_elem_of_nil);
        split; apply not_in_filter_apart; auto.
Qed.

(** *** enhanceHeaderMappingForEmptySheet *)

Lemma enhance_fold_within headers (rest : list string) m :
  (∀ h, h ∈ rest → h ∈ headers) →
  columnsWithin headers m →
  columnsWithin headers (fold_left enhanceStep rest m).
Proof.
  revert m. induction rest as [|h rest IH]; intros m Hrest Hm; [done|].
  cbn [fold_left]. apply IH; [intros h' ?; apply Hrest; by right|].
  assert (Hh : h ∈ headers) by (apply Hrest; by left).
  destruct Hm as (Hid & Hname & Hgrade & Hgc).
  unfold enhanceStep, columnsWithin.
  repeat match goal with
         | |- context [if ?b then _ else _] => destruct b
         end;
    cbn [Types.id Types.name Types.grade Types.gradeColumns];
    split_and!; try done.
  intros c [Hc|Hc]%elem_of_app; [by apply Hgc|].
  by apply list_elem_of_singleton in Hc as ->.
Qed.

Lemma nonempty_true (s : string) : nonempty s = true ↔ s ≠ "".
Proof. destruct s; simpl; split; congruence. Qed.

Section EmptySheet.
Hypothesis id_not_empty : test ReSheetId (toLowerCase "") = false.
Hypothesis name_not_empty : test ReSheetName (toLowerCase "") = false.
Hypothesis grade_not_empty : test ReSheetGrade (toLowerCase "") = false.

Lemma enhanceStep_assigned m h :
  gradesInOrder m →
  gradesInOrder (enhanceStep m h) ∧
  (enhanceStep m h = m ∨ h ≠ "" ∧ assigned (enhanceStep m h) ≡ₚ h :: assigned m).
Proof.
  intros [Hfirst Hne]. unfold enhanceStep.
  destruct (test ReSheetId (toLowerCase h) && negb (nonempty (Types.id m))) eqn:Eid.
  { apply andb_prop in Eid as [Eid Hid]. apply negb_true_iff in Hid.
    assert (Hh : h ≠ "") by (intros ->; congruence).
    split; [done|]. right. split; [done|].
    unfold assigned. cbn [Types.id Types.name Types.grade Types.gradeColumns List.filter].
    rewrite Hid. by rewrite (proj2 (nonempty_true h) Hh). }
  destruct (test ReSheetName (toLowerCase h) && negb (nonempty (Types.name m))) eqn:Ename.
  { apply andb_prop in Ename as [Ename Hname]. apply negb_true_iff in Hname.
    assert (Hh : h ≠ "") by (intros ->; congruence).
    split; [done|]. right. split; [done|].
    unfold assigned. cbn [Types.id Types.name Types.grade Types.gradeColumns List.filter].
    rewrite Hname, (proj2 (nonempty_true h) Hh).
    destruct (nonempty (Types.id m)); [|done]. apply perm_swap. }
  destruct (test ReSheetGrade (toLowerCase h)) eqn:Egrade; [|split; [done|by left]].
  assert (Hh : h ≠ "") by (intros ->; congruence).
  destruct (nonempty (Types.grade m)) eqn:Hgrade; cbn [negb].
  - split.
    + split; cbn [Types.grade Types.gradeColumns]; [done|].
      intros c [Hc|Hc]%elem_of_app; [by apply Hne|].
      by apply list_elem_of_singleton in Hc as ->.
    + right. split; [done|].
      unfold assigned. cbn [Types.id Types.name Types.grade Types.gradeColumns].
      rewrite app_assoc. symmetry. apply Permutation_cons_append.
  - split.
    + split; cbn [Types.grade Types.gradeColumns]; [|done].
      intros _. by apply nonempty_true.
    + right. split; [done|].
      unfold assigned. cbn [Types.id Types.name Types.grade Types.gradeColumns List.filter].
      rewrite Hgrade, (proj2 (nonempty_true h) Hh).
      destruct (nonempty (Types.id m)), (nonempty (Types.name m)); cbn [app]; symmetry.
      * apply (Permutation_middle [Types.id m; Types.name m]).
      * apply (Permutation_middle [Types.id m]).
      * apply (Permutation_middle [Types.name m]).
      * done.
Qed.

Lemma enhance_fold_assigned (seen rest : list string) m :
  NoDup (seen ++ rest) →
  gradesInOrder m → NoDup (assigned m) → (∀ c, c ∈ assigned m → c ∈ seen) →
  let m' := fold_left enhanceStep rest m in
  gradesInOrder m' ∧ NoDup (assigned m').
Proof.
  revert seen m. induction rest as [|h rest IH]; intros seen m Hnd Hord Hm Hseen; [done|].
  cbn [fold_left].
  destruct (enhanceStep_assigned m h Hord) as [Hord' Hstep].
  apply (IH (seen ++ [h])).
  - by rewrite <- app_assoc.
  - done.
  - destruct Hstep as [Heq|[_ Hperm]]; [by rewrite Heq|]. rewrite Hperm.
    apply NoDup_cons. split; [|done]. intros Hin%Hseen.
    apply NoDup_app in Hnd as (_ & Hdisj & _). apply (Hdisj h Hin). by left.
  - intros c Hc. apply elem_of_app.
    destruct Hstep as [Heq|[_ Hperm]]; [left; apply Hseen; by rewrite <- Heq|].
    rewrite Hperm in Hc. apply elem_of_cons in Hc as [->|Hc].
    + right. by left.
    + left. by apply Hseen.
Qed.

Lemma assigned_apart m :
  gradesInOrder m → NoDup (assigned m) →
  additionalDistinct m ∧ additionalApart m.
Proof.
  intros [_ Hne] Hnd. unfold assigned in Hnd.
  apply NoDup_app in Hnd as (_ & Hdisj & Hgc).
  assert (Hfield : ∀ c, c ∈ [Types.id m; Types.name m; Types.grade m] →
                        c ∉ Types.gradeColumns m).
  { intros c Hc Hin. destruct (nonempty c) eqn:E.
    - apply (Hdisj c); [|done]. apply elem_of_filter_list. by split.
    - apply (Hne c Hin). by destruct c. }
  unfold additionalDistinct, additionalApart.
  split_and!; [done|..]; apply Hfield; set_solver.
Qed.


Lemma enhance_distinct headers (global : option Types.HeaderMapping) m :
  NoDup headers →
  enhanceHeaderMappingForEmptySheet headers global = Some m →
  additionalDistinct m ∧ additionalApart m.
Proof.
  intros Hnd. unfold enhanceHeaderMappingForEmptySheet.
  destruct global as [g|]; [|done]. destruct headers as [|h0 rest] eqn:Eh; [done|].
  rewrite <- Eh in *. clear Eh.
  assert (Hord0 : gradesInOrder (Types.mkHeaderMapping "" "" "" [])).
  { split; [done|]. intros c Hc. by apply elem_of_nil in Hc. }
  assert (Hnd0 : NoDup (assigned (Types.mkHeaderMapping "" "" "" []))) by constructor.
  assert (Hseen0 : ∀ c, c ∈ assigned (Types.mkHeaderMapping "" "" "" []) → c ∈ @nil string).
  { intros c Hc. by apply elem_of_nil in Hc. }
  destruct (enhance_fold_assigned [] headers (Types.mkHeaderMapping "" "" "" [])
              Hnd Hord0 Hnd0 Hseen0) as [Hord Hassigned].
  cbv zeta in Hord, Hassigned.
  set (m0 := fold_left enhanceStep headers (Types.mkHeaderMapping "" "" "" [])) in *.
  destruct (negb (nonempty (Types.id m0)) && negb (nonempty (Types.name m0))
            && negb (nonempty (Types.grade m0))) eqn:Enone;
    [|intros [= <-]; by apply assigned_apart].
  apply andb_prop in Enone as [_ Hgrade]. apply negb_true_iff in Hgrade.
  assert (Hgc : Types.gradeColumns m0 = []).
  { destruct Hord as [Hfirst _]. destruct (Types.gradeColumns m0); [done|].
    rewrite Hgrade in Hfirst. discriminate Hfirst. done. }
  destruct (Nat.leb_spec 2 (length headers)) as [H2|H2];
    [|intros [= <-]; by apply assigned_apart].
  destruct (Nat.leb_spec 3 (length headers)) as [H3|H3].
  - intros [= <-]. unfold additionalDistinct, additionalApart.
    cbn [Types.id Types.name Types.grade Types.gradeColumns].
    destruct (Nat.ltb_spec 3 (length headers)) as [H4|H4].
    + rewrite slice_from_drop by lia.
      destruct (lookup_lt_is_Some_2 headers 0 ltac:(lia)) as [a Ha].
      destruct (lookup_lt_is_Some_2 headers 1 ltac:(lia)) as [b Hb].
      destruct (lookup_lt_is_Some_2 headers 2 ltac:(lia)) as [c Hc].
      rewrite Ha, Hb, Hc. cbn [default].
      split_and!.
      * rewrite <- (take_drop 3 headers) in Hnd. by apply NoDup_app in Hnd as (_ & _ & ?).
      * apply (lookup_not_in_drop headers 2 3 c Hnd ltac:(lia) Hc).
      * apply (lookup_not_in_drop headers 0 3 a Hnd ltac:(lia) Ha).
      * apply (lookup_not_in_drop headers 1 3 b Hnd ltac:(lia) Hb).
    + rewrite Hgc. split_and!; [constructor|apply not_elem_of_nil..].
  - intros [= <-]. unfold additionalDistinct, additionalApart.
    cbn [Types.id Types.name Types.grade Types.gradeColumns]. rewrite Hgc.
    split_and!; [constructor|apply not_elem_of_nil..].
Qed.

End EmptySheet.

Lemma enhance_within headers (global : option Types.HeaderMapping) m :
  enhanceHeaderMappingForEmptySheet headers global = Some m → columnsWithin headers m.
Proof.
  unfold enhanceHeaderMappingForEmptySheet.
  destruct global as [g|]; [|done]. destruct headers as [|h0 rest] eqn:Eh; [done|].
  rewrite <- Eh in *. clear Eh.
  pose proof (enhance_fold_within headers headers (Types.mkHeaderMapping "" "" "" [])
                ltac:(done) ltac:(by split_and!; try done; intros c Hc; apply elem_of_nil in Hc))
    as (Hid & Hname & Hgrade & Hgc).
  set (m0 := fold_left enhanceStep headers (Types.mkHeaderMapping "" "" "" [])) in *.
  pose proof (within_lookup headers 0) as H0.
  pose proof (within_lookup headers 1) as H1.
  pose proof (within_lookup headers 2) as H2.
  assert (Hrest : ∀ c, c ∈ slice_from headers 3 → c ∈ headers).
  { intros c Hc. by apply elem_of_slice_from in Hc. }
  repeat match goal with
         | |- context [if ?b then _ else _] => destruct b
         end;
    intros [= <-]; unfold columnsWithin;
    cbn [Types.id Types.name Types.grade Types.gradeColumns];
    split_and!; done.
Qed.

(** C6 (amended). Every column that detectHeaders or
    enhanceHeaderMappingForEmptySheet assigns is one of the input headers.
    When the input headers are pairwise distinct (and the patterns do not
    match the empty text), the additional grade columns are pairwise
    distinct and none is the primary grade column; none is the identifier
    or the name column either, for the empty-sheet path always, and for
    detectHeaders when the patterns found both the identifier and the name
    or when no header matches the grade pattern. *)
Theorem mapping_columns (headers : list string) (global : option Types.HeaderMapping) :
  columnsWithin headers (detectHeaders headers) ∧
  (∀ m, enhanceHeaderMappingForEmptySheet headers global = Some m →
        columnsWithin headers m) ∧
  (NoDup headers →
   test ReGrade (toLowerCase "") = false →
   test ReSheetId (toLowerCase "") = false →
   test ReSheetName (toLowerCase "") = false →
   test ReSheetGrade (toLowerCase "") = false →
   additionalDistinct (detectHeaders headers) ∧
   ((nonempty (detectIdAndName headers).1 = true ∧
     nonempty (detectIdAndName headers).2 = true) ∨
    (∀ h, h ∈ headers → test ReGrade (toLowerCase h) = false) →
    additionalApart (detectHeaders headers)) ∧
   (∀ m, enhanceHeaderMappingForEmptySheet headers global = Some m →
         additionalDistinct m ∧ additionalApart m)).
Proof.
  split; [apply detectHeaders_within|].
  split; [intros m; apply enhance_within|].
  intros Hnd Hgrade Hsid Hsname Hsgrade.
  destruct (detectHeaders_distinct headers Hnd Hgrade) as [Hdistinct Hapart].
  split_and!; [done|done|].
  intros m. by apply enhance_distinct.
Qed.
End Inference.

Section HeaderRow.
Context {RT : Runtime}.
Implicit Types (ws : WorkSheet) (R C : nat).

Lemma scanRow_spec ws R :
  length (scanRow ws R).1.1 = length (colsOf ws) ∧
  ((0 < (scanRow ws R).1.2)%nat → (scanRow ws R).2 = true ∧ colsOf ws ≠ []).
Proof.
  unfold scanRow.
  set (step := λ '(rowHeaders, arabicMatchCount, hasContent) C, _).
  assert (H : ∀ cs acc,
    let out := fold_left step cs acc in
    length out.1.1 = (length acc.1.1 + length cs)%nat ∧
    (((0 < acc.1.2)%nat → acc.2 = true) → (0 < out.1.2)%nat → out.2 = true) ∧
    (cs = [] → out = acc)).
  { induction cs as [|C cs IH]; intros [[hs n] b]; cbn [fold_left].
    - simpl. split_and!; [lia|auto|done].
    - destruct (IH (step (hs, n, b) C)) as (Hlen & Hcount & _).
      split_and!; [| |done].
      + rewrite Hlen. unfold step. simpl. destruct (cellText ws R C); simpl;
          rewrite length_app; simpl; lia.
      + intros Hacc. apply Hcount. unfold step. simpl in *.
        destruct (cellText ws R C); simpl; [done|]. done. }
  destruct (H (colsOf ws) ([], 0%nat, false)) as (Hlen & Hcount & Hnil).
  split; [done|]. intros Hpos. split.
  - apply Hcount; [simpl; lia|done].
  - intros Hcs. rewrite (Hnil Hcs) in Hpos. simpl in Hpos. lia.
Qed.

Lemma scanRow_labels ws R : (scanRow ws R).1.1 = Labels.rowLabels ws R.
Proof.
  unfold scanRow, Labels.rowLabels.
  assert (H : ∀ cs labels n b,
             (fold_left (λ '(rowHeaders, arabicMatchCount, hasContent) C,
                 match cellText ws R C with
                 | Some cellValue =>
                     (rowHeaders ++ [cellValue],
                      if hasArabicPattern cellValue then S arabicMatchCount
                      else arabicMatchCount, true)
                 | None => (rowHeaders ++ [columnLabel C], arabicMatchCount, hasContent)
                 end) cs (labels, n, b)).1.1
             = labels ++ map (λ C, default (columnLabel C) (cellText ws R C)) cs).
  { induction cs as [|C cs IH]; intros labels n b; simpl; [by rewrite app_nil_r|].
    destruct (cellText ws R C); simpl; rewrite IH, <- app_assoc; done. }
  apply (H _ [] 0%nat false).
Qed.

Lemma bearsKeyword_cellText ws R C :
  bearsKeyword ws R C
  = match cellText ws R C with
    | Some cellValue => hasArabicPattern cellValue
    | None => false
    end.
Proof.
  unfold bearsKeyword, cellText, hasArabicPattern.
  destruct (cells ws !! (R, C)) as [[v|]|]; [|done..]. cbv zeta.
  by destruct (nonempty (trim (to_string v))).
Qed.

(** The counter of the inner loop holds the number of cells of the row that
    bear a header keyword. *)
Lemma scanRow_count ws R : (scanRow ws R).1.2 = keywordCount ws R.
Proof.
  unfold scanRow, keywordCount.
  set (step := λ '(rowHeaders, arabicMatchCount, hasContent) C, _).
  assert (H : ∀ cs acc,
    (fold_left step cs acc).1.2
    = (acc.1.2 + length (List.filter (bearsKeyword ws R) cs))%nat).
  { induction cs as [|C cs IH]; intros [[hs n] b]; cbn [fold_left List.filter].
    - simpl. lia.
    - rewrite IH, bearsKeyword_cellText. unfold step. simpl.
      destruct (cellText ws R C) as [cellValue|]; simpl; [|done].
      destruct (hasArabicPattern cellValue); simpl; lia. }
  apply (H (colsOf ws) ([], 0%nat, false)).
Qed.

Lemma scanStep_spec ws (best : Z * list string * nat) R :
  scanStep ws best R =
    if (best.2 <? keywordCount ws R)%nat
    then (Z.of_nat R, (scanRow ws R).1.1, keywordCount ws R)
    else best.
Proof.
  rewrite <- scanRow_count.
  unfold scanStep. destruct best as [[idx labels] bestCount].
  pose proof (scanRow_spec ws R) as [_ Hcontent].
  destruct (scanRow ws R) as [[rowHeaders count] hasContent]. simpl in *.
  destruct (Nat.ltb_spec bestCount count) as [Hlt|Hge].
  - destruct (Hcontent ltac:(lia)) as [-> _].
    destruct (Nat.ltb_spec 0 count); [done|lia].
  - by rewrite andb_false_r.
Qed.

(** The running best after any prefix of the rows. *)
Lemma scan_running_best ws (rows : list nat) :
  let '(idx, labels, best) := fold_left (scanStep ws) rows (-1, [], 0%nat) in
  (idx = -1 ∧ labels = [] ∧ best = 0%nat ∧ ∀ R, R ∈ rows → keywordCount ws R = 0%nat) ∨
  (∃ R, idx = Z.of_nat R ∧ labels = (scanRow ws R).1.1 ∧ best = keywordCount ws R ∧
        firstBest (keywordCount ws) rows R).
Proof.
  induction rows as [|R' rows IH] using rev_ind.
  - left. split_and!; try done. intros R HR. by apply elem_of_nil in HR.
  - rewrite fold_left_app. cbn [fold_left].
    destruct (fold_left (scanStep ws) rows (-1, [], 0%nat)) as [[idx labels] best].
    rewrite scanStep_spec. cbn [snd].
    destruct (Nat.ltb_spec best (keywordCount ws R')) as [Hlt|Hge].
    + right. exists R'. split_and!; try done.
      exists rows, []. split_and!; [done|lia| |].
      * intros R HR. destruct IH as [(_ & _ & -> & Hzero)|(R0 & _ & _ & -> & Hbest)].
        -- rewrite (Hzero R HR). lia.
        -- destruct Hbest as (before & after & -> & _ & Hb & Ha).
           apply elem_of_app in HR as [HR|HR].
           ++ specialize (Hb R HR). lia.
           ++ apply elem_of_cons in HR as [->|HR]; [done|]. specialize (Ha R HR). lia.
      * intros R HR. by apply elem_of_nil in HR.
    + destruct IH as [(-> & -> & -> & Hzero)|(R0 & -> & -> & -> & Hbest)].
      * left. split_and!; try done. intros R [HR|HR]%elem_of_app; [by apply Hzero|].
        apply list_elem_of_singleton in HR as ->. lia.
      * right. exists R0. split_and!; try done.
        destruct Hbest as (before & after & -> & Hpos & Hb & Ha).
        exists before, (after ++ [R']). split_and!; try done.
        -- by rewrite <- app_assoc.
        -- intros R [HR|HR]%elem_of_app; [by apply Ha|].
           apply list_elem_of_singleton in HR as ->. lia.
Qed.

Lemma from_to_nonempty (lo hi : nat) : from_to lo hi ≠ [] → (hi <? lo)%nat = false.
Proof.
  unfold from_to. intros Hne. apply Nat.ltb_ge.
  destruct (decide (lo ≤ hi)%nat); [done|].
  replace (S hi - lo)%nat with 0%nat in Hne by lia. done.
Qed.

Lemma scanRowForHeaderInfo_spec ws R :
  (scanRowForHeaderInfo ws R).2 = true ↔ (0 < headerInfoCount ws R)%nat.
Proof.
  unfold scanRowForHeaderInfo, headerInfoCount.
  set (step := λ '(idC, nameC, hasHeaderInfo) C, _).
  assert (H : ∀ cs acc,
    (fold_left step cs acc).2 = acc.2 || existsb (bearsHeaderInfo ws R) cs).
  { induction cs as [|C cs IH]; intros [[idC nameC] has]; cbn [fold_left existsb].
    - by rewrite orb_false_r.
    - rewrite IH. unfold step, bearsHeaderInfo. simpl.
      destruct (cellTruthy ws R C) as [v|]; simpl; [|done].
      destruct (bearsName _), (bearsId _); simpl; by rewrite ?orb_true_r. }
  rewrite H. simpl.
  induction (colsOf ws) as [|C cs IH]; simpl; [split; [done|lia]|].
  destruct (bearsHeaderInfo ws R C); simpl; [split; [lia|done]|done].
Qed.

(** The first scan of processArabicExcelSheet over any list of rows. *)
Lemma findHeaderInfo_spec ws (rows : list nat) :
  (findHeaderInfo ws rows = (-1, -1, -1) ∧
   ∀ R, R ∈ rows → headerInfoCount ws R = 0%nat) ∨
  (∃ R, (findHeaderInfo ws rows).1.1 = Z.of_nat R ∧
        firstPositive (headerInfoCount ws) rows R).
Proof.
  induction rows as [|R' rows IH]; cbn [findHeaderInfo].
  - left. split; [done|]. intros R HR. by apply elem_of_nil in HR.
  - pose proof (scanRowForHeaderInfo_spec ws R') as Hspec.
    destruct (scanRowForHeaderInfo ws R') as [[idC nameC] has]. simpl in Hspec.
    destruct has.
    + right. exists R'. split; [done|]. exists [], rows.
      split; [done|]. split; [exact (proj1 Hspec eq_refl)|].
      intros R HR. by apply elem_of_nil in HR.
    + assert (Hzero : headerInfoCount ws R' = 0%nat).
      { destruct (headerInfoCount ws R'); [done|]. discriminate (proj2 Hspec ltac:(lia)). }
      destruct IH as [[-> Hall]|(R & HR & before & after & -> & Hpos & Hbefore)].
      * left. split; [done|]. intros R [->|HR]%elem_of_cons; [done|by apply Hall].
      * right. exists R. split; [done|]. exists (R' :: before), after.
        split; [done|]. split; [done|].
        intros R0 [->|HR0]%elem_of_cons; [done|by apply Hbefore].
Qed.


(** C5 (amended). The header scan of extractSheetHeaders ends on the first
    of the rows whose count of cells bearing a header keyword is the
    highest, when that count is not zero: no earlier row has as many, no
    later row has more. The labels of that row are then the headers of the
    sheet. It ends on no row when every count is zero. *)
Theorem header_row_scans (ws : WorkSheet) :
  let '(idx, labels, best) := scanHeaderRows ws in
  (idx = -1 ∧ labels = [] ∧ best = 0%nat ∧
   ∀ R, R ∈ rowsOf ws → keywordCount ws R = 0%nat) ∨
  (∃ R, idx = Z.of_nat R ∧ labels = Labels.rowLabels ws R ∧ best = keywordCount ws R ∧
        firstBest (keywordCount ws) (rowsOf ws) R ∧
        extractSheetHeaders ws = Labels.rowLabels ws R).
Proof.
  pose proof (scan_running_best ws (rowsOf ws)) as Hscan.
  unfold extractSheetHeaders, scanHeaderRows.
  destruct (fold_left (scanStep ws) (rowsOf ws) (-1, [], 0%nat)) as [[idx labels] best].
  destruct Hscan as [(-> & -> & -> & Hzero)|(R & -> & -> & -> & Hbest)]; [by left|].
  right. exists R. rewrite scanRow_labels. split_and!; try done.
  destruct (scanRow_spec ws R) as [Hlen Hpos].
  destruct Hbest as (before & after & Hrows & Hcount & _).
  rewrite <- scanRow_count in Hcount.
  destruct (Hpos Hcount) as [_ Hcols].
  unfold rowsOf in Hrows. unfold colsOf in Hcols.
  rewrite (from_to_nonempty (s_r (decode_range ws)) (e_r (decode_range ws)))
    by (rewrite Hrows; by destruct before).
  rewrite (from_to_nonempty (s_c (decode_range ws)) (e_c (decode_range ws))) by done.
  cbn [orb]. destruct (Z.leb_spec 0 (Z.of_nat R)); [|lia]. cbn [andb].
  rewrite <- scanRow_labels, Hlen. fold (colsOf ws) in Hcols.
  destruct (colsOf ws); [done|]. by rewrite scanRow_labels.
Qed.

End HeaderRow.

Import Sample.

(** C5 (as stated) fails on a sheet whose row 0 holds three grade words and
    whose row 1 holds an identifier and a name keyword: the header scan
    counts grade words too, 3 cells in row 0 against 2 in row 1, and ends
    on row 0, which bears no identifier or name keyword at all. *)
Lemma grade_keywords_are_counted :
  (scanHeaderRows gradeWordsFirst).1.1 = 0 ∧
  extractSheetHeaders gradeWordsFirst = ["درجة"; "امتحان"; "نتيجة"] ∧
  keywordCount gradeWordsFirst 0 = 3%nat ∧
  keywordCount gradeWordsFirst 1 = 2%nat ∧
  headerInfoCount gradeWordsFirst 0 = 0%nat ∧
  headerInfoCount gradeWordsFirst 1 = 2%nat ∧
  ¬ firstBest (headerInfoCount gradeWordsFirst) (rowsOf gradeWordsFirst) 0.
Proof.
  assert (Hzero : headerInfoCount gradeWordsFirst 0 = 0%nat) by (vm_compute; reflexivity).
  do 6 (split; [vm_compute; reflexivity|]).
  intros (before & after & _ & Hpos & _). rewrite Hzero in Hpos. lia.
Qed.

(** The scan of processArabicExcelSheet that locates the header row of the
    data stops at the first row with an identifier or name keyword, where
    the scan of extractSheetHeaders keeps the best row. On a sheet with a
    title above its header row the two disagree: the headers of the sheet
    are the labels of row 1, and the records are keyed by the title, the
    header row being the first of them. *)
Lemma title_row_taken_as_header :
  extractSheetHeaders titledSheet = ["رقم الطالب"; "اسم الطالب"; "درجة"] ∧
  (scanHeaderRows titledSheet).1.1 = 1 ∧
  locateStudents titledSheet = (0, 0, 0) ∧
  headerInfoCount titledSheet 0 = 1%nat ∧
  headerInfoCount titledSheet 1 = 2%nat ∧
  @processArabicExcelSheet _ (xlsx (λ _, None)) titledSheet
  = [ {[ "كشف اسم الطالب و رقم الجلوس" := VStr "رقم الطالب" ]};
      {[ "كشف اسم الطالب و رقم الجلوس" := VStr "17" ]} ].
Proof.
  do 5 (split; [vm_compute; reflexivity|]).
  compute_done.
Qed.

(** C6 (as stated) fails on headers with a repeated label: the label is
    collected twice among the additional grade columns. *)
Lemma repeated_header_repeats :
  Types.gradeColumns (detectHeaders ["id"; "name"; "grade"; "quiz"; "quiz"])
    = ["quiz"; "quiz"] ∧
  ¬ additionalDistinct (detectHeaders ["id"; "name"; "grade"; "quiz"; "quiz"]).
Proof.
  assert (H : Types.gradeColumns (detectHeaders ["id"; "name"; "grade"; "quiz"; "quiz"])
              = ["quiz"; "quiz"]) by compute_done.
  split; [exact H|]. intros [Hnd _]. rewrite H in Hnd.
  apply NoDup_cons in Hnd as [Hnotin _]. apply Hnotin. by left.
Qed.

(** The positional choice of the identifier and the name comes after the
    grade columns are collected: with three grade-like headers and no
    identifier or name among them, the name column is also an additional
    grade column. The guarantee on the additional columns therefore asks
    for an identifier or a name found by keyword. *)
Lemma positional_name_among_grades :
  NoDup ["grade"; "total"; "mark"] ∧
  detectHeaders ["grade"; "total"; "mark"]
    = Types.mkHeaderMapping "grade" "total" "grade" ["total"; "mark"].
Proof. compute_done. Qed.

(** Scenario A of the specification with one more column. *)
Lemma mapping_columns_witness :
  let headers := ["رقم الطالب"; "اسم الطالب"; "الدرجة النهائية"; "quiz 1"] in
  NoDup headers ∧
  columnsWithin headers (detectHeaders headers) ∧
  additionalDistinct (detectHeaders headers) ∧
  additionalApart (detectHeaders headers) ∧
  detectHeaders headers
    = Types.mkHeaderMapping "رقم الطالب" "اسم الطالب" "الدرجة النهائية" ["quiz 1"].
Proof.
  cbv zeta.
  set (headers := ["رقم الطالب"; "اسم الطالب"; "الدرجة النهائية"; "quiz 1"]).
  assert (Hnd : NoDup headers) by compute_done.
  destruct (mapping_columns headers None) as (Hwithin & _ & Hdistinct).
  destruct (Hdistinct Hnd ltac:(compute_done) ltac:(compute_done) ltac:(compute_done)
              ltac:(compute_done)) as (Hd & Ha & _).
  split; [exact Hnd|]. split; [exact Hwithin|]. split; [exact Hd|].
  split; [apply Ha; left; compute_done|compute_done].
Defined.

(** Scenario B of the specification: four positional labels. *)
Lemma positional_fallback_witness :
  forallb unmatched ["Column 1"; "Column 2"; "Column 3"; "Column 4"] = true ∧
  let m := detectHeaders ["Column 1"; "Column 2"; "Column 3"; "Column 4"] in
  Types.id m = "Column 1" ∧ Types.name m = "Column 2" ∧
  Types.grade m = "Column 3" ∧ Types.gradeColumns m = ["Column 4"].
Proof.
  assert (H : forallb unmatched ["Column 1"; "Column 2"; "Column 3"; "Column 4"] = true)
    by compute_done.
  split; [exact H|].
  exact (positional_fallback "Column 1" "Column 2" ["Column 3"; "Column 4"] H).
Defined.

(** A sheet without keywords and without numbers goes through the raw
    records. *)
Lemma raw_rows_when_not_found_witness :
  (locateStudents plainSheet).1.1 < 0 ∧
  @processArabicExcelSheet _ (xlsx (λ _, None)) plainSheet = sheet_to_json plainSheet.
Proof.
  assert (H : (locateStudents plainSheet).1.1 < 0) by compute_done.
  split; [exact H|].
  exact (@raw_rows_when_not_found _ (xlsx (λ _, None)) plainSheet (or_introl H)).
Defined.

(** Scenario D of the specification: a file of zero bytes. *)
Lemma parse_errors_witness :
  file_size (mkFile 0 "grades.xlsx" (Some [])) ≤ 0 ∧
  ∃ message,
    @parseExcelFile _ (xlsx (λ _, None)) (mkFile 0 "grades.xlsx" (Some []))
    = Rejected message.
Proof.
  assert (H : file_size (mkFile 0 "grades.xlsx" (Some [])) ≤ 0) by (simpl; lia).
  split; [exact H|].
  exact (@parse_errors _ (xlsx (λ _, None)) (mkFile 0 "grades.xlsx" (Some [])) (or_introl H)).
Defined.

End Parser.
(** * Properties of the grade table beyond the edit history *)

Module Table.
Import JS GradeTable Session Panel.

Section History.
Context {RT : Runtime}.
Variable students : list (gmap string value).
Variable mapping : Types.HeaderMapping.

Lemma handleAll_None (evs : list event) :
  foldl (λ st ev, st ≫= (λ st, handle students mapping st ev)) None evs = None.
Proof. induction evs; simpl; done. Qed.

Lemma handleAll_cons (ev : event) (evs : list event) (st : State) :
  handleAll students mapping (ev :: evs) st
  = handle students mapping st ev ≫= handleAll students mapping evs.
Proof.
  unfold handleAll. simpl.
  destruct (handle students mapping st ev); simpl; [done|apply handleAll_None].
Qed.

Lemma addToEditHistory_bounded (st : State) sid col old new now :
  bounded st → bounded (addToEditHistory students mapping st sid col old new now).
Proof.
  intros [Hlen Hc]. split; [apply EditHistory.addToEditHistory_length|].
  unfold addToEditHistory. simpl.
  rewrite EditHistory.slice_prefix by lia.
  set (h := take _ _ ++ _).
  assert (Hh : length h = S (Z.to_nat (Z.min (currentHistoryIndex st + 1)
                                         (Z.of_nat (length (editHistory st)))))).
  { unfold h. rewrite length_app, length_take. simpl. lia. }
  destruct (Z.ltb_spec 50 (Z.of_nat (length h))).
  - rewrite EditHistory.slice_last by lia. rewrite length_drop. lia.
  - lia.
Qed.

Lemma applyChanges_Some (h : list EditHistoryEntry) (index : Z) g g' :
  0 ≤ index → applyChanges h index g = Some g' → index < Z.of_nat (length h).
Proof.
  intros Hi. unfold applyChanges.
  destruct (Z.ltb_spec index (Z.of_nat (length h))) as [|Hge]; [done|].
  intros Happ. exfalso. revert Happ.
  replace (Z.to_nat (index + 1)) with (length h + S (Z.to_nat index - length h))%nat by lia.
  rewrite seq_app, fold_left_app. simpl.
  rewrite (lookup_ge_None_2 h (length h)) by lia.
  destruct (fold_left _ (seq 0 (length h)) (Some g)); simpl.
  all: generalize (seq (S (length h)) (Z.to_nat index - length h)) as l.
  all: induction l; simpl; done.
Qed.

Lemma handle_bounded (st st' : State) (ev : event) :
  fromPanel ev = true → bounded st → handle students mapping st ev = Some st' → bounded st'.
Proof.
  intros Hev Hb. destruct ev as [sid col text now| | |index]; simpl.
  - intros [= <-]. unfold saveGrade.
    destruct (negb _); [done|]. destruct (strict_eq _ _); [done|].
    simpl. by apply addToEditHistory_bounded.
  - unfold handleUndo. destruct Hb as [Hlen Hc].
    destruct (Z.leb_spec 0 (currentHistoryIndex st)); [|by intros [= <-]].
    destruct (at_index _ _); simpl; [|done]. intros [= <-]. split; simpl; [done|].
    destruct (Z.ltb_spec 0 (currentHistoryIndex st)); lia.
  - unfold handleRedo. destruct Hb as [Hlen Hc].
    destruct (Z.ltb_spec (currentHistoryIndex st) (Z.of_nat (length (editHistory st)) - 1));
      [|by intros [= <-]].
    destruct (at_index _ _); simpl; [|done]. intros [= <-]. split; simpl; [done|lia].
  - unfold jumpToHistoryPoint. simpl in Hev. apply Z.leb_le in Hev.
    destruct (applyChanges _ _ _) eqn:Happ; simpl; [|done].
    apply applyChanges_Some in Happ; [|done].
    intros [= <-]. destruct Hb as [Hlen Hc]. split; simpl; [done|lia].
Qed.

(** X1. In every run of commits, undos, redos and clicks on entries of the
    history panel that raises no error, from a state whose history holds
    at most fifty entries and whose cursor is between -1 and the length of
    the history, the history never holds more than fifty entries and the
    cursor stays between -1 and the length of the history. *)
Theorem history_stays_bounded (evs : list event) (st st' : State) :
  forallb fromPanel evs = true →
  bounded st →
  handleAll students mapping evs st = Some st' →
  bounded st'.
Proof.
  revert st. induction evs as [|ev evs IH]; intros st Hevs Hb.
  - by intros [= <-].
  - rewrite handleAll_cons. simpl in Hevs. apply andb_true_iff in Hevs as [Hev Hevs].
    destruct (handle students mapping st ev) as [st1|] eqn:Hst1; simpl; [|done].
    apply IH; [done|]. by apply (handle_bounded st st1 ev).
Qed.

(** What a recorded commit leaves, in terms of the state before it. *)
Lemma saveGrade_recorded (st st' : State) sid col now :
  saveGrade students mapping st sid col now = (st', Some GradeUpdated) →
  let old := or_empty (getGrade (grades st) (to_string sid) col) in
  let new := committedValue (tempGrade st) in
  let added := addToEditHistory students mapping st sid col old new now in
  st' = mkState (setGrade (to_string sid) col new (grades st))
          (editHistory added) (currentHistoryIndex added) None (tempGrade st)
          (showUndoHistory st).
Proof.
  unfold saveGrade. destruct (negb _); [done|].
  destruct (strict_eq _ _); [done|]. by intros [= <-].
Qed.

(** X2. A commit that is recorded, from a cursor not below -1, leaves its
    entry last in the history, with the value the cell held before (the
    empty string for a missing or falsy value) and the value committed;
    the cell holds the committed value, no other cell has changed, and
    nothing is left to redo. *)
Theorem recorded_commit (st st' : State) (sid : value) (col : string) (now : Z) :
  -1 ≤ currentHistoryIndex st →
  saveGrade students mapping st sid col now = (st', Some GradeUpdated) →
  (∃ name,
     last (editHistory st')
     = Some (mkEntry sid col (or_empty (getGrade (grades st) (to_string sid) col))
               (committedValue (tempGrade st)) now name)) ∧
  getGrade (grades st') (to_string sid) col = Some (committedValue (tempGrade st)) ∧
  (∀ k c, (to_string sid, col) ≠ (k, c) →
          getGrade (grades st') k c = getGrade (grades st) k c) ∧
  handleRedo st' = Some (st', NoMoreRedo).
Proof.
  intros Hc Hsave. apply saveGrade_recorded in Hsave. cbv zeta in Hsave. subst st'.
  split_and!.
  - eexists. unfold addToEditHistory. cbn [editHistory].
    set (h := slice _ _ _ ++ _).
    destruct (50 <? Z.of_nat (length h)); [apply EditHistory.last_slice_from; lia|apply last_snoc].
  - apply EditHistory.getGrade_setGrade_eq.
  - intros k c Hne. by apply EditHistory.getGrade_setGrade_ne.
  - unfold handleRedo. cbn [currentHistoryIndex editHistory].
    unfold addToEditHistory. cbn [currentHistoryIndex editHistory].
    rewrite EditHistory.slice_prefix by lia.
    set (h := take _ _ ++ _).
    assert (Hh : length h = S (Z.to_nat (Z.min (currentHistoryIndex st + 1)
                                           (Z.of_nat (length (editHistory st)))))).
    { unfold h. rewrite length_app, length_take. simpl. lia. }
    destruct (Z.ltb_spec 50 (Z.of_nat (length h))).
    + rewrite EditHistory.slice_last by lia. rewrite length_drop.
      destruct (Z.ltb_spec (Z.min (currentHistoryIndex st + 1) (Z.of_nat (length (editHistory st))))
                  (Z.of_nat (length h - (length h - Z.to_nat (- -50))) - 1)); [lia|done].
    + destruct (Z.ltb_spec (Z.min (currentHistoryIndex st + 1) (Z.of_nat (length (editHistory st))))
                  (Z.of_nat (length h) - 1)); [lia|done].
Qed.

(** X3. Undo right after a recorded commit, made from a cursor between -1
    and the length of the history and below 49: the cell goes back to the
    value the commit recorded as old, the cursor goes back to where it
    was (or to the last entry the commit kept), and when the cell held a
    string or a truthy value before the commit the whole grade store is
    as it was before the commit. *)
Theorem undo_after_commit (st st1 : State) (sid : value) (col : string) (now : Z) :
  -1 ≤ currentHistoryIndex st ≤ Z.of_nat (length (editHistory st)) →
  currentHistoryIndex st < 49 →
  saveGrade students mapping st sid col now = (st1, Some GradeUpdated) →
  ∃ st2,
    handleUndo st1 = Some (st2, UndoRestored) ∧
    grades st2 = setGrade (to_string sid) col
                   (or_empty (getGrade (grades st) (to_string sid) col)) (grades st) ∧
    currentHistoryIndex st2
      = Z.min (currentHistoryIndex st) (Z.of_nat (length (editHistory st)) - 1) ∧
    editHistory st2 = editHistory st1 ∧
    (∀ v, getGrade (grades st) (to_string sid) col = Some v → stable v = true →
          grades st2 = grades st).
Proof.
  intros Hc H49 Hsave. apply saveGrade_recorded in Hsave. cbv zeta in Hsave. subst st1.
  unfold handleUndo. cbn [currentHistoryIndex editHistory grades].
  unfold addToEditHistory. cbn [currentHistoryIndex editHistory].
  rewrite EditHistory.slice_prefix by lia.
  set (e := mkEntry _ _ _ _ _ _).
  set (c' := Z.min (currentHistoryIndex st + 1) (Z.of_nat (length (editHistory st)))).
  set (h := take _ _ ++ _).
  assert (Htake : length (take (Z.to_nat (currentHistoryIndex st + 1)) (editHistory st))
                  = Z.to_nat c').
  { rewrite length_take. lia. }
  assert (Hh : length h = S (Z.to_nat c')).
  { unfold h. rewrite length_app, Htake. simpl. lia. }
  destruct (Z.ltb_spec 50 (Z.of_nat (length h))); [lia|].
  destruct (Z.leb_spec 0 c'); [|lia].
  assert (He : at_index h c' = Some e).
  { unfold at_index. destruct (Z.ltb_spec c' 0); [lia|].
    unfold h. rewrite lookup_app_r by lia. rewrite Htake, Nat.sub_diag. done. }
  rewrite He. simpl. eexists. split; [done|]. cbn [grades currentHistoryIndex editHistory].
  split_and!.
  - apply EditHistory.setGrade_setGrade.
  - destruct (Z.ltb_spec 0 c'); lia.
  - done.
  - intros v Hv Hstable. rewrite EditHistory.setGrade_setGrade, Hv.
    rewrite EditHistory.stable_or_empty by done. by apply EditHistory.setGrade_id.
Qed.

End History.

Section Editing.
Context {RT : Runtime}.
Variable students : list (gmap string value).
Variable mapping : Types.HeaderMapping.
Implicit Types (st : State) (previousValues : gmap string (gmap string value)).

(** X4. A cell is opened and left without typing (the input loses focus).
    An empty or missing cell is closed without a trace. A cell holding a
    text that [parseFloat] does not read gets the invalid-grade toast and
    stays open. A cell holding a text that [parseFloat] reads is changed:
    it now holds the number, and the history has a new last entry from the
    text to the number. *)
Theorem blur_untouched st previousValues (sid : value) (col : string) (now : Z) :
  let opened := (startEditing st previousValues sid col).1 in
  let blurred := saveGrade students mapping opened sid col now in
  let cell := getGrade (grades st) (to_string sid) col in
  (cell = None ∨ cell = Some (VStr "") →
     blurred.2 = None ∧ grades blurred.1 = grades st ∧
     editHistory blurred.1 = editHistory st ∧
     currentHistoryIndex blurred.1 = currentHistoryIndex st ∧
     editingCell blurred.1 = None) ∧
  (∀ s, cell = Some (VStr s) → s ≠ "" → isNaN (parseFloat s) = true →
     blurred = (opened, Some InvalidGrade) ∧
     editingCell opened = Some (sid, col) ∧ tempGrade opened = s) ∧
  (∀ s, cell = Some (VStr s) → s ≠ "" → isNaN (parseFloat s) = false →
     blurred.2 = Some GradeUpdated ∧
     getGrade (grades blurred.1) (to_string sid) col = Some (VNum (parseFloat s)) ∧
     ∃ name, last (editHistory blurred.1)
             = Some (mkEntry sid col (VStr s) (VNum (parseFloat s)) now name)).
Proof.
  cbv zeta. unfold startEditing, gradeText. cbn [fst].
  split_and!.
  - intros Hcell. unfold saveGrade, validateGrade. cbn [tempGrade grades].
    assert (Htext : match getGrade (grades st) (to_string sid) col with
                    | Some v => to_string v | None => "" end = "").
    { by destruct Hcell as [->| ->]. }
    rewrite Htext. cbn [String.eqb negb].
    assert (Hold : or_empty (getGrade (grades st) (to_string sid) col) = VStr "").
    { by destruct Hcell as [->| ->]. }
    rewrite Hold. simpl. done.
  - intros s Hcell Hne Hnan. unfold saveGrade, validateGrade. cbn [tempGrade grades].
    rewrite Hcell. cbn [to_string].
    rewrite EditHistory.eqb_empty. destruct s; [done|]. cbn [nonempty negb].
    rewrite Hnan. done.
  - intros s Hcell Hne Hnan.
    set (opened := mkState _ _ _ _ _ _).
    assert (Hsave : saveGrade students mapping opened sid col now
                    = ((saveGrade students mapping opened sid col now).1, Some GradeUpdated)).
    { unfold saveGrade, validateGrade, opened. cbn [tempGrade grades].
      rewrite Hcell. cbn [to_string].
      rewrite EditHistory.eqb_empty. destruct s; [done|]. cbn [nonempty negb].
      rewrite Hnan. cbn [negb or_empty truthy nonempty strict_eq]. done. }
    apply (Table.saveGrade_recorded students mapping) in Hsave. cbv zeta in Hsave.
    assert (Hopened : tempGrade opened = s ∧ grades opened = grades st).
    { unfold opened. cbn [tempGrade grades]. by rewrite Hcell. }
    destruct Hopened as [Htext Hgrades].
    rewrite Htext, Hgrades, Hcell in Hsave.
    assert (Hnew : committedValue s = VNum (parseFloat s)).
    { unfold committedValue. rewrite EditHistory.eqb_empty. by destruct s. }
    assert (Hold : or_empty (Some (VStr s)) = VStr s) by (by destruct s).
    rewrite Hnew, Hold in Hsave.
    split_and!.
    + unfold saveGrade, validateGrade, opened. cbn [tempGrade grades].
      rewrite Hcell. cbn [to_string].
      rewrite EditHistory.eqb_empty. destruct s; [done|]. cbn [nonempty negb].
      rewrite Hnan. done.
    + rewrite Hsave. cbn [grades]. apply EditHistory.getGrade_setGrade_eq.
    + rewrite Hsave. cbn [editHistory]. eexists.
      unfold addToEditHistory. cbn [editHistory].
      set (h := slice _ _ _ ++ _).
      destruct (50 <? Z.of_nat (length h)); [apply EditHistory.last_slice_from; lia|apply last_snoc].
Qed.

(** X5. While a cell is open for editing, the keyboard shortcuts of the
    table never fail and never touch the grades, the history, the cursor
    or the cell being edited. After a cell is opened and a text is typed,
    Ctrl+Z puts back the text of the value remembered at the opening: the
    value of the cell, or the empty string if it was missing or falsy. *)
Theorem shortcuts_while_editing st previousValues (e : KeyboardEvent) :
  is_Some (editingCell st) →
  (∃ st' t, handleShortcut st previousValues e = Some (st', t) ∧
     grades st' = grades st ∧ editHistory st' = editHistory st ∧
     currentHistoryIndex st' = currentHistoryIndex st ∧
     editingCell st' = editingCell st) ∧
  (∀ (sid : value) (col text : string),
     (ctrlKey e || metaKey e) = true → key e = "z" → shiftKey e = false →
     let '(opened, remembered) := startEditing st previousValues sid col in
     ∃ st', handleShortcut (handleGradeChange opened text) remembered e = Some (st', None) ∧
       tempGrade st' = to_string (or_empty (getGrade (grades st) (to_string sid) col)) ∧
       editingCell st' = Some (sid, col)).
Proof.
  intros [[sid0 col0] Hcell]. split.
  - unfold handleShortcut. rewrite Hcell.
    repeat match goal with
           | |- context [if ?b then _ else _] => destruct b
           | |- context [match getGrade ?g ?k ?c with _ => _ end] => destruct (getGrade g k c)
           end; eauto 10.
  - intros sid col text Hctrl Hkey Hshift. unfold startEditing, handleShortcut.
    cbn [handleGradeChange editingCell grades editHistory currentHistoryIndex
         tempGrade showUndoHistory].
    rewrite Hctrl, Hkey, Hshift. cbn [String.eqb Ascii.eqb Bool.eqb andb negb].
    rewrite EditHistory.getGrade_setGrade_eq. eexists. split; [done|]. done.
Qed.

End Editing.

Section Exported.
Context {RT : Runtime}.
Variable students : list (gmap string value).
Variable mapping : Types.HeaderMapping.
Implicit Types (g : gmap string (gmap string value)) (student : gmap string value).

Lemma fold_insert_lookup {V} (f : string → V) (cs : list string) (r : gmap string V) (c : string) :
  fold_left (λ (r : gmap string V) c, <[c := f c]> r) cs r !! c
  = if decide (c ∈ cs) then Some (f c) else r !! c.
Proof.
  revert r. induction cs as [|c' cs IH]; intros r; simpl.
  - destruct (decide (c ∈ [])) as [H|]; [by apply elem_of_nil in H|done].
  - rewrite IH. destruct (decide (c ∈ cs)) as [Hin|Hnin].
    + destruct (decide (c ∈ c' :: cs)) as [|Hn]; [done|]. exfalso. apply Hn. by right.
    + destruct (decide (c = c')) as [->|Hne].
      * rewrite lookup_insert_eq. destruct (decide (c' ∈ c' :: cs)) as [|Hn]; [done|].
        exfalso. apply Hn. by left.
      * rewrite lookup_insert_ne by done.
        destruct (decide (c ∈ c' :: cs)) as [[?|?]%elem_of_cons|]; done.
Qed.

(** The grade cells of an exported row, and the rows of the export. *)
Lemma exportRow_grade g student (c : string) :
  c ∈ getAllGradeColumns mapping →
  exportRow mapping g student !! c
  = Some (Some match getGrade g (prop_key (student !! Types.id mapping)) c with
               | Some v => if truthy v then v else or_empty (student !! c)
               | None => or_empty (student !! c)
               end).
Proof.
  intros Hc. unfold exportRow.
  rewrite (fold_insert_lookup
             (λ column,
                Some match getGrade g (prop_key (student !! Types.id mapping)) column with
                     | Some v => if truthy v then v else or_empty (student !! column)
                     | None => or_empty (student !! column)
                     end)).
  by destruct (decide (c ∈ getAllGradeColumns mapping)).
Qed.

Lemma getExportData_lookup g (i : nat) student :
  students !! i = Some student →
  getExportData students mapping g !! i = Some (exportRow mapping g student).
Proof.
  intros Hi. unfold getExportData.
  assert (Hlen : (0 <? length students)%nat = true).
  { apply Nat.ltb_lt. apply lookup_lt_Some in Hi. lia. }
  by rewrite Hlen, list_lookup_fmap, Hi.
Qed.

(** X6. The export has one row per student, in order, or one template row
    when there is no student. In the row of a student every grade column
    holds the stored grade when that is truthy, and otherwise the value of
    the students data, or the empty string when that is missing or falsy
    too: a stored 0 or a cleared cell is never exported as such. *)
Theorem export_rows g :
  (students = [] → getExportData students mapping g = [templateRow mapping]) ∧
  length (getExportData students mapping g) = Nat.max 1 (length students) ∧
  (∀ i student, students !! i = Some student →
     ∃ row, getExportData students mapping g !! i = Some row ∧
       ∀ c, c ∈ getAllGradeColumns mapping →
         ∃ v, row !! c = Some (Some v) ∧
           (v = VStr "" ∨ truthy v = true) ∧
           (∀ w, getGrade g (prop_key (student !! Types.id mapping)) c = Some w →
                 truthy w = true → v = w) ∧
           ((∀ w, getGrade g (prop_key (student !! Types.id mapping)) c = Some w →
                  truthy w = false) →
            v = or_empty (student !! c))).
Proof.
  split_and!.
  - unfold getExportData. by intros ->.
  - unfold getExportData. destruct students; simpl; [done|]. rewrite length_map. lia.
  - intros i student Hi. exists (exportRow mapping g student).
    split; [by apply getExportData_lookup|].
    intros c Hc. rewrite exportRow_grade by done.
    eexists. split; [done|].
    assert (Hor : ∀ x : option value, or_empty x = VStr "" ∨ truthy (or_empty x) = true).
    { intros [v|]; simpl; [|by left]. destruct (truthy v) eqn:E; [by right|by left]. }
    destruct (getGrade g _ c) as [w|]; [destruct (truthy w) eqn:Hw|].
    + split_and!; [by right|by intros ? [= <-]|]. intros H. specialize (H w eq_refl). congruence.
    + split_and!; [apply Hor| |done]. intros ? [= <-]. congruence.
    + split_and!; [apply Hor|done|done].
Qed.

(** X7. Clearing a grade does not clear it in the export: after the commit
    of the empty text to a grade cell of a student whose row in the
    students data holds a truthy value there, the exported row of the
    student still shows that value. *)
Theorem cleared_grade_is_exported (st : State) (sid : value) (col : string) (now : Z)
    (i : nat) (student : gmap string value) (w : value) :
  students !! i = Some student →
  to_string sid = prop_key (student !! Types.id mapping) →
  col ∈ getAllGradeColumns mapping →
  student !! col = Some w → truthy w = true →
  tempGrade st = "" →
  let cleared := (saveGrade students mapping st sid col now).1 in
  ∃ row, getExportData students mapping (grades cleared) !! i = Some row ∧
         row !! col = Some (Some w).
Proof.
  intros Hi Hsid Hcol Hw Htruthy Htext. cbv zeta.
  eexists. split; [by apply getExportData_lookup|].
  rewrite exportRow_grade by done. do 2 f_equal.
  assert (Hfalsy : ∀ w', getGrade (grades (saveGrade students mapping st sid col now).1)
                           (prop_key (student !! Types.id mapping)) col = Some w' →
                         truthy w' = false).
  { rewrite <- Hsid. unfold saveGrade, validateGrade. rewrite Htext. cbn [String.eqb negb].
    destruct (strict_eq _ _) eqn:Heq; cbn [fst grades].
    - intros w' Hw'. rewrite Hw' in Heq. simpl in Heq.
      destruct (truthy w') eqn:E; [|done]. destruct w'; simpl in *; try done.
      apply String.eqb_eq in Heq. by subst.
    - intros w'. unfold addToEditHistory. cbn [grades].
      rewrite EditHistory.getGrade_setGrade_eq. by intros [= <-]. }
  destruct (getGrade _ _ col) as [w'|] eqn:Hcell.
  - rewrite (Hfalsy w' eq_refl), Hw. simpl. by rewrite Htruthy.
  - rewrite Hw. simpl. by rewrite Htruthy.
Qed.

End Exported.

Section Mount.
Context {RT : Runtime}.
Variable mapping : Types.HeaderMapping.
Implicit Types (students : list (gmap string value)) (k c : string).

Lemma initGrades_lookup students k :
  initGrades students mapping None !! k
  = initialGradesOf mapping <$>
      last (List.filter (λ s, bool_decide (prop_key (s !! Types.id mapping) = k)) students).
Proof.
  induction students as [|s students IH] using rev_ind; [done|].
  rewrite EditHistory.initGrades_snoc, List.filter_app. simpl.
  case_bool_decide as Hk.
  - rewrite Hk, lookup_insert_eq, last_snoc. done.
  - rewrite lookup_insert_ne by done. by rewrite app_nil_r.
Qed.

(** X8. The grades the table is mounted with. With nothing saved, there is
    one record per identifier of the students data, taken from the last
    row with that identifier, and it holds exactly the grade columns
    present in that row. Saved grades never add a student: they are merged
    into the records of the students of the data only, where a saved cell
    takes precedence over the cell of the data. *)
Theorem mounted_grades students (saved : gmap string (gmap string value)) k :
  initGrades students mapping None !! k
    = initialGradesOf mapping <$>
        last (List.filter (λ s, bool_decide (prop_key (s !! Types.id mapping) = k)) students) ∧
  (∀ s c, initialGradesOf mapping s !! c
          = if decide (c ∈ getAllGradeColumns mapping) then s !! c else None) ∧
  initGrades students mapping (Some saved) !! k
    = match initGrades students mapping None !! k with
      | Some own => Some (match saved !! k with Some parsed => parsed ∪ own | None => own end)
      | None => None
      end.
Proof.
  split_and!; [apply initGrades_lookup|apply EditHistory.initialGradesOf_lookup|].
  change (initGrades students mapping (Some saved))
    with (map_fold (λ sid parsed acc,
              match acc !! sid with
              | Some own => <[sid := parsed ∪ own]> acc
              | None => acc
              end) (initGrades students mapping None) saved).
  generalize (initGrades students mapping None) as init. intros init.
  revert k.
  apply (map_fold_weak_ind (λ acc (m : gmap string (gmap string value)),
           ∀ k, acc !! k = match init !! k with
                           | Some own =>
                               Some (match m !! k with Some parsed => parsed ∪ own | None => own end)
                           | None => None
                           end)).
  - intros k. rewrite lookup_empty. by destruct (init !! k).
  - intros sid parsed m acc Hfresh IH k.
    pose proof (IH sid) as Hsid. rewrite Hfresh in Hsid.
    destruct (decide (k = sid)) as [->|Hne].
    + rewrite lookup_insert_eq. destruct (init !! sid) as [own|].
      * rewrite Hsid. by rewrite lookup_insert_eq.
      * by rewrite Hsid.
    + rewrite (lookup_insert_ne m) by done. rewrite <- IH.
      destruct (acc !! sid); [by rewrite lookup_insert_ne|done].
Qed.

End Mount.

Section Keys.
Context {RT : Runtime}.
Variable students : list (gmap string value).
Variable mapping : Types.HeaderMapping.

Lemma findIndex_first {A} (f : A → bool) (before after : list A) (x : A) :
  (∀ y, y ∈ before → f y = false) → f x = true →
  findIndex f (before ++ x :: after) = Z.of_nat (length before).
Proof.
  intros Hbefore Hx. induction before as [|y before IH]; simpl; [by rewrite Hx|].
  rewrite (Hbefore y) by (by left). rewrite IH by (intros z Hz; apply Hbefore; by right).
  destruct (Z.ltb_spec (Z.of_nat (length before)) 0); lia.
Qed.

Lemma findIndex_none {A} (f : A → bool) (l : list A) :
  (∀ y, y ∈ l → f y = false) → findIndex f l = -1.
Proof.
  intros H. induction l as [|y l IH]; simpl; [done|].
  rewrite (H y) by (by left). rewrite IH by (intros z Hz; apply H; by right). done.
Qed.

Lemma indexOf_NoDup (l : list string) (j : nat) (x : string) :
  NoDup l → l !! j = Some x → indexOf l x = Z.of_nat j.
Proof.
  intros Hnodup Hj. unfold indexOf.
  pose proof (take_drop_middle l j x Hj) as Hl.
  rewrite <- Hl in Hnodup |- *.
  rewrite findIndex_first; [|..].
  - rewrite length_take. apply lookup_lt_Some in Hj. lia.
  - intros y Hy. apply NoDup_app in Hnodup as (_ & Hnot & _).
    apply String.eqb_neq. intros ->. apply (Hnot y Hy). by left.
  - apply String.eqb_refl.
Qed.

(** X24. Tab in the input of an open cell commits exactly like Enter, also
    when the text is refused, and then moves on in reading order, given
    that the grade columns are pairwise distinct: to the next grade column
    of the same student; from the last column, to the first grade column
    of the student displayed after the first row of the current student;
    from the last column of the last displayed student, nowhere. When no
    displayed row is the current student's, it moves to the first
    displayed student. *)
Theorem tab_navigation (st : State) (filtered : list (gmap string value)) (sid : value)
    (column : string) (now : Z) (j : nat) :
  NoDup (getAllGradeColumns mapping) →
  getAllGradeColumns mapping !! j = Some column →
  let displayed := getDisplayedStudents students filtered in
  let columns := getAllGradeColumns mapping in
  let tabbed := handleKeyDown students mapping st filtered "Tab" sid column now in
  tabbed.1 = saveGrade students mapping st sid column now ∧
  tabbed.1 = (handleKeyDown students mapping st filtered "Enter" sid column now).1 ∧
  ((S j < length columns)%nat → tabbed.2 = Some (Some sid, columns !! S j)) ∧
  ((S j = length columns)%nat →
     (∀ before student after,
        displayed = before ++ student :: after →
        (∀ s, s ∈ before → isStudent mapping sid s = false) →
        isStudent mapping sid student = true →
        tabbed.2 = match after with
                   | next :: _ => Some (next !! Types.id mapping, head columns)
                   | [] => None
                   end) ∧
     ((∀ s, s ∈ displayed → isStudent mapping sid s = false) →
      tabbed.2 = match displayed with
                 | first :: _ => Some (first !! Types.id mapping, head columns)
                 | [] => None
                 end)).
Proof.
  intros Hnodup Hj. cbv zeta. unfold handleKeyDown.
  cbn [String.eqb Ascii.eqb Bool.eqb].
  rewrite (indexOf_NoDup _ j column Hnodup Hj).
  pose proof (lookup_lt_Some _ _ _ Hj) as Hlt.
  change (λ s : gmap string value,
            match s !! Types.id mapping with
            | Some v => strict_eq v sid
            | None => false
            end) with (isStudent mapping sid).
  destruct (Z.ltb_spec (Z.of_nat j) (Z.of_nat (length (getAllGradeColumns mapping)) - 1))
    as [Hnext|Hlast].
  - split_and!; [done|done| |intros ?; lia].
    intros _. cbn [snd]. do 2 f_equal. unfold at_index.
    destruct (Z.ltb_spec (Z.of_nat j + 1) 0); [lia|].
    f_equal. lia.
  - split_and!.
    + destruct (findIndex _ _ <? _); [destruct (at_index _ _)|]; done.
    + destruct (findIndex _ _ <? _); [destruct (at_index _ _)|]; done.
    + intros ?. lia.
    + intros _. split.
      * intros before student after Hdisplayed Hbefore Hstudent.
        rewrite Hdisplayed, findIndex_first by done.
        rewrite length_app.
        destruct after as [|next after]; simpl length.
        -- match goal with |- context [?a <? ?b] => destruct (Z.ltb_spec a b) end; [lia|done].
        -- match goal with |- context [?a <? ?b] => destruct (Z.ltb_spec a b) end; [|lia].
           unfold at_index at 1.
           destruct (Z.ltb_spec (Z.of_nat (length before) + 1) 0); [lia|].
           replace (Z.to_nat (Z.of_nat (length before) + 1)) with (length before + 1)%nat by lia.
           rewrite lookup_app_r by lia.
           replace (length before + 1 - length before)%nat with 1%nat by lia.
           cbn [lookup list_lookup snd]. by destruct (getAllGradeColumns mapping).
      * intros Hnone. rewrite findIndex_none by done.
        destruct (getDisplayedStudents students filtered) as [|first rest]; [done|].
        simpl length.
        match goal with |- context [?a <? ?b] => destruct (Z.ltb_spec a b) end; [|lia].
        cbn [at_index Z.add Z.ltb Z.compare Z.to_nat lookup list_lookup snd].
        by destruct (getAllGradeColumns mapping).
Qed.

End Keys.

Section RoundTrip.
Context {RT : Runtime}.

(** X22. From a cursor on an entry, undo puts the old value of the entry
    into its cell, and undo followed by redo keeps the history, puts the
    cursor back and leaves the new value of the entry in its cell: the
    grades are as before the undo exactly when the cell held the new value
    of the entry. *)
Theorem undo_redo_round_trip (st : State) (e : EditHistoryEntry) :
  at_index (editHistory st) (currentHistoryIndex st) = Some e →
  ∃ st1 st2,
    handleUndo st = Some (st1, UndoRestored) ∧
    getGrade (grades st1) (to_string (studentId e)) (column e) = Some (oldValue e) ∧
    handleRedo st1 = Some (st2, RedoApplied) ∧
    editHistory st2 = editHistory st ∧
    currentHistoryIndex st2 = currentHistoryIndex st ∧
    (grades st2 = grades st
     ↔ getGrade (grades st) (to_string (studentId e)) (column e) = Some (newValue e)).
Proof.
  intros He.
  destruct (EditHistory.undo_redo_at_cursor st e He)
    as (st1 & st2 & Hundo & Hredo & Hh & Hc & Hg).
  exists st1, st2. split_and!; try done.
  - unfold handleUndo in Hundo.
    destruct (0 <=? currentHistoryIndex st); [|done].
    rewrite He in Hundo. simpl in Hundo. injection Hundo as <-.
    apply EditHistory.getGrade_setGrade_eq.
  - rewrite Hg. split.
    + intros <-. apply EditHistory.getGrade_setGrade_eq.
    + apply EditHistory.setGrade_id.
Qed.

End RoundTrip.

Import Sample Scenario Classroom.

(** The run of fifty-one commits in which the cap evicts an entry. *)
Lemma history_stays_bounded_witness :
  forallb fromPanel evicting = true ∧ bounded afterEviction.
Proof.
  assert (H1 : forallb fromPanel evicting = true) by compute_done.
  assert (H2 : handleAll [student2] mapping2 evicting (mounted [student2] mapping2 None)
               = Some afterEviction) by compute_done.
  assert (H0 : bounded (mounted [student2] mapping2 None)) by (split; simpl; lia).
  split; [exact H1|].
  exact (history_stays_bounded [student2] mapping2 evicting _ _ H1 H0 H2).
Defined.

(** The commit of "85" to a cell that holds 7. *)
Lemma recorded_commit_witness :
  saveGrade [student (num 7)] Scenario.mapping typed85 (VStr "s1") "G" 0
    = (committed85, Some GradeUpdated) ∧
  getGrade (grades committed85) (to_string (VStr "s1")) "G"
    = Some (committedValue (tempGrade typed85)) ∧
  handleRedo committed85 = Some (committed85, NoMoreRedo).
Proof.
  assert (H1 : -1 ≤ currentHistoryIndex typed85) by compute_done.
  assert (H2 : saveGrade [student (num 7)] Scenario.mapping typed85 (VStr "s1") "G" 0
               = (committed85, Some GradeUpdated)) by compute_done.
  destruct (recorded_commit [student (num 7)] Scenario.mapping typed85 committed85
              (VStr "s1") "G" 0 H1 H2) as (_ & Hcell & _ & Hredo).
  split; [exact H2|]. split; [exact Hcell|exact Hredo].
Defined.

(** The undo of that commit gives back the grades of the mounted table. *)
Lemma undo_after_commit_witness :
  stable (num 7) = true ∧
  ∃ st2, handleUndo committed85 = Some (st2, UndoRestored) ∧ grades st2 = grades typed85.
Proof.
  assert (H1 : -1 ≤ currentHistoryIndex typed85
               ≤ Z.of_nat (length (editHistory typed85))) by compute_done.
  assert (H2 : currentHistoryIndex typed85 < 49) by compute_done.
  assert (H3 : saveGrade [student (num 7)] Scenario.mapping typed85 (VStr "s1") "G" 0
               = (committed85, Some GradeUpdated)) by compute_done.
  assert (H4 : getGrade (grades typed85) (to_string (VStr "s1")) "G" = Some (num 7))
    by compute_done.
  assert (H5 : stable (num 7) = true) by compute_done.
  destruct (undo_after_commit [student (num 7)] Scenario.mapping typed85 committed85
              (VStr "s1") "G" 0 H1 H2 H3) as (st2 & Hundo & _ & _ & _ & Hsame).
  split; [exact H5|]. exists st2. split; [exact Hundo|exact (Hsame (num 7) H4 H5)].
Defined.

(** Ctrl+Z in the open cell of the table. *)
Lemma shortcuts_while_editing_witness :
  is_Some (editingCell editing) ∧
  ∃ st' t, handleShortcut editing ∅ ctrlZ = Some (st', t) ∧ grades st' = grades editing.
Proof.
  assert (H : is_Some (editingCell editing)) by compute_done.
  destruct (shortcuts_while_editing editing ∅ ctrlZ H) as [(st' & t & Hs & Hg & _) _].
  split; [exact H|]. exists st', t. split; [exact Hs|exact Hg].
Defined.

(** The cell that holds 7 in the students data is cleared: the export still
    shows 7. *)
Lemma cleared_grade_is_exported_witness :
  tempGrade (handleGradeChange typed85 "") = "" ∧
  ∃ row,
    getExportData [student (num 7)] Scenario.mapping
      (grades (saveGrade [student (num 7)] Scenario.mapping (handleGradeChange typed85 "")
                 (VStr "s1") "G" 0).1) !! 0%nat = Some row ∧
    row !! "G" = Some (Some (num 7)).
Proof.
  assert (H1 : [student (num 7)] !! 0%nat = Some (student (num 7))) by reflexivity.
  assert (H2 : to_string (VStr "s1")
               = prop_key (student (num 7) !! Types.id Scenario.mapping)) by compute_done.
  assert (H3 : "G" ∈ getAllGradeColumns Scenario.mapping) by compute_done.
  assert (H4 : student (num 7) !! "G" = Some (num 7)) by compute_done.
  assert (H5 : truthy (num 7) = true) by compute_done.
  assert (H6 : tempGrade (handleGradeChange typed85 "") = "") by reflexivity.
  split; [exact H6|].
  exact (cleared_grade_is_exported [student (num 7)] Scenario.mapping
           (handleGradeChange typed85 "") (VStr "s1") "G" 0 0%nat (student (num 7)) (num 7)
           H1 H2 H3 H4 H5 H6).
Defined.

(** Undo and redo of the commit of "85". *)
Lemma undo_redo_round_trip_witness :
  at_index (editHistory committed85) (currentHistoryIndex committed85)
    = Some (mkEntry (VStr "s1") "G" (num 7) (num 85) 0 (Some (VStr "Ann B"))) ∧
  ∃ st1 st2,
    handleUndo committed85 = Some (st1, UndoRestored) ∧
    handleRedo st1 = Some (st2, RedoApplied) ∧
    currentHistoryIndex st2 = currentHistoryIndex committed85.
Proof.
  assert (H : at_index (editHistory committed85) (currentHistoryIndex committed85)
              = Some (mkEntry (VStr "s1") "G" (num 7) (num 85) 0 (Some (VStr "Ann B"))))
    by compute_done.
  destruct (undo_redo_round_trip committed85 _ H) as (st1 & st2 & H1 & _ & H2 & _ & H3 & _).
  split; [exact H|]. exists st1, st2. split; [exact H1|]. split; [exact H2|exact H3].
Defined.

(** Tab in the first grade column of the second table of the scenarios. *)
Lemma tab_navigation_witness :
  NoDup (getAllGradeColumns mapping2) ∧
  (handleKeyDown [student2] mapping2 (mounted [student2] mapping2 None) [] "Tab"
     (VStr "s1") "G" 0).2
  = Some (Some (VStr "s1"), getAllGradeColumns mapping2 !! 1%nat).
Proof.
  assert (H1 : NoDup (getAllGradeColumns mapping2)) by compute_done.
  assert (H2 : getAllGradeColumns mapping2 !! 0%nat = Some "G") by compute_done.
  assert (H3 : (1 < length (getAllGradeColumns mapping2))%nat) by compute_done.
  destruct (tab_navigation [student2] mapping2 (mounted [student2] mapping2 None) []
              (VStr "s1") "G" 0 0%nat H1 H2) as (_ & _ & Hnext & _).
  split; [exact H1|exact (Hnext H3)].
Defined.

End Table.
(** * Properties of the workbook parser beyond header discovery *)

Module Workbook.
Import JS ExcelParser Scan Labels.

Section Headers.
Context {RT : Runtime}.
Implicit Types (ws : WorkSheet) (R C : nat).

Lemma columnLabel_nonempty C : columnLabel C ≠ "".
Proof. done. Qed.

Lemma cellText_nonempty ws R C h : cellText ws R C = Some h → h ≠ "".
Proof.
  unfold cellText. destruct (cells ws !! (R, C)) as [[v|]|]; [|done..].
  destruct (nonempty (trim (to_string v))) eqn:E; [|done].
  intros [= <-] Hempty. by rewrite Hempty in E.
Qed.

Lemma from_to_first (lo hi : nat) : (hi <? lo)%nat = false → lo ∈ from_to lo hi.
Proof.
  intros H. apply Nat.ltb_ge in H. unfold from_to.
  destruct (S hi - lo)%nat eqn:E; [lia|]. simpl. by left.
Qed.

(** X9. The headers of a sheet. When the range of the sheet holds no cell
    there is none. Otherwise they are the labels of one row of the range:
    one label per column of the range, none of them empty, each the
    trimmed text of the cell of that row or, for a missing or blank cell,
    [Column n] where n counts the columns of the sheet and not those of
    the range. *)
Theorem sheet_headers ws :
  (inverted ws = true → extractSheetHeaders ws = []) ∧
  (inverted ws = false →
     (∃ R, R ∈ rowsOf ws ∧ extractSheetHeaders ws = rowLabels ws R) ∧
     length (extractSheetHeaders ws)
       = S (e_c (decode_range ws) - s_c (decode_range ws)) ∧
     ∀ h, h ∈ extractSheetHeaders ws → h ≠ "").
Proof.
  unfold inverted, extractSheetHeaders. split; [by intros ->|]. intros Hinv. rewrite Hinv.
  apply orb_false_iff in Hinv as [Hr Hc].
  assert (Hrow : ∃ R, R ∈ rowsOf ws ∧
            (let '(headerRowIndex, bestHeaderRow, _) := scanHeaderRows ws in
             if (0 <=? headerRowIndex) && (0 <? length bestHeaderRow)%nat
             then bestHeaderRow else firstRowHeaders ws) = rowLabels ws R).
  { pose proof (Parser.scan_running_best ws (rowsOf ws)) as Hscan.
    unfold scanHeaderRows.
    destruct (fold_left (scanStep ws) (rowsOf ws) (-1, [], 0%nat)) as [[idx labels] best].
    destruct Hscan as [(-> & -> & _ & _)|(R & -> & -> & _ & before & after & Hrows & _)].
    - exists (s_r (decode_range ws)). split; [by apply from_to_first|]. done.
    - exists R. split; [rewrite Hrows; apply elem_of_app; right; by left|].
      destruct (andb _ _) eqn:E; [apply Parser.scanRow_labels|].
      exfalso. apply andb_false_iff in E as [E|E].
      + apply Z.leb_gt in E. lia.
      + apply Nat.ltb_ge in E. rewrite Parser.scanRow_labels in E. unfold rowLabels in E.
        rewrite length_map in E. unfold colsOf, from_to in E. rewrite length_seq in E.
        apply Nat.ltb_ge in Hc. lia. }
  destruct Hrow as (R & HR & ->). split_and!.
  - by exists R.
  - unfold rowLabels. rewrite length_map. unfold colsOf, from_to. rewrite length_seq.
    apply Nat.ltb_ge in Hc. lia.
  - intros h Hh. unfold rowLabels in Hh. apply list_elem_of_fmap in Hh as (C & -> & _).
    destruct (cellText ws R C) eqn:E; simpl; [by apply cellText_nonempty in E|done].
Qed.

End Headers.

Section Records.
Context {RT : Runtime} {X : Xlsx}.
Implicit Types (ws : WorkSheet) (R C : nat) (hdr : gmap nat string).

Lemma studentOfRow_keys ws hdr R (h : string) :
  is_Some (studentOfRow ws hdr R !! h)
  ↔ h ≠ "" ∧ ∃ C, C ∈ colsOf ws ∧ hdr !! C = Some h.
Proof.
  unfold studentOfRow.
  assert (H : ∀ cs (acc : gmap string value),
             is_Some (fold_left (λ student C,
                 match hdr !! C with
                 | Some h =>
                     if nonempty h then
                       match cells ws !! (R, C) with
                       | Some (Some v) => <[h := v]> student
                       | _ => <[h := VStr ""]> student
                       end
                     else student
                 | None => student
                 end) cs acc !! h)
             ↔ is_Some (acc !! h) ∨ (h ≠ "" ∧ ∃ C, C ∈ cs ∧ hdr !! C = Some h)).
  { induction cs as [|C cs IH]; intros acc; simpl.
    - split; [by left|]. intros [?|(_ & C & HC & _)]; [done|by apply elem_of_nil in HC].
    - rewrite IH. clear IH.
      assert (Hstep : ∀ v : value, is_Some (<[h := v]> acc !! h)).
      { intros v. rewrite lookup_insert_eq. by eexists. }
      destruct (hdr !! C) as [h'|] eqn:Hh'.
      + destruct (nonempty h') eqn:Hne.
        * apply Parser.nonempty_true in Hne.
          destruct (decide (h' = h)) as [->|Hdiff].
          -- split; [|by destruct (cells ws !! (R, C)) as [[v|]|]; left].
             intros _. right. split; [done|]. exists C. split; [by left|done].
          -- assert (Hacc : ∀ v : value, <[h' := v]> acc !! h = acc !! h).
             { intros v. by rewrite lookup_insert_ne. }
             assert (Heq : ∀ acc' : gmap string value, acc' !! h = acc !! h →
                       (is_Some (acc' !! h) ∨ h ≠ "" ∧ (∃ C0, C0 ∈ cs ∧ hdr !! C0 = Some h))
                       ↔ (is_Some (acc !! h) ∨ h ≠ "" ∧ (∃ C0, C0 ∈ C :: cs ∧ hdr !! C0 = Some h))).
             { intros acc' ->. split.
               - intros [?|(? & C0 & ? & ?)]; [by left|]. right. split; [done|].
                 exists C0. split; [by right|done].
               - intros [?|(? & C0 & [->|?]%elem_of_cons & HC0)]; [by left|congruence|].
                 right. split; [done|]. by exists C0. }
             destruct (cells ws !! (R, C)) as [[v|]|]; apply Heq, Hacc.
        * apply not_true_iff_false in Hne. rewrite Parser.nonempty_true in Hne.
          split.
          -- intros [?|(? & C0 & ? & ?)]; [by left|]. right. split; [done|].
             exists C0. split; [by right|done].
          -- intros [?|(Hh & C0 & [->|?]%elem_of_cons & HC0)]; [by left| |].
             ++ exfalso. apply Hne. congruence.
             ++ right. split; [done|]. by exists C0.
      + split.
        * intros [?|(? & C0 & ? & ?)]; [by left|]. right. split; [done|].
          exists C0. split; [by right|done].
        * intros [?|(Hh & C0 & [->|?]%elem_of_cons & HC0)]; [by left|congruence|].
          right. split; [done|]. by exists C0. }
  rewrite H. rewrite lookup_empty. split; [intros [[? ?]|?]; done|by right].
Qed.

Lemma students_fold ws hdr (idC nameC : nat) (rows : list nat) (acc : list (gmap string value)) :
  let result :=
    fold_left (λ students R,
        match cells ws !! (R, idC), cells ws !! (R, nameC) with
        | Some _, Some _ =>
            let student := studentOfRow ws hdr R in
            if (0 <? size student)%nat then students ++ [student] else students
        | _, _ => students
        end) rows acc in
  (∀ student, student ∈ result →
     student ∈ acc ∨
     ∃ R, R ∈ rows ∧ student = studentOfRow ws hdr R ∧ student ≠ ∅ ∧
          is_Some (cells ws !! (R, idC)) ∧ is_Some (cells ws !! (R, nameC))) ∧
  (length result ≤ length acc + length rows)%nat.
Proof.
  cbv zeta. revert acc. induction rows as [|R rows IH]; intros acc; simpl.
  - split; [by left|lia].
  - set (acc' := match cells ws !! (R, idC), cells ws !! (R, nameC) with
                 | Some _, Some _ =>
                     if (0 <? size (studentOfRow ws hdr R))%nat
                     then acc ++ [studentOfRow ws hdr R] else acc
                 | _, _ => acc
                 end).
    destruct (IH acc') as [Hin Hlen].
    assert (Hacc' : (∀ student, student ∈ acc' →
               student ∈ acc ∨
               (student = studentOfRow ws hdr R ∧ student ≠ ∅ ∧
                is_Some (cells ws !! (R, idC)) ∧ is_Some (cells ws !! (R, nameC)))) ∧
             (length acc' ≤ S (length acc))%nat).
    { unfold acc'. destruct (cells ws !! (R, idC)), (cells ws !! (R, nameC));
        try (split; [by left|lia]).
      destruct (0 <? size (studentOfRow ws hdr R))%nat eqn:Hsize; [|split; [by left|lia]].
      split; [|rewrite length_app; simpl; lia].
      intros student [?|Hs%list_elem_of_singleton]%elem_of_app; [by left|]. subst student.
      right. split_and!; try done.
      intros Hempty. rewrite Hempty, map_size_empty in Hsize. done. }
    destruct Hacc' as [Hacc Hacclen]. split; [|lia].
    intros student Hs. destruct (Hin student Hs) as [Ha|(R' & HR' & ?)].
    + destruct (Hacc student Ha) as [?|?]; [by left|].
      right. exists R. split; [by left|done].
    + right. exists R'. split; [by right|done].
Qed.

(** X10. When the header row, the identifier column and the name column of
    a sheet are found, all its records have the same keys: the non-empty
    texts of the truthy cells of the header row, of which there is at
    least one. Each record comes from a row below the header row that has
    a cell in the identifier column and one in the name column, so there
    are at most as many records as rows below the header row. *)
Theorem records_share_keys ws :
  located ws = true →
  let R := Z.to_nat (locateStudents ws).1.1 in
  (∀ student, student ∈ processArabicExcelSheet ws →
     (∀ h, is_Some (student !! h) ↔ recordKey ws R h) ∧ (∃ h, recordKey ws R h)) ∧
  (length (processArabicExcelSheet ws) ≤ e_r (decode_range ws) - R)%nat.
Proof.
  unfold located, processArabicExcelSheet.
  destruct (locateStudents ws) as [[row idC] nameC]. cbn [fst snd].
  intros [[Hrow Hid]%andb_true_iff Hname]%andb_true_iff.
  apply Z.leb_le in Hrow, Hid, Hname.
  destruct (Z.ltb_spec row 0); [lia|]. destruct (Z.ltb_spec idC 0); [lia|].
  destruct (Z.ltb_spec nameC 0); [lia|]. cbn [orb].
  destruct (students_fold ws (headerLabels ws (Z.to_nat row)) (Z.to_nat idC) (Z.to_nat nameC)
              (from_to (S (Z.to_nat row)) (e_r (decode_range ws))) []) as [Hin Hlen].
  cbv zeta in Hin, Hlen. split.
  - intros student Hs. destruct (Hin student Hs) as [Hnil|(R' & _ & -> & Hne & _)].
    { by apply elem_of_nil in Hnil. }
    assert (Hkeys : ∀ h, is_Some (studentOfRow ws (headerLabels ws (Z.to_nat row)) R' !! h)
                         ↔ recordKey ws (Z.to_nat row) h).
    { intros h. apply studentOfRow_keys. }
    split; [done|].
    apply map_choose in Hne as (h & v & Hv). exists h. apply Hkeys. by eexists.
  - etrans; [apply Hlen|]. simpl. unfold from_to. rewrite length_seq. lia.
Qed.

End Records.

Section Shape.
Context {RT : Runtime}.
Implicit Types (ws : WorkSheet) (R C : nat).

Lemma find_existsb {A} (f : A → bool) (l : list A) :
  existsb f l = true → ∃ x, List.find f l = Some x.
Proof.
  induction l as [|x l IH]; simpl; [done|].
  destruct (f x); [by eexists|]. apply IH.
Qed.

Lemma find_not_existsb {A} (f : A → bool) (l : list A) :
  existsb f l = false → List.find f l = None.
Proof.
  induction l as [|x l IH]; simpl; [done|].
  destruct (f x); [done|]. apply IH.
Qed.

Lemma findStudentRow_spec ws (rows : list nat) (found : Z * Z * Z) :
  found.1.1 = -1 →
  match List.find (shaped ws) rows with
  | Some R =>
      ∃ C, List.find (looksLikeStudentRow ws R) (colsOf ws) = Some C ∧
           findStudentRow ws rows found = (Z.of_nat R - 1, Z.of_nat C, Z.of_nat C + 1)
  | None => (findStudentRow ws rows found).1.1 = -1
  end.
Proof.
  revert found. induction rows as [|R rows IH]; intros found Hfound; simpl; [done|].
  unfold shaped at 1.
  destruct (existsb (looksLikeStudentRow ws R) (colsOf ws)) eqn:Hex.
  - apply find_existsb in Hex as [C HC]. rewrite HC. cbn [fst].
    destruct R as [|R]; cbn [Nat.ltb Nat.leb andb].
    + replace (0 <=? Z.of_nat 0 - 1) with false by done. by apply IH.
    + destruct (Z.leb_spec 0 (Z.of_nat (S R) - 1)); [|lia]. by exists C.
  - apply find_not_existsb in Hex. rewrite Hex, andb_false_r, Hfound.
    replace (0 <=? -1) with false by done. by apply IH.
Qed.

(** X23. The fallback on the shape of the content. In a sheet none of
    whose cells bears an identifier or name keyword, the rows are
    searched for a number above 1000 followed by a text with a space: at
    the first such row that is not the first row of the grid, the row
    above it is taken as header row, the column of the number (the first
    one in that row) as identifier column and the next column as name
    column. When there is no such row, no header row is found. *)
Theorem content_shape_fallback ws :
  keywordFree ws = true →
  match List.find (shaped ws) (rowsOf ws) with
  | Some R =>
      ∃ C, List.find (looksLikeStudentRow ws R) (colsOf ws) = Some C ∧
           locateStudents ws = (Z.of_nat R - 1, Z.of_nat C, Z.of_nat C + 1)
  | None => (locateStudents ws).1.1 = -1 ∧ located ws = false
  end.
Proof.
  intros Hfree. unfold keywordFree in Hfree. rewrite forallb_forall in Hfree.
  assert (Hnone : findHeaderInfo ws (rowsOf ws) = (-1, -1, -1)).
  { destruct (Parser.findHeaderInfo_spec ws (rowsOf ws))
      as [[? _]|(R & _ & before & after & Hrows & Hpos & _)]; [done|].
    assert (HR : In R (rowsOf ws)).
    { rewrite Hrows. apply in_or_app. right. by left. }
    apply Hfree, Nat.eqb_eq in HR. lia. }
  pose proof (findStudentRow_spec ws (rowsOf ws) (-1, -1, -1) eq_refl) as Hspec.
  assert (Hlocate : locateStudents ws = findStudentRow ws (rowsOf ws) (-1, -1, -1)).
  { unfold locateStudents. by rewrite Hnone. }
  destruct (List.find (shaped ws) (rowsOf ws)) as [R|].
  - destruct Hspec as (C & HC & Hfound). exists C. by rewrite Hlocate.
  - rewrite Hlocate. split; [done|]. unfold located. rewrite Hlocate.
    destruct (findStudentRow ws (rowsOf ws) (-1, -1, -1)) as [[row idC] nameC].
    cbn [fst] in Hspec. by rewrite Hspec.
Qed.

End Shape.

Section Ingest.
Context {RT : Runtime} {X : Xlsx}.
Implicit Types (sheet : Sheet) (workbook : WorkBook) (names : list string).

Lemma third_fields global sheet :
  name (thirdPass global sheet) = name sheet ∧
  data (thirdPass global sheet) = data sheet ∧
  headers (thirdPass global sheet) = headers sheet ∧
  isEmptySheet (thirdPass global sheet) = isEmptySheet sheet.
Proof.
  unfold thirdPass. destruct (_ && _); [|done].
  by destruct (enhanceHeaderMappingForEmptySheet _ _).
Qed.

Lemma third_nonempty global sheet : isEmptySheet sheet = false → thirdPass global sheet = sheet.
Proof. unfold thirdPass. by intros ->. Qed.

Lemma third_enhanced global sheet m :
  enhancedMapping sheet = None →
  enhancedMapping (thirdPass global sheet) = Some m →
  isEmptySheet sheet = true ∧ headers sheet ≠ [] ∧ is_Some global ∧
  enhanceHeaderMappingForEmptySheet (headers sheet) global = Some m.
Proof.
  intros Hnone. unfold thirdPass.
  destruct (isEmptySheet sheet) eqn:Hempty; simpl; [|congruence].
  destruct (0 <? length (headers sheet))%nat eqn:Hlen; [|congruence].
  destruct (enhanceHeaderMappingForEmptySheet _ _) eqn:Henh; [|congruence].
  simpl. intros [= <-]. split_and!; try done.
  - intros Hnil. by rewrite Hnil in Hlen.
  - unfold enhanceHeaderMappingForEmptySheet in Henh. by destruct global.
Qed.

Lemma filter_first {A} (f : A → bool) (l : list A) x rest :
  List.filter f l = x :: rest →
  ∃ before after, l = before ++ x :: after ∧ f x = true ∧ ∀ y, y ∈ before → f y = false.
Proof.
  induction l as [|a l IH]; simpl; [done|].
  destruct (f a) eqn:Ha.
  - intros [= -> <-]. exists [], l. split_and!; [done|done|].
    intros y Hy. by apply elem_of_nil in Hy.
  - intros H. destruct (IH H) as (before & after & -> & Hx & Hbefore).
    exists (a :: before), after. split_and!; [done|done|].
    intros y [->|?]%elem_of_cons; [done|by apply Hbefore].
Qed.

Lemma filter_none {A} (f : A → bool) (l : list A) :
  List.filter f l = [] → ∀ y, y ∈ l → f y = false.
Proof.
  induction l as [|a l IH]; simpl; [intros _ y Hy; by apply elem_of_nil in Hy|].
  destruct (f a) eqn:Ha; [done|].
  intros H y [->|?]%elem_of_cons; [done|by apply IH].
Qed.

Lemma processSheet_fields workbook n :
  name (processSheet workbook n) = n ∧ enhancedMapping (processSheet workbook n) = None.
Proof. unfold processSheet. by destruct (Sheets workbook !! n). Qed.

(** What the three passes over a workbook with at least one sheet name
    produce. *)
Lemma processWorkbook_spec names workbook :
  names ≠ [] →
  let d := processWorkbook names workbook in
  map name (sheets d) = names ∧
  (∃ before sheet after,
     sheets d = before ++ sheet :: after ∧ currentSheet d = Some sheet ∧
     (∀ s, s ∈ before → isEmptySheet s = true) ∧
     (isEmptySheet sheet = true → before = [] ∧ ∀ s, s ∈ after → isEmptySheet s = true)) ∧
  (∀ sheet m, sheet ∈ sheets d → enhancedMapping sheet = Some m →
     isEmptySheet sheet = true ∧ headers sheet ≠ [] ∧ columnsWithin (headers sheet) m ∧
     ∃ s, s ∈ sheets d ∧ isEmptySheet s = false) ∧
  columnsWithin (dataHeaders d) (mapping d).
Proof.
  intros Hnames. cbv zeta. unfold processWorkbook.
  set (sheets0 := map (processSheet workbook) names).
  set (nonEmptySheets := List.filter (λ sheet, negb (isEmptySheet sheet)) sheets0).
  set (global := head nonEmptySheets ≫= λ referenceSheet,
                 head (data referenceSheet) ≫= λ first, Some (detectHeaders (Object_keys first))).
  change (map _ sheets0) with (map (thirdPass global) sheets0).
  set (final := map (thirdPass global) sheets0).
  cbn [sheets currentSheet dataHeaders mapping].
  assert (Hnone : ∀ s, s ∈ sheets0 → enhancedMapping s = None).
  { intros s (n & -> & _)%list_elem_of_fmap. apply processSheet_fields. }
  assert (Hglobal : is_Some global → ∃ s, s ∈ final ∧ isEmptySheet s = false).
  { unfold global. destruct nonEmptySheets as [|s rest] eqn:Hfilter; simpl; [by intros [? ?]|].
    intros _. apply filter_first in Hfilter as (before & after & Hsheets & Hs & _).
    apply negb_true_iff in Hs. exists s. split; [|done].
    unfold final. rewrite Hsheets, map_app. simpl. rewrite third_nonempty by done.
    apply elem_of_app. right. by left. }
  assert (Hfinal : ∀ sheet m, sheet ∈ final → enhancedMapping sheet = Some m →
            isEmptySheet sheet = true ∧ headers sheet ≠ [] ∧
            columnsWithin (headers sheet) m ∧ is_Some global).
  { intros sheet m (s0 & -> & Hs0)%list_elem_of_fmap Hm.
    destruct (third_fields global s0) as (_ & _ & Hh & He).
    apply third_enhanced in Hm as (? & ? & ? & Henh); [|by apply Hnone].
    rewrite Hh, He. split_and!; try done. by apply Parser.enhance_within in Henh. }
  split_and!.
  - unfold final, sheets0. rewrite !map_map. clear -Hnames.
    induction names as [|n names IH] using rev_ind; [done|].
    clear IH. rewrite <- (map_id (names ++ [n])) at 2. apply map_ext.
    intros a. destruct (third_fields global (processSheet workbook a)) as [-> _].
    apply processSheet_fields.
  - destruct nonEmptySheets as [|s rest] eqn:Hfilter.
    + pose proof (filter_none _ _ Hfilter) as Hall.
      destruct sheets0 as [|s0 rest0] eqn:Hsheets.
      { unfold sheets0 in Hsheets. by destruct names. }
      exists [], (thirdPass global s0), (map (thirdPass global) rest0).
      split_and!; [done|done|by intros s Hs; apply elem_of_nil in Hs|].
      intros _. split; [done|]. intros s (s1 & -> & Hs1)%list_elem_of_fmap.
      destruct (third_fields global s1) as (_ & _ & _ & ->).
      rewrite <- (negb_involutive (isEmptySheet s1)). rewrite (Hall s1); [done|by right].
    + apply filter_first in Hfilter as (before & after & Hsheets & Hs & Hbefore).
      apply negb_true_iff in Hs.
      exists (map (thirdPass global) before), s, (map (thirdPass global) after).
      split_and!.
      * unfold final. rewrite Hsheets, map_app. simpl. by rewrite third_nonempty.
      * done.
      * intros s1 (s2 & -> & Hs2)%list_elem_of_fmap.
        destruct (third_fields global s2) as (_ & _ & _ & ->).
        apply Hbefore in Hs2. by apply negb_false_iff in Hs2.
      * congruence.
  - intros sheet m Hsheet Hm.
    destruct (Hfinal sheet m Hsheet Hm) as (? & ? & ? & Hg). split_and!; try done.
    by apply Hglobal.
  - assert (Hcurrent : ∀ sheet,
              match nonEmptySheets with s :: _ => Some s | [] => head final end = Some sheet →
              sheet ∈ final).
    { intros sheet. destruct nonEmptySheets as [|s rest] eqn:Hfilter.
      - apply head_Some_elem_of.
      - intros [= <-]. apply filter_first in Hfilter as (before & after & Hsheets & Hs & _).
        apply negb_true_iff in Hs.
        unfold final. rewrite Hsheets, map_app. simpl. rewrite third_nonempty by done.
        apply elem_of_app. right. by left. }
    destruct (match nonEmptySheets with s :: _ => Some s | [] => head final end)
      as [sheet|] eqn:Hc.
    + specialize (Hcurrent sheet eq_refl).
      unfold isEmptySheet. destruct (data sheet) as [|first rest] eqn:Hdata; simpl.
      * destruct (enhancedMapping sheet) as [m|] eqn:Hm.
        -- destruct (Hfinal sheet m Hcurrent Hm) as (_ & _ & ? & _). done.
        -- apply Parser.detectHeaders_within.
      * apply Parser.detectHeaders_within.
    + apply Parser.detectHeaders_within.
Qed.

Lemma processWorkbook_current names workbook sheet :
  let d := processWorkbook names workbook in
  currentSheet d = Some sheet →
  dataHeaders d = match data sheet with
                  | first :: _ => Object_keys first
                  | [] => headers sheet
                  end ∧
  mapping d = match isEmptySheet sheet, enhancedMapping sheet with
              | true, Some enhanced => enhanced
              | _, _ => detectHeaders (dataHeaders d)
              end.
Proof.
  cbv zeta. unfold processWorkbook. cbn [currentSheet dataHeaders mapping].
  by intros ->.
Qed.

Lemma parseExcelFile_Resolved (file : File) d :
  parseExcelFile file = Resolved d →
  ∃ bytes workbook names,
    0 < file_size file ∧
    (fileExtension file = Some "xlsx" ∨ fileExtension file = Some "xls") ∧
    file_content file = Some bytes ∧ read bytes = Some workbook ∧
    SheetNames workbook = Some names ∧ names ≠ [] ∧
    d = processWorkbook names workbook.
Proof.
  unfold parseExcelFile.
  destruct (Z.leb_spec (file_size file) 0); [done|].
  destruct (negb _ && negb _) eqn:Hext; [done|].
  destruct (file_content file) as [bytes|]; [|done].
  destruct (read bytes) as [workbook|] eqn:Hread; [|done].
  destruct (SheetNames workbook) as [[|n names]|] eqn:Hnames; [done| |done].
  intros [= <-]. exists bytes, workbook, (n :: names). split_and!; try done.
  apply andb_false_iff in Hext as [H1|H1]; apply negb_false_iff, bool_decide_eq_true in H1;
    [by left|by right].
Qed.

(** X11. A file that is not empty, is named [.xlsx] or [.xls], is read,
    is parsed, and has at least one sheet name is ingested: the result
    keeps one sheet per sheet name, in order and empty ones included; the
    current sheet is the first sheet with data, or the first sheet when
    none has data; an enhanced mapping is found only on an empty sheet
    with headers, when some other sheet has data, and names columns of
    that sheet's headers only; and the mapping returned names columns of
    the headers returned only. *)
Theorem parsed_workbook (file : File) (bytes : list Byte.byte) workbook names :
  0 < file_size file →
  fileExtension file = Some "xlsx" ∨ fileExtension file = Some "xls" →
  file_content file = Some bytes →
  read bytes = Some workbook →
  SheetNames workbook = Some names →
  names ≠ [] →
  ∃ d, parseExcelFile file = Resolved d ∧
    map name (sheets d) = names ∧
    (∃ before sheet after,
       sheets d = before ++ sheet :: after ∧ currentSheet d = Some sheet ∧
       (∀ s, s ∈ before → isEmptySheet s = true) ∧
       (isEmptySheet sheet = true → before = [] ∧ ∀ s, s ∈ after → isEmptySheet s = true)) ∧
    (∀ sheet m, sheet ∈ sheets d → enhancedMapping sheet = Some m →
       isEmptySheet sheet = true ∧ headers sheet ≠ [] ∧ columnsWithin (headers sheet) m ∧
       ∃ s, s ∈ sheets d ∧ isEmptySheet s = false) ∧
    columnsWithin (dataHeaders d) (mapping d).
Proof.
  intros Hsize Hext Hcontent Hread Hnames Hne.
  exists (processWorkbook names workbook). split; [|by apply processWorkbook_spec].
  unfold parseExcelFile.
  destruct (Z.leb_spec (file_size file) 0); [lia|].
  assert (Hok : negb (bool_decide (fileExtension file = Some "xlsx"))
                && negb (bool_decide (fileExtension file = Some "xls")) = false).
  { destruct Hext as [-> | ->]; done. }
  rewrite Hok, Hcontent, Hread, Hnames. by destruct names.
Qed.


Lemma parse_first_checks (file : File) :
  (file_size file ≤ 0 → parseExcelFile file = Rejected "The Excel file is empty") ∧
  (0 < file_size file →
   fileExtension file ≠ Some "xlsx" → fileExtension file ≠ Some "xls" →
   parseExcelFile file
     = Rejected "Invalid file format. Please upload an Excel file (.xlsx or .xls)") ∧
  (0 < file_size file →
   fileExtension file = Some "xlsx" ∨ fileExtension file = Some "xls" →
   parseExcelFile file ≠ Rejected "The Excel file is empty" ∧
   parseExcelFile file
     ≠ Rejected "Invalid file format. Please upload an Excel file (.xlsx or .xls)").
Proof.
  unfold parseExcelFile. split_and!.
  - intros H. by destruct (Z.leb_spec (file_size file) 0); [|lia].
  - intros H Hx Hs. destruct (Z.leb_spec (file_size file) 0); [lia|].
    by rewrite !bool_decide_eq_false_2.
  - intros H Hext. destruct (Z.leb_spec (file_size file) 0); [lia|].
    assert (Hok : negb (bool_decide (fileExtension file = Some "xlsx"))
                  && negb (bool_decide (fileExtension file = Some "xls")) = false).
    { destruct Hext as [-> | ->]; done. }
    rewrite Hok.
    destruct (file_content file) as [bytes|]; [|done].
    destruct (read bytes) as [workbook|]; [|done].
    destruct (SheetNames workbook) as [[|? ?]|]; done.
Qed.

(** X12. The check of the upload component and the first two checks of
    parseExcelFile accept the same files: a file is handed on exactly when
    it is not empty and is named [.xlsx] or [.xls], which is exactly when
    parseExcelFile rejects it neither as empty nor for its format. A file
    refused as empty by the component is rejected as empty by the parser;
    one refused for its type is rejected as empty or for its format. *)
Theorem upload_checks_agree (file : File) :
  (FileUpload.handleFile file = FileUpload.Forwarded ↔
     0 < file_size file ∧
     (fileExtension file = Some "xlsx" ∨ fileExtension file = Some "xls")) ∧
  (FileUpload.handleFile file = FileUpload.Forwarded ↔
     parseExcelFile file ≠ Rejected "The Excel file is empty" ∧
     parseExcelFile file
       ≠ Rejected "Invalid file format. Please upload an Excel file (.xlsx or .xls)") ∧
  (FileUpload.handleFile file = FileUpload.EmptyFile →
     parseExcelFile file = Rejected "The Excel file is empty") ∧
  (FileUpload.handleFile file = FileUpload.InvalidFileType →
     parseExcelFile file = Rejected "The Excel file is empty" ∨
     parseExcelFile file
       = Rejected "Invalid file format. Please upload an Excel file (.xlsx or .xls)").
Proof.
  destruct (parse_first_checks file) as (Hempty & Hformat & Hpass).
  assert (Hfirst : FileUpload.handleFile file = FileUpload.Forwarded ↔
            0 < file_size file ∧
            (fileExtension file = Some "xlsx" ∨ fileExtension file = Some "xls")).
  { unfold FileUpload.handleFile.
    destruct (Z.leb_spec (file_size file) 0);
      repeat case_bool_decide; cbn [orb]; split; try done; try (intros [? ?]; lia);
      try (intros _; split; [done|by left + by right]);
      intros [_ [?|?]]; done. }
  split_and!.
  - done.
  - rewrite Hfirst. split; [intros [? ?]; by apply Hpass|].
    intros [Hne Hnf].
    destruct (Z.leb_spec (file_size file) 0); [by specialize (Hempty ltac:(done))|].
    split; [done|].
    destruct (decide (fileExtension file = Some "xlsx")); [by left|].
    destruct (decide (fileExtension file = Some "xls")); [by right|].
    exfalso. by apply Hnf, Hformat.
  - unfold FileUpload.handleFile. intros H. apply Hempty.
    destruct (_ || _); [|done]. by destruct (Z.leb_spec (file_size file) 0).
  - unfold FileUpload.handleFile. intros H.
    destruct (Z.leb_spec (file_size file) 0); [left; by apply Hempty|].
    right. apply Hformat; [done| |].
    all: intros Heq; rewrite Heq in H; cbn in H.
    + by destruct (Z.leb_spec (file_size file) 0).
    + rewrite orb_true_r in H. by destruct (Z.leb_spec (file_size file) 0).
Qed.

End Ingest.

Section Columns.
Context {RT : Runtime} {C : Conversion}.

Lemma enhance_unrecognised (headers : list string) m :
  forallb unrecognised headers = true → fold_left enhanceStep headers m = m.
Proof.
  induction headers as [|h headers IH]; simpl; [done|].
  intros [Hh Hrest]%andb_true_iff. unfold unrecognised in Hh.
  apply andb_true_iff in Hh as [[Hid Hname]%andb_true_iff Hgrade].
  apply negb_true_iff in Hid, Hname, Hgrade.
  unfold enhanceStep at 2. rewrite Hid, Hname, Hgrade. simpl. by apply IH.
Qed.

(** X13. The mapping of an empty sheet none of whose headers matches a
    pattern is positional, and does not depend on the mapping of the
    reference sheet: with one header nothing is assigned; with two, the
    identifier and the name; with more, also the third header as primary
    grade column and every header after it as additional grade column. *)
Theorem empty_sheet_positional (headers : list string) (global : Types.HeaderMapping) :
  forallb unrecognised headers = true →
  enhanceHeaderMappingForEmptySheet headers (Some global)
  = match headers with
    | [] => None
    | [_] => Some (Types.mkHeaderMapping "" "" "" [])
    | [h0; h1] => Some (Types.mkHeaderMapping h0 h1 "" [])
    | h0 :: h1 :: h2 :: more => Some (Types.mkHeaderMapping h0 h1 h2 more)
    end.
Proof.
  intros Hnone. unfold enhanceHeaderMappingForEmptySheet.
  rewrite enhance_unrecognised by done.
  destruct headers as [|h0 [|h1 [|h2 more]]]; try done.
  cbn [Types.id Types.name Types.grade Types.gradeColumns nonempty negb andb length
       Nat.leb Nat.ltb lookup list_lookup default].
  destruct more as [|h3 more]; [done|].
  cbn [Nat.leb Nat.ltb length]. do 2 f_equal.
  rewrite Parser.slice_from_drop by done. done.
Qed.

Lemma validateRows_spec (data : list (gmap string value)) (columnName : string)
    (expectedType : columnType) :
  validateRows data columnName expectedType = true
  ↔ ∀ row v, row ∈ data → row !! columnName = Some v → typed expectedType v = true.
Proof.
  induction data as [|row data IH]; simpl.
  - split; [|done]. intros _ row v Hrow. by apply elem_of_nil in Hrow.
  - destruct (row !! columnName) as [v|] eqn:Hv.
    + assert (Hstep : (if typed expectedType v
                       then validateRows data columnName expectedType else false)
                      = match expectedType with
                        | TNumber =>
                            if notNumeric v then false
                            else validateRows data columnName expectedType
                        | TString =>
                            match v with
                            | VStr _ => validateRows data columnName expectedType
                            | _ => false
                            end
                        end).
      { destruct expectedType; simpl; [by destruct (notNumeric v)|by destruct v]. }
      rewrite <- Hstep. destruct (typed expectedType v) eqn:Htyped.
      * rewrite IH. split.
        -- intros H row' v' [->|?]%elem_of_cons Hv'; [congruence|by eapply H].
        -- intros H row' v' Hrow'. apply H. by right.
      * split; [done|]. intros H. rewrite <- Htyped. apply (H row); [by left|done].
    + rewrite IH. split.
      * intros H row' v' [->|?]%elem_of_cons Hv'; [congruence|by eapply H].
      * intros H row' v' Hrow'. apply H. by right.
Qed.

(** X14. validateColumnDataType accepts a column exactly when its name is
    not empty, the first row has the column, and in every row that has the
    column its value is of the expected type (it converts to a number
    other than NaN, or it is a string); rows without the column are
    skipped, but not the first one. There is nothing to accept without
    rows. *)
Theorem column_validation (data : list (gmap string value)) (columnName : string)
    (expectedType : columnType) :
  validateColumnDataType data columnName expectedType = true
  ↔ columnName ≠ "" ∧
    (∃ first, head data = Some first ∧ is_Some (first !! columnName)) ∧
    ∀ row v, row ∈ data → row !! columnName = Some v → typed expectedType v = true.
Proof.
  unfold validateColumnDataType. destruct data as [|first rest].
  - split; [done|]. by intros (_ & (? & ? & _) & _).
  - destruct (nonempty columnName) eqn:Hname; cbn [negb].
    + apply Parser.nonempty_true in Hname. case_bool_decide as Hfirst; cbn [negb].
      * rewrite validateRows_spec. split; [|by intros (_ & _ & ?)].
        intros H. split_and!; [done|by exists first|done].
      * split; [done|]. intros (_ & (first' & [= <-] & ?) & _). done.
    + apply not_true_iff_false in Hname. rewrite Parser.nonempty_true in Hname.
      split; [done|]. intros (? & _). exfalso. by apply Hname.
Qed.


(** The first pass of detectHeaders over headers none of which is taken as
    identifier: because none matches the identifier pattern, or because
    the identifier is already set. *)
Lemma detectIdAndName_fold (step : string * string → string → string * string)
    (l : list string) (id name : string) :
  (∀ id name header,
     step (id, name) header
     = if test ReId (toLowerCase header) && negb (nonempty id) then (header, name)
       else if test ReName (toLowerCase header) && negb (nonempty name) then (id, header)
       else (id, name)) →
  nonempty id = true ∨ (∀ x, x ∈ l → test ReId (toLowerCase x) = false) →
  fold_left step l (id, name)
  = (id, if nonempty name then name else default "" (List.find namesStudent l)).
Proof.
  intros Hstep. revert name. induction l as [|x l IH]; intros name Hid; simpl.
  - by destruct name.
  - assert (Hskip : test ReId (toLowerCase x) && negb (nonempty id) = false).
    { destruct Hid as [-> | Hnone]; [by rewrite andb_false_r|].
      rewrite Hnone; [done|by left]. }
    rewrite Hstep, Hskip. unfold namesStudent at 1.
    assert (Hrest : nonempty id = true ∨ (∀ y, y ∈ l → test ReId (toLowerCase y) = false)).
    { destruct Hid as [?|Hnone]; [by left|]. right. intros y Hy. apply Hnone. by right. }
    destruct (nonempty name) eqn:Hname; cbn [negb].
    + rewrite andb_false_r, IH by done. by rewrite Hname.
    + rewrite andb_true_r. destruct (test ReName (toLowerCase x)); cbn [andb].
      * rewrite IH by done. by destruct (nonempty x).
      * rewrite IH by done. by rewrite Hname.
Qed.

Lemma find_append {A} (f : A → bool) (l l' : list A) :
  List.find f (l ++ l')
  = match List.find f l with Some x => Some x | None => List.find f l' end.
Proof. induction l as [|x l IH]; simpl; [done|]. by destruct (f x). Qed.

(** A column found by keyword is kept by the later steps of detectHeaders. *)
Lemma detectHeaders_keyword (headers : list string) :
  (nonempty (detectIdAndName headers).1 = true →
   Types.id (detectHeaders headers) = (detectIdAndName headers).1) ∧
  (nonempty (detectIdAndName headers).2 = true →
   Types.name (detectHeaders headers) = (detectIdAndName headers).2).
Proof.
  unfold detectHeaders. destruct (detectIdAndName headers) as [id0 name0]. cbn [fst snd].
  split; intros H; rewrite ?H; cbn [negb].
  all: destruct (0 <? length headers)%nat; [|done].
  all: destruct (nonempty id0) eqn:Hid; destruct (nonempty name0) eqn:Hname;
    try discriminate H; cbn [negb orb andb].
  all: repeat match goal with
              | |- context [if ?b then _ else _] => destruct b eqn:?
              end; try done.
  all: cbn [negb]; rewrite ?Hid, ?Hname; done.
Qed.

(** X20. Keywords come before positions in detectHeaders, and the header
    taken as identifier is not considered for the name: when [h] is the
    first header that matches the identifier pattern, and is not empty,
    the identifier column is [h], and the name column is the first of the
    other headers that matches the name pattern and is not empty, if
    there is one. *)
Theorem keyword_precedence (before after : list string) (h : string) :
  forallb (λ x, negb (test ReId (toLowerCase x))) before = true →
  test ReId (toLowerCase h) = true →
  h ≠ "" →
  Types.id (detectHeaders (before ++ h :: after)) = h ∧
  ∀ n, List.find namesStudent (before ++ after) = Some n →
       Types.name (detectHeaders (before ++ h :: after)) = n.
Proof.
  intros Hbefore Hh Hne.
  assert (Hnone : ∀ x, x ∈ before → test ReId (toLowerCase x) = false).
  { intros x Hx. rewrite forallb_forall in Hbefore.
    by apply negb_true_iff, Hbefore, list_elem_of_In. }
  assert (Hpass : detectIdAndName (before ++ h :: after)
                  = (h, default "" (List.find namesStudent (before ++ after)))).
  { unfold detectIdAndName. rewrite fold_left_app.
    rewrite (detectIdAndName_fold _ before "" "") by (done || by right).
    cbn [nonempty fold_left]. rewrite Hh. cbn [negb andb].
    rewrite detectIdAndName_fold by (done || (left; by apply Parser.nonempty_true)).
    rewrite find_append.
    destruct (List.find namesStudent before) as [n|] eqn:Hn; simpl; [|done].
    apply find_some in Hn as [_ Hn]. unfold namesStudent in Hn.
    apply andb_true_iff in Hn as [_ ->]. done. }
  destruct (detectHeaders_keyword (before ++ h :: after)) as [Hid Hname].
  rewrite Hpass in Hid, Hname. cbn [fst snd] in Hid, Hname.
  split; [by apply Hid, Parser.nonempty_true|].
  intros n Hn. rewrite Hn in Hname. apply Hname.
  apply find_some in Hn as [_ Hn]. unfold namesStudent in Hn.
  by apply andb_true_iff in Hn as [_ ?].
Qed.

End Columns.

Import Sample Scenario Classroom.

(** The sheet of the sample workbook that has two students. *)
Lemma records_share_keys_witness :
  located gradesSheet = true ∧
  (length (processArabicExcelSheet gradesSheet)
   ≤ e_r (decode_range gradesSheet) - Z.to_nat (locateStudents gradesSheet).1.1)%nat.
Proof.
  assert (H : located gradesSheet = true) by compute_done.
  split; [exact H|]. exact (proj2 (records_share_keys gradesSheet H)).
Defined.

(** A sheet whose second row has a number above 1000 and a name. *)
Lemma content_shape_fallback_witness :
  keywordFree shapedSheet = true ∧ locateStudents shapedSheet = (0, 0, 1).
Proof.
  assert (H : keywordFree shapedSheet = true) by compute_done.
  assert (H1 : List.find (shaped shapedSheet) (rowsOf shapedSheet) = Some 1%nat)
    by compute_done.
  assert (H2 : List.find (looksLikeStudentRow shapedSheet 1) (colsOf shapedSheet)
               = Some 0%nat) by compute_done.
  pose proof (content_shape_fallback shapedSheet H) as Hspec.
  rewrite H1 in Hspec. destruct Hspec as (C & HC & Hlocate).
  rewrite H2 in HC. injection HC as <-.
  split; [exact H|exact Hlocate].
Defined.

(** The sample workbook: an empty sheet with headers, then a sheet with
    two students. *)
Lemma parsed_workbook_witness :
  0 < file_size file ∧
  ∃ d, parseExcelFile file = Resolved d ∧ map name (sheets d) = ["Blank"; "Grades"].
Proof.
  assert (H1 : 0 < file_size file) by compute_done.
  assert (H2 : fileExtension file = Some "xlsx" ∨ fileExtension file = Some "xls")
    by (left; compute_done).
  assert (H3 : file_content file = Some []) by reflexivity.
  assert (H4 : read [] = Some workbook) by reflexivity.
  assert (H5 : SheetNames workbook = Some ["Blank"; "Grades"]) by reflexivity.
  assert (H6 : ["Blank"; "Grades"] ≠ []) by discriminate.
  destruct (parsed_workbook file [] workbook ["Blank"; "Grades"] H1 H2 H3 H4 H5 H6)
    as (d & Hd & Hnames & _).
  split; [exact H1|]. exists d. split; [exact Hd|exact Hnames].
Defined.

(** Scenario B of the specification, on an empty sheet. *)
Lemma empty_sheet_positional_witness :
  forallb unrecognised ["Column 1"; "Column 2"; "Column 3"; "Column 4"] = true ∧
  enhanceHeaderMappingForEmptySheet ["Column 1"; "Column 2"; "Column 3"; "Column 4"]
    (Some (Types.mkHeaderMapping "id" "name" "grade" []))
  = Some (Types.mkHeaderMapping "Column 1" "Column 2" "Column 3" ["Column 4"]).
Proof.
  assert (H : forallb unrecognised ["Column 1"; "Column 2"; "Column 3"; "Column 4"] = true)
    by compute_done.
  split; [exact H|].
  exact (empty_sheet_positional ["Column 1"; "Column 2"; "Column 3"; "Column 4"]
           (Types.mkHeaderMapping "id" "name" "grade" []) H).
Defined.

(** A header that matches the identifier pattern and the name pattern is
    the identifier; the name is found after it. *)
Lemma keyword_precedence_witness :
  JS.test ReName (JS.toLowerCase "Student ID") = true ∧
  Types.id (detectHeaders ([] ++ "Student ID" :: ["Name"; "Grade"])) = "Student ID" ∧
  Types.name (detectHeaders ([] ++ "Student ID" :: ["Name"; "Grade"])) = "Name".
Proof.
  assert (H0 : JS.test ReName (JS.toLowerCase "Student ID") = true) by compute_done.
  assert (H1 : forallb (λ x, negb (JS.test ReId (JS.toLowerCase x))) [] = true) by reflexivity.
  assert (H2 : JS.test ReId (JS.toLowerCase "Student ID") = true) by compute_done.
  assert (H3 : "Student ID" ≠ "") by discriminate.
  assert (H4 : List.find namesStudent ([] ++ ["Name"; "Grade"]) = Some "Name")
    by compute_done.
  destruct (keyword_precedence [] ["Name"; "Grade"] "Student ID" H1 H2 H3) as [Hid Hname].
  split; [exact H0|]. split; [exact Hid|exact (Hname "Name" H4)].
Defined.

End Workbook.
(** * Properties of the page around the parser and the table *)

Module Page.
Import JS ExcelParser Scan Labels.

Section Sheets.
Context {RT : Runtime} {X : Xlsx} {C : Conversion}.
Implicit Types (st : Index.State) (sheet : Sheet).

Lemma find_by_name (l : list Sheet) sheet :
  NoDup (map name l) → sheet ∈ l →
  List.find (λ s, String.eqb (name s) (name sheet)) l = Some sheet.
Proof.
  induction l as [|s l IH]; simpl; [by intros _ ?%elem_of_nil|].
  intros [Hs Hl]%NoDup_cons [->|Hin]%elem_of_cons.
  - by rewrite String.eqb_refl.
  - destruct (String.eqb (name s) (name sheet)) eqn:Heq; [|by apply IH].
    apply String.eqb_eq in Heq. exfalso. apply Hs. rewrite Heq.
    apply list_elem_of_fmap. by exists sheet.
Qed.

Lemma find_no_name (l : list Sheet) (n : string) :
  n ∉ map name l → List.find (λ s, String.eqb (name s) n) l = None.
Proof.
  induction l as [|s l IH]; simpl; [done|].
  intros Hn. destruct (String.eqb (name s) n) eqn:Heq.
  - apply String.eqb_eq in Heq. exfalso. apply Hn. rewrite <- Heq. by left.
  - apply IH. intros ?. apply Hn. by right.
Qed.

(** X15. What an upload leaves on the page. It never touches the
    confirmation of the mapping nor the search term. When parseExcelFile
    rejects the file, the data of the page is cleared, whatever was
    loaded before, the step is kept and the toast carries the message of
    the rejection. Otherwise the page moves to the configuration step with
    all the sheets of the result, a current sheet that is one of them, and
    a mapping that names columns of the headers shown only; the last toast
    reports the upload, preceded by the toast on empty sheets exactly when
    no sheet has data. *)
Theorem upload_outcome st (file : File) :
  let uploaded := Index.handleFileUpload st file in
  let page := Index.excelData uploaded.1 in
  Index.mappingConfirmed uploaded.1 = Index.mappingConfirmed st ∧
  Index.searchTerm uploaded.1 = Index.searchTerm st ∧
  ((∃ message, parseExcelFile file = Rejected message ∧
      page = Index.noData ∧ Index.activeStep uploaded.1 = Index.activeStep st ∧
      uploaded.2 = [Index.Error message]) ∨
   (∃ d sheet m, parseExcelFile file = Resolved d ∧
      Index.sheets page = sheets d ∧ sheets d ≠ [] ∧
      Index.currentSheet page = Some sheet ∧ sheet ∈ sheets d ∧
      Index.mapping page = Some m ∧ columnsWithin (Index.headers page) m ∧
      Index.activeStep uploaded.1 = Index.Configure ∧
      last uploaded.2 = Some Index.FileUploaded ∧
      (Index.AllSheetsAreEmpty ∈ uploaded.2 ↔ ∀ s, s ∈ sheets d → isEmptySheet s = true))).
Proof.
  cbv zeta. unfold Index.handleFileUpload.
  destruct (parseExcelFile file) as [d|message] eqn:Hparse; [|split_and!; try done; left; eauto].
  apply Workbook.parseExcelFile_Resolved in Hparse
    as (bytes & workbook & names & _ & _ & _ & _ & _ & Hnames & ->).
  destruct (Workbook.processWorkbook_spec names workbook Hnames)
    as (Hmap & (before & sheet & after & Hsheets & Hcurrent & Hbefore & Hafter) & _ & Hwithin).
  cbv zeta in Hmap, Hsheets, Hcurrent, Hwithin.
  set (d := processWorkbook names workbook) in *.
  assert (Hne : sheets d ≠ []) by (rewrite Hsheets; by destruct before).
  destruct (length (sheets d) =? 0)%nat eqn:Hlen.
  { apply Nat.eqb_eq in Hlen. by destruct (sheets d). }
  cbn [fst snd Index.mappingConfirmed Index.searchTerm Index.excelData Index.activeStep
       Index.sheets Index.currentSheet Index.mapping Index.headers].
  split_and!; [done|done|]. right. exists d, sheet, (mapping d).
  split_and!; try done.
  - rewrite Hsheets. apply elem_of_app. right. by left.
  - by rewrite last_snoc.
  - rewrite Hcurrent.
    assert (Hall : isEmptySheet sheet && forallb isEmptySheet (sheets d) = true
                   ↔ ∀ s, s ∈ sheets d → isEmptySheet s = true).
    { rewrite andb_true_iff, forallb_forall. split.
      - intros [_ H] s Hs. apply H. by apply list_elem_of_In.
      - intros H. split; [|intros s Hs; apply H; by apply list_elem_of_In].
        apply H. rewrite Hsheets. apply elem_of_app. right. by left. }
    rewrite <- Hall. destruct (isEmptySheet sheet && forallb isEmptySheet (sheets d)).
    + split; [done|]. intros _. by left.
    + split; [|done]. intros [?|?%elem_of_nil]%elem_of_cons; done.
Qed.

Lemma handleFileUpload_data st (file : File) :
  Index.excelData (Index.handleFileUpload st file).1 = Index.noData ∨
  ∃ names workbook,
    names ≠ [] ∧
    Index.excelData (Index.handleFileUpload st file).1
    = Index.mkExcelData (sheets (processWorkbook names workbook))
        (currentSheet (processWorkbook names workbook))
        (dataHeaders (processWorkbook names workbook))
        (Some (mapping (processWorkbook names workbook))).
Proof.
  unfold Index.handleFileUpload.
  destruct (parseExcelFile file) as [d|message] eqn:Hparse; [|by left].
  apply Workbook.parseExcelFile_Resolved in Hparse
    as (bytes & workbook & names & _ & _ & _ & _ & _ & Hnames & ->).
  destruct (length _ =? 0)%nat; [by left|]. right. by exists names, workbook.
Qed.

(** X16. Selecting a sheet by name, when no two sheets of the page have the
    same name. An unknown name changes nothing. The name of a sheet of the
    page makes that sheet the current one and withdraws the confirmation
    of the mapping. After an upload, selecting the sheet that is already
    the current one leaves the sheets, the current sheet, the headers and
    the mapping as the upload set them. *)
Theorem sheet_selection st (file : File) :
  NoDup (map name (Index.sheets (Index.excelData st))) →
  (∀ n, n ∉ map name (Index.sheets (Index.excelData st)) →
        Index.handleSheetChange st n = (st, None)) ∧
  (∀ sheet, sheet ∈ Index.sheets (Index.excelData st) →
     let selected := (Index.handleSheetChange st (name sheet)).1 in
     Index.currentSheet (Index.excelData selected) = Some sheet ∧
     Index.sheets (Index.excelData selected) = Index.sheets (Index.excelData st) ∧
     Index.mappingConfirmed selected = false) ∧
  (∀ st0 sheet,
     st = (Index.handleFileUpload st0 file).1 →
     Index.currentSheet (Index.excelData st) = Some sheet →
     Index.excelData (Index.handleSheetChange st (name sheet)).1 = Index.excelData st).
Proof.
  intros Hnodup. split_and!.
  - intros n Hn. unfold Index.handleSheetChange. by rewrite find_no_name.
  - intros sheet Hsheet. cbv zeta. unfold Index.handleSheetChange.
    by rewrite find_by_name.
  - intros st0 sheet Hst Hcurrent.
    destruct (handleFileUpload_data st0 file) as [Hno|(names & workbook & Hnames & Hd)];
      rewrite <- Hst in *.
    { by rewrite Hno in Hcurrent. }
    rewrite Hd in Hcurrent, Hnodup. cbn [Index.currentSheet Index.sheets] in Hcurrent, Hnodup.
    destruct (Workbook.processWorkbook_spec names workbook Hnames)
      as (_ & (before & sheet' & after & Hsheets & Hcurrent' & _) & _).
    cbv zeta in Hsheets, Hcurrent'.
    assert (sheet' = sheet) by congruence. subst sheet'.
    destruct (Workbook.processWorkbook_current names workbook sheet Hcurrent)
      as [Hheaders Hmapping].
    unfold Index.handleSheetChange. rewrite Hd at 1. cbn [Index.sheets].
    rewrite find_by_name; [|done|rewrite Hsheets; apply elem_of_app; right; by left].
    cbn [fst Index.excelData]. rewrite Hd. cbn [Index.sheets].
    rewrite Hcurrent. f_equal; [done|]. f_equal. rewrite Hmapping, Hheaders. done.
Qed.

End Sheets.

Import Sample Scenario Classroom.

(** The page after the upload of the sample workbook: a name that no sheet
    has changes nothing. *)
Lemma sheet_selection_witness :
  NoDup (map name (Index.sheets (Index.excelData uploadedPage))) ∧
  Index.handleSheetChange uploadedPage "Other" = (uploadedPage, None).
Proof.
  assert (H1 : NoDup (map name (Index.sheets (Index.excelData uploadedPage))))
    by compute_done.
  assert (H2 : "Other" ∉ map name (Index.sheets (Index.excelData uploadedPage)))
    by compute_done.
  destruct (sheet_selection uploadedPage file H1) as (Hunknown & _).
  split; [exact H1|exact (Hunknown "Other" H2)].
Defined.

End Page.
(** * Properties of the search *)

Module Search.
Import JS ArabicUtils Names.

Section Normalize.

Lemma replacement_table (s r : string) :
  replacement s = Some r → (s, r) ∈ replacements.
Proof.
  unfold replacement. destruct (List.find _ _) as [[k r']|] eqn:Hfind; [|done].
  simpl. intros [= <-]. apply find_some in Hfind as [Hin Heq]. simpl in Heq.
  apply String.eqb_eq in Heq. subst. by apply list_elem_of_In.
Qed.

Lemma replacement_None (s : string) :
  (∀ k r, (k, r) ∈ replacements → k ≠ s) → replacement s = None.
Proof.
  intros H. unfold replacement. destruct (List.find _ _) as [[k r]|] eqn:Hfind; [|done].
  apply find_some in Hfind as [Hin Heq]. simpl in Heq. apply String.eqb_eq in Heq.
  exfalso. by apply (H k r); [apply list_elem_of_In|].
Qed.

(** The letters put in place: no pair of bytes that ends on the first byte
    of one, or starts with the second byte of one, or is one, is replaced. *)
Lemma replaced_letter (s r : string) :
  replacement s = Some r →
  ∃ r1 r2, r = String r1 (String r2 EmptyString) ∧
    (∀ x, replacement (String x (String r1 EmptyString)) = None) ∧
    (∀ x, replacement (String r2 (String x EmptyString)) = None) ∧
    replacement r = None.
Proof.
  intros H%replacement_table. unfold replacements in H.
  repeat (apply elem_of_cons in H as [[= -> ->]|H]);
    [..|by apply elem_of_nil in H].
  all: eexists _, _; split; [reflexivity|]; split_and!; [intros x|intros x|].
  all: apply replacement_None; intros k r Hin; unfold replacements in Hin.
  all: repeat (apply elem_of_cons in Hin as [[= -> ->]|Hin]); [..|by apply elem_of_nil in Hin].
  all: discriminate.
Qed.

Lemma append_pair (r1 r2 : Ascii.ascii) (t : string) :
  String r1 (String r2 EmptyString) +:+ t = String r1 (String r2 t).
Proof. done. Qed.

Lemma normalizeChars_pair (a b : Ascii.ascii) (rest : string) :
  normalizeChars (String a (String b rest))
  = match replacement (String a (String b EmptyString)) with
    | Some r => r +:+ normalizeChars rest
    | None => String a (normalizeChars (String b rest))
    end.
Proof. done. Qed.

Lemma normalizeChars_skip (a : Ascii.ascii) (t : string) :
  (∀ b, replacement (String a (String b EmptyString)) = None) →
  normalizeChars (String a t) = String a (normalizeChars t).
Proof.
  intros Ha. destruct t as [|b rest]; [done|]. by rewrite normalizeChars_pair, Ha.
Qed.

Lemma two_steps (P : string → Prop) :
  P EmptyString → (∀ a, P (String a EmptyString)) →
  (∀ a b rest, P rest → P (String b rest) → P (String a (String b rest))) →
  ∀ t, P t.
Proof.
  intros H0 H1 H2 t.
  assert (H : P t ∧ ∀ a, P (String a t)); [|by destruct H].
  induction t as [|b rest [IH1 IH2]]; [by split|]. split; [apply IH2|].
  intros a. by apply H2.
Qed.

Lemma normalizeChars_length (t : string) :
  String.length (normalizeChars t) = String.length t.
Proof.
  induction t as [| |a b rest IH1 IH2] using two_steps; [done..|].
  rewrite normalizeChars_pair.
  destruct (replacement _) as [r|] eqn:Hr.
  - apply replaced_letter in Hr as (r1 & r2 & -> & _).
    rewrite append_pair. cbn [String.length]. by rewrite IH1.
  - cbn [String.length]. f_equal. exact IH2.
Qed.

(** The first byte of the normalized text is the first byte of the text or
    the first byte of a letter put in place. *)
Lemma normalizeChars_head (a b : Ascii.ascii) (rest : string) :
  replacement (String a (String b EmptyString)) = None →
  ∃ b' t', normalizeChars (String b rest) = String b' t' ∧
           replacement (String a (String b' EmptyString)) = None.
Proof.
  intros Hab. destruct rest as [|c rest]; [by exists b, EmptyString|].
  rewrite normalizeChars_pair. destruct (replacement (String b _)) as [r|] eqn:Hr.
  - apply replaced_letter in Hr as (r1 & r2 & -> & Hr1 & _). rewrite append_pair. eauto.
  - eauto.
Qed.

Lemma normalizeChars_idempotent (t : string) :
  normalizeChars (normalizeChars t) = normalizeChars t.
Proof.
  induction t as [| |a b rest IH1 IH2] using two_steps; [done..|].
  rewrite normalizeChars_pair.
  destruct (replacement _) as [r|] eqn:Hr.
  - apply replaced_letter in Hr as (r1 & r2 & -> & _ & Hr2 & Hr).
    rewrite append_pair, normalizeChars_pair, Hr.
    rewrite normalizeChars_skip by done. by rewrite IH1.
  - destruct (normalizeChars_head a b rest Hr) as (b' & t' & Heq & Hab').
    rewrite Heq, normalizeChars_pair, Hab', <- Heq. by rewrite IH2.
Qed.

Lemma includes_cons (a : Ascii.ascii) (t k : string) :
  includes (String a t) k = false → includes t k = false.
Proof. simpl. by intros [_ ?]%orb_false_iff. Qed.

Lemma includes_head (t k : string) : includes t k = false → startsWith t k = false.
Proof. destruct t; simpl; [by rewrite orb_false_r|by intros [? _]%orb_false_iff]. Qed.

Lemma normalizeChars_plain (t : string) :
  (∀ k, k ∈ variants → includes t k = false) → normalizeChars t = t.
Proof.
  induction t as [| |a b rest IH1 IH2] using two_steps; [done..|].
  intros Hplain. rewrite normalizeChars_pair.
  destruct (replacement _) as [r|] eqn:Hr.
  - apply replacement_table in Hr.
    assert (Hk : String a (String b EmptyString) ∈ variants).
    { unfold variants. apply list_elem_of_fmap. by eexists (_, _). }
    apply Hplain, includes_head in Hk. simpl in Hk.
    rewrite !Ascii.eqb_refl in Hk. simpl in Hk. by destruct rest.
  - rewrite IH2; [done|]. intros k Hk. by eapply includes_cons, Hplain.
Qed.

(** X17. normalizeArabicText keeps the length of a text, leaves a text
    without any of the seven letters it replaces as it is, and normalizes
    in one pass: a normalized text is left as it is. *)
Theorem normalization (text : string) :
  String.length (normalizeArabicText text) = String.length text ∧
  normalizeArabicText (normalizeArabicText text) = normalizeArabicText text ∧
  ((∀ k, k ∈ variants → includes text k = false) → normalizeArabicText text = text).
Proof.
  unfold normalizeArabicText. destruct text as [|a t]; [done|]. cbn [nonempty negb].
  split_and!.
  - apply normalizeChars_length.
  - pose proof (normalizeChars_length (String a t)) as Hlen.
    destruct (normalizeChars (String a t)) as [|a' t'] eqn:Hnorm; [done|].
    cbn [nonempty negb]. rewrite <- Hnorm. apply normalizeChars_idempotent.
  - apply normalizeChars_plain.
Qed.

End Normalize.

Section Display.
Context {RT : Runtime} {X : ExcelParser.Xlsx} {C : Conversion}.
Implicit Types (students : list (gmap string value)) (student : gmap string value)
  (term nameField : string) (st : Index.State).

Lemma startsWith_refl (t : string) : startsWith t t = true.
Proof. induction t as [|a t IH]; simpl; [done|]. by rewrite Ascii.eqb_refl. Qed.

Lemma includes_refl (t : string) : includes t t = true.
Proof. destruct t; simpl; [done|]. by rewrite Ascii.eqb_refl, startsWith_refl. Qed.

Lemma arabicSmartSearch_spec term nameField student :
  term ≠ "" →
  arabicSmartSearch term (student !! nameField)
  = if searchable nameField student then Some (named term nameField student) else None.
Proof.
  intros Hterm. unfold arabicSmartSearch, searchable, named.
  destruct term; [done|]. cbn [nonempty negb].
  destruct (student !! nameField) as [[t|n|b]|]; try done. by destruct t.
Qed.

Lemma filterOrThrow_Some {A} (keep : A → option bool) (p : A → bool) (l : list A) :
  (∀ x, x ∈ l → keep x = Some (p x)) → filterOrThrow keep l = Some (List.filter p l).
Proof.
  induction l as [|x l IH]; intros H; simpl; [done|].
  rewrite (H x) by (by left). rewrite IH by (intros y Hy; apply H; by right).
  simpl. by destruct (p x).
Qed.

Lemma filterOrThrow_None {A} (keep : A → option bool) (l : list A) :
  filterOrThrow keep l = None ↔ ∃ x, x ∈ l ∧ keep x = None.
Proof.
  induction l as [|x l IH]; simpl.
  - split; [done|]. by intros (x & ?%elem_of_nil & _).
  - destruct (keep x) as [b|] eqn:Hx.
    + destruct (filterOrThrow keep l) as [kept|] eqn:Hl; simpl.
      * split; [done|]. intros (y & [->|Hy]%elem_of_cons & Hnone); [congruence|].
        assert (H : (None : option (list A)) = None) by done.
        destruct IH as [_ IH]. discriminate IH. by exists y.
      * split; [|done]. intros _. destruct IH as [IH _].
        destruct (IH eq_refl) as (y & Hy & Hnone). exists y. split; [by right|done].
    + split; [|done]. intros _. exists x. split; [by left|done].
Qed.

Lemma filteredStudents_spec st (sheet : ExcelParser.Sheet) (m : Types.HeaderMapping) :
  Index.currentSheet (Index.excelData st) = Some sheet →
  Index.mapping (Index.excelData st) = Some m →
  Index.filteredStudents st
  = if nonempty (Index.searchTerm st) then
      if forallb (searchable (Types.name m)) (ExcelParser.data sheet)
      then Some (List.filter (named (Index.searchTerm st) (Types.name m))
                   (ExcelParser.data sheet))
      else None
    else Some [].
Proof.
  intros Hsheet Hm. unfold Index.filteredStudents. rewrite Hsheet, Hm.
  destruct (nonempty (Index.searchTerm st)) eqn:Hterm; [|done].
  unfold filterStudentsByName. rewrite Hterm. cbn [negb].
  apply Parser.nonempty_true in Hterm.
  destruct (forallb _ _) eqn:Hall.
  - apply filterOrThrow_Some. intros student Hs.
    rewrite arabicSmartSearch_spec by done.
    rewrite forallb_forall in Hall. rewrite Hall; [done|by apply list_elem_of_In].
  - apply filterOrThrow_None.
    apply not_true_iff_false in Hall. rewrite forallb_forall in Hall.
    destruct (existsb (λ s, negb (searchable (Types.name m) s)) (ExcelParser.data sheet))
      eqn:Hex.
    + apply existsb_exists in Hex as (student & Hin & Hneg).
      apply negb_true_iff in Hneg.
      exists student. split; [by apply list_elem_of_In|].
      rewrite arabicSmartSearch_spec by done. by rewrite Hneg.
    + exfalso. apply Hall. intros student Hin.
      apply not_true_iff_false in Hex.
      destruct (searchable (Types.name m) student) eqn:E; [done|].
      exfalso. apply Hex, existsb_exists. exists student. by rewrite E.
Qed.

(** X18. The students a search displays. With an empty search term the
    table shows all the students. With a search term, the search fails
    with a TypeError exactly when the name of some student is a truthy
    value that is not a text; otherwise the students kept are those whose
    name is a non-empty text containing the term (both in lower case and
    normalized), in the order of the sheet, and the table shows them, or
    all the students when none is kept. *)
Theorem displayed_students st (sheet : ExcelParser.Sheet) (m : Types.HeaderMapping) :
  Index.currentSheet (Index.excelData st) = Some sheet →
  Index.mapping (Index.excelData st) = Some m →
  let students := ExcelParser.data sheet in
  let term := Index.searchTerm st in
  (term = "" →
     Index.filteredStudents st = Some [] ∧
     GradeTable.getDisplayedStudents students [] = students) ∧
  (term ≠ "" →
     (Index.filteredStudents st = None
      ↔ ∃ student, student ∈ students ∧ searchable (Types.name m) student = false) ∧
     ∀ kept, Index.filteredStudents st = Some kept →
       kept = List.filter (named term (Types.name m)) students ∧
       GradeTable.getDisplayedStudents students kept
       = if decide (kept = []) then students else kept).
Proof.
  intros Hsheet Hm. cbv zeta. rewrite (filteredStudents_spec st sheet m) by done.
  split.
  - intros ->. done.
  - intros Hterm. apply Parser.nonempty_true in Hterm. rewrite Hterm.
    destruct (forallb _ _) eqn:Hall.
    + split.
      * split; [done|]. intros (student & Hin & Hs).
        rewrite forallb_forall in Hall. rewrite Hall in Hs; [done|by apply list_elem_of_In].
      * intros kept [= <-]. split; [done|]. unfold GradeTable.getDisplayedStudents.
        destruct (List.filter _ _); [done|]. by destruct (decide _).
    + split; [|done]. split; [|done]. intros _.
      apply not_true_iff_false in Hall. rewrite forallb_forall in Hall.
      destruct (existsb (λ s, negb (searchable (Types.name m) s)) (ExcelParser.data sheet))
        eqn:Hex.
      * apply existsb_exists in Hex as (student & Hin & Hneg).
        apply negb_true_iff in Hneg. exists student. split; [by apply list_elem_of_In|done].
      * exfalso. apply Hall. intros student Hin.
        apply not_true_iff_false in Hex.
        destruct (searchable (Types.name m) student) eqn:E; [done|].
        exfalso. apply Hex, existsb_exists. exists student. by rewrite E.
Qed.

Lemma getStudentNames_elem (data : list (gmap string value)) nameField (v : value) :
  v ∈ ExcelParser.getStudentNames data nameField
  ↔ truthy v = true ∧ ∃ student, student ∈ data ∧ student !! nameField = Some v.
Proof.
  unfold ExcelParser.getStudentNames. rewrite list_elem_of_omap. split.
  - intros (student & Hin & Hv). destruct (student !! nameField) as [w|] eqn:Hw; [|done].
    destruct (truthy w) eqn:Ht; [|done]. injection Hv as <-. eauto.
  - intros (Ht & student & Hin & Hv). exists student. split; [done|]. by rewrite Hv, Ht.
Qed.

(** X19. A suggestion of the search bar that is a text is the name of a
    student: selecting it makes it the search term, hands the identifier
    of the first student of that name to the table (when the mapping has
    an identifier column), and the search for it, unless it fails, keeps
    that student, so that the table shows the students kept. *)
Theorem suggestion_selects st (sheet : ExcelParser.Sheet) (m : Types.HeaderMapping)
    (selectedName : string) :
  Index.currentSheet (Index.excelData st) = Some sheet →
  Index.mapping (Index.excelData st) = Some m →
  Types.id m ≠ "" →
  VStr selectedName ∈ Index.getStudentSuggestions st →
  let selected := Index.handleSelectSuggestion st selectedName in
  Index.searchTerm selected.1 = selectedName ∧
  Index.excelData selected.1 = Index.excelData st ∧
  ∃ before student after,
    ExcelParser.data sheet = before ++ student :: after ∧
    student !! Types.name m = Some (VStr selectedName) ∧
    (∀ s, s ∈ before → s !! Types.name m ≠ Some (VStr selectedName)) ∧
    selected.2 = Some (student !! Types.id m) ∧
    ∀ kept, Index.filteredStudents selected.1 = Some kept →
      student ∈ kept ∧
      GradeTable.getDisplayedStudents (ExcelParser.data sheet) kept = kept.
Proof.
  intros Hsheet Hm Hid Hsel. cbv zeta.
  unfold Index.getStudentSuggestions in Hsel. rewrite Hsheet, Hm in Hsel.
  destruct (nonempty (Types.name m)) eqn:Hname; [|by apply elem_of_nil in Hsel].
  apply getStudentNames_elem in Hsel as (Htruthy & student0 & Hin0 & Hname0).
  simpl in Htruthy.
  unfold Index.handleSelectSuggestion. rewrite Hsheet, Hm, Hname.
  apply Parser.nonempty_true in Hid. rewrite Hid. cbn [andb fst snd Index.searchTerm
    Index.excelData].
  split_and!; [done|done|].
  set (f := λ s : gmap string value,
              match s !! Types.name m with
              | Some v => strict_eq v (VStr selectedName)
              | None => false
              end).
  assert (Hf : ∀ s, f s = true ↔ s !! Types.name m = Some (VStr selectedName)).
  { intros s. unfold f. destruct (s !! Types.name m) as [[t|n|b]|]; simpl; try done.
    rewrite String.eqb_eq. split; congruence. }
  assert (Hfind : ∃ before student after,
            ExcelParser.data sheet = before ++ student :: after ∧ f student = true ∧
            (∀ s, s ∈ before → f s = false) ∧
            List.find f (ExcelParser.data sheet) = Some student).
  { assert (Hex : ∃ s, s ∈ ExcelParser.data sheet ∧ f s = true).
    { exists student0. split; [done|]. by apply Hf. }
    clear -Hex. induction (ExcelParser.data sheet) as [|s l IH].
    { destruct Hex as (? & ?%elem_of_nil & _). done. }
    simpl. destruct (f s) eqn:Hs.
    - exists [], s, l. split_and!; try done. by intros ? ?%elem_of_nil.
    - destruct IH as (before & student & after & -> & Hst & Hbefore & Hfind).
      { destruct Hex as (y & [->|?]%elem_of_cons & Hy); [congruence|by exists y]. }
      exists (s :: before), student, after. split_and!; try done.
      intros y [->|?]%elem_of_cons; [done|by apply Hbefore]. }
  destruct Hfind as (before & student & after & Hdata & Hst & Hbefore & Hfind).
  exists before, student, after. rewrite Hfind. simpl.
  split_and!; [done|by apply Hf| |done|].
  - intros s Hs Heq. apply Hf in Heq. by rewrite Hbefore in Heq.
  - intros kept.
    rewrite (filteredStudents_spec _ sheet m) by done. cbn [Index.searchTerm].
    rewrite Htruthy. destruct (forallb _ _); [|done]. intros [= <-].
    assert (Hkept : student ∈ List.filter (named selectedName (Types.name m))
                                (ExcelParser.data sheet)).
    { apply list_elem_of_In, filter_In. split.
      - apply list_elem_of_In. rewrite Hdata. apply elem_of_app. right. by left.
      - unfold named. apply Hf in Hst. rewrite Hst, Htruthy. apply includes_refl. }
    split; [done|]. unfold GradeTable.getDisplayedStudents.
    destruct (List.filter _ _); [by apply elem_of_nil in Hkept|done].
Qed.

End Display.

Import Sample Scenario Classroom.

(** The search for "ann" in the sample workbook. *)
Lemma displayed_students_witness :
  Index.currentSheet (Index.excelData searchingPage) = Some gradesData ∧
  ∀ kept, Index.filteredStudents searchingPage = Some kept →
    kept = List.filter (named (Index.searchTerm searchingPage) (Types.name gradesMapping))
             (ExcelParser.data gradesData).
Proof.
  assert (H1 : Index.currentSheet (Index.excelData searchingPage) = Some gradesData)
    by compute_done.
  assert (H2 : Index.mapping (Index.excelData searchingPage) = Some gradesMapping)
    by compute_done.
  assert (H3 : Index.searchTerm searchingPage ≠ "") by discriminate.
  destruct (displayed_students searchingPage gradesData gradesMapping H1 H2) as [_ Hterm].
  destruct (Hterm H3) as [_ Hkept].
  split; [exact H1|]. intros kept Hk. exact (proj1 (Hkept kept Hk)).
Defined.

(** The suggestion "Ann B" of the sample workbook. *)
Lemma suggestion_selects_witness :
  VStr "Ann B" ∈ Index.getStudentSuggestions searchingPage ∧
  Index.searchTerm (Index.handleSelectSuggestion searchingPage "Ann B").1 = "Ann B".
Proof.
  assert (H1 : Index.currentSheet (Index.excelData searchingPage) = Some gradesData)
    by compute_done.
  assert (H2 : Index.mapping (Index.excelData searchingPage) = Some gradesMapping)
    by compute_done.
  assert (H3 : Types.id gradesMapping ≠ "") by compute_done.
  assert (H4 : VStr "Ann B" ∈ Index.getStudentSuggestions searchingPage) by compute_done.
  split; [exact H4|].
  exact (proj1 (suggestion_selects searchingPage gradesData gradesMapping "Ann B"
                  H1 H2 H3 H4)).
Defined.

End Search.
(** * Properties of the mapping card *)

Module Card.
Import JS HeaderMappingCard.

Section Card.
Variable headers : list string.
Variable mapping : Types.HeaderMapping.
Implicit Types (columns : list string) (index : nat).

Lemma keep_all columns (keep : nat → string → option string) :
  (∀ i c, columns !! i = Some c → keep i c = Some c) →
  omap id (imap keep columns) = columns.
Proof.
  revert keep. induction columns as [|c columns IH]; intros keep H; [done|].
  rewrite imap_cons. cbn [omap list_omap]. rewrite (H 0%nat c) by done. cbn [id].
  f_equal. apply IH. intros i c' Hi. by apply (H (S i)).
Qed.

Lemma handleRemoveGradeColumn_spec columns index :
  handleRemoveGradeColumn columns index = take index columns ++ drop (S index) columns.
Proof.
  unfold handleRemoveGradeColumn. revert index.
  induction columns as [|c columns IH]; intros index; [by destruct index|].
  rewrite imap_cons. cbn beta. destruct index as [|index].
  - rewrite bool_decide_eq_true_2 by done. cbn [omap list_omap id take drop app].
    apply keep_all. intros i c' _. cbn beta. unfold compose.
    by rewrite bool_decide_eq_false_2.
  - rewrite bool_decide_eq_false_2 by done. cbn [omap list_omap id take drop app]. f_equal.
    rewrite <- IH. f_equal. apply imap_ext. intros i c' _. unfold compose.
    by rewrite (bool_decide_ext (S i = S index) (i = index)) by lia.
Qed.

(** X21. Adding a grade column in the mapping card appends the first
    header that is not the identifier, the name, the primary grade column
    or an additional grade column; when every header is used nothing
    changes. The additional columns stay pairwise distinct and apart from
    the three other columns if they were, and removing the column just
    added gives back the columns as they were. Removing a column at an
    index beyond the last one changes nothing. *)
Theorem add_grade_column columns :
  (match handleAddGradeColumn headers mapping columns with
   | Some added =>
      ∃ before newColumn after,
        added = columns ++ [newColumn] ∧
        headers = before ++ newColumn :: after ∧
        (newColumn ∉ usedHeaders mapping columns) ∧
        (∀ h, h ∈ before → h ∈ usedHeaders mapping columns) ∧
        (NoDup columns → NoDup added) ∧
        (∀ c, c ∈ [Types.id mapping; Types.name mapping; Types.grade mapping] →
              c ∉ columns → c ∉ added) ∧
        handleRemoveGradeColumn added (length columns) = columns
   | None => ∀ h, h ∈ headers → h ∈ usedHeaders mapping columns
   end) ∧
  ∀ index, (length columns ≤ index)%nat → handleRemoveGradeColumn columns index = columns.
Proof.
  split.
  - unfold handleAddGradeColumn.
    destruct (List.filter _ headers) as [|newColumn rest] eqn:Hfilter.
    + intros h Hh. pose proof (Workbook.filter_none _ _ Hfilter h Hh) as Hused.
      apply negb_false_iff, bool_decide_eq_true in Hused. done.
    + apply Workbook.filter_first in Hfilter as (before & after & Hheaders & Hnew & Hbefore).
      apply negb_true_iff, bool_decide_eq_false in Hnew.
      exists before, newColumn, after. split_and!; try done.
      * intros h Hh. apply Hbefore in Hh. by apply negb_false_iff, bool_decide_eq_true in Hh.
      * intros Hnodup. apply NoDup_app. split_and!; [done| |apply NoDup_singleton].
        intros c Hc ->%list_elem_of_singleton. apply Hnew. unfold usedHeaders.
        by do 3 right.
      * intros c Hc Hnotin [?| ->%list_elem_of_singleton]%elem_of_app; [done|].
        apply Hnew. unfold usedHeaders.
        repeat (apply elem_of_cons in Hc as [->|Hc]); [by left|by right; left|by do 2 right; left|].
        by apply elem_of_nil in Hc.
      * rewrite handleRemoveGradeColumn_spec.
        rewrite take_app_length, drop_ge by (rewrite length_app; simpl; lia).
        by rewrite app_nil_r.
  - intros index Hindex. rewrite handleRemoveGradeColumn_spec.
    rewrite take_ge, drop_ge by lia. by rewrite app_nil_r.
Qed.

End Card.
End Card.
